(** * Mock-exam lifecycle of the AI tutor backend

    A shallow embedding of the exam generator ([create_mock_exam]), the exam
    grader ([submit_exam]), the per-subject performance counters
    ([UserSubject] rows, touched by grading, by ad-hoc question solving and by
    profile updates) and the dashboard's study streak
    ([calculate_study_streak]).

    The second part embeds further routes and services on the same store:
    the exam history, the counts of the student dashboard, study plans, the
    link between parents and children, the upload of past questions into the
    question bank with the list of available papers, and saved lessons with
    their video search.

    Conventions of the embedding:
    - a table is the list of its rows in insertion order; [.first()] is the
      first row of that list satisfying the filter;
    - a handler takes the database and returns its outcome together with the
      database after the request; a handler that raises never reaches
      [db.commit()], so it returns the database it was given;
    - Python [int] is [Z]; a JSON object whose iteration order matters is an
      association list, one that is only looked up is a [gmap];
    - Python [float] is IEEE 754 binary64, through the [SpecFloat] operations
      of the standard library at precision 53;
    - the clock ([datetime.utcnow()]), the random source of [random.sample]
      and the answers of the external AI service are arguments. *)

From Stdlib Require Import ZArith Lia SpecFloat.
From stdpp Require Import gmap strings list pretty sorting.

Local Open Scope string_scope.
Local Open Scope list_scope.
Local Open Scope Z_scope.

(** ** Exceptions and results *)

Inductive Error :=
| HTTPException (status_code : Z) (detail : string)
| RequestValidationError (loc : string)
| IndexError
| ZeroDivisionError
| ValueError.

Definition Result (A : Type) : Type := (Error + A)%type.

Definition ret {A} (a : A) : Result A := inr a.
Definition raise {A} (e : Error) : Result A := inl e.

Definition bind {A B} (m : Result A) (k : A -> Result B) : Result B :=
  match m with
  | inl e => inl e
  | inr a => k a
  end.

Notation "'let*' x ':=' m 'in' k" := (bind m (fun x => k))
  (at level 10, x name, m at level 200, k at level 200).

(** A [for] loop whose body may raise: the exception leaves the loop. *)
Fixpoint for_each {S A} (body : S -> A -> Result S) (items : list A) (st : S)
  : Result S :=
  match items with
  | [] => ret st
  | x :: rest => let* st' := body st x in for_each body rest st'
  end.

Definition HTTP_400_BAD_REQUEST : Z := 400.
Definition HTTP_404_NOT_FOUND : Z := 404.
Definition HTTP_500_INTERNAL_SERVER_ERROR : Z := 500.

(** ** Python built-ins used by the handlers *)

Module Py.

(** [str(n)] for an [int]. *)
Definition str (n : Z) : string := pretty n.

(** Truthiness of an optional string: [None] and [""] are falsy. *)
Definition truthy (s : option string) : bool :=
  match s with
  | Some s => negb (String.eqb s "")
  | None => false
  end.

(** [x or d] on an [int]. *)
Definition int_or (x d : Z) : Z := if x =? 0 then d else x.

(** [s or d] on an optional string. *)
Definition str_or (s : option string) (d : string) : string :=
  match s with
  | Some s => if String.eqb s "" then d else s
  | None => d
  end.

Definition len {A} (l : list A) : Z := Z.of_nat (length l).

(** [l[i]]: negative indices count from the end, anything outside
    [-len(l), len(l)) raises [IndexError]. *)
Definition getitem {A} (l : list A) (i : Z) : Result A :=
  let j := if i <? 0 then len l + i else i in
  if (0 <=? j) && (j <? len l) then
    match l !! Z.to_nat j with
    | Some x => ret x
    | None => raise IndexError
    end
  else raise IndexError.

(** A [dict] whose iteration order is observed: keys in insertion order. *)
Definition odict (V : Type) : Type := list (string * V).

Fixpoint dict_get {V} (d : odict V) (k : string) (dflt : V) : V :=
  match d with
  | [] => dflt
  | (k', v) :: d' => if String.eqb k' k then v else dict_get d' k dflt
  end.

(** [d[k] = v]: an existing key keeps its place, a new key goes last. *)
Fixpoint dict_set {V} (d : odict V) (k : string) (v : V) : odict V :=
  match d with
  | [] => [(k, v)]
  | (k', v') :: d' =>
      if String.eqb k' k then (k', v) :: d' else (k', v') :: dict_set d' k v
  end.

(** [sorted(l, key=key)]: the stable ascending sort. An element is put in
    front of the first element of the sorted tail whose key is not
    smaller, so elements with equal keys keep their order. *)
Fixpoint insert_by {A} (key : A -> Z) (x : A) (l : list A) : list A :=
  match l with
  | [] => [x]
  | y :: l' => if key x <=? key y then x :: y :: l'
               else y :: insert_by key x l'
  end.

Definition sorted {A} (key : A -> Z) (l : list A) : list A :=
  foldr (insert_by key) [] l.

(** [sorted(l, key=key, reverse=True)]: CPython reverses the list, sorts it
    stably in ascending order and reverses the outcome. *)
Definition sorted_reverse {A} (key : A -> Z) (l : list A) : list A :=
  reverse (sorted key (reverse l)).

(** [sep.join(l)] *)
Definition join (sep : string) (l : list string) : string :=
  String.concat sep l.

(** *** [float]: binary64 *)

Definition prec : Z := 53.
Definition emax : Z := 1024.

Definition float_of_int (n : Z) : spec_float := binary_normalize prec emax n 0 false.

(** [a / b] on two [int]s (true division). *)
Definition truediv (a b : Z) : Result spec_float :=
  if b =? 0 then raise ZeroDivisionError
  else ret (SFdiv prec emax (float_of_int a) (float_of_int b)).

Definition fmul (x y : spec_float) : spec_float := SFmul prec emax x y.

(** [int(x)]: truncation towards zero; infinities and NaN raise. *)
Definition int_of_float (x : spec_float) : Result Z :=
  match x with
  | S754_zero _ => ret 0
  | S754_finite s m e =>
      let a := if 0 <=? e then Z.pos m * 2 ^ e else Z.pos m / 2 ^ (- e) in
      ret (if s then - a else a)
  | S754_infinity _ | S754_nan => raise ValueError
  end.

(** *** [random.sample(population, k)]

    Selection without replacement from a pool, as CPython does it for a
    population that is small next to the sample: the i-th draw [j] is below
    the number of items still in the pool, the item at [j] is taken and the
    last item of the pool moves to [j]. The random source is the list of raw
    draws, reduced modulo the size of the pool; a missing draw counts as 0. *)
Fixpoint sample_loop {A} (draws : list nat) (pool : list A) (k : nat) : list A :=
  match k with
  | O => []
  | S k' =>
      let n := length pool in
      let j := (hd 0%nat draws mod n)%nat in
      match pool !! j, pool !! (n - 1)%nat with
      | Some x, Some y => x :: sample_loop (tl draws) (take (n - 1) (<[j := y]> pool)) k'
      | _, _ => []
      end
  end.

Definition random_sample {A} (draws : list nat) (population : list A) (k : Z)
  : Result (list A) :=
  if (0 <=? k) && (k <=? len population)
  then ret (sample_loop draws population (Z.to_nat k))
  else raise ValueError.

End Py.

(** ** Data model *)

(** Modelled from the spec: the model class [PastQuestion] (the spec's
    QuestionBankEntry) is imported by the routes from [app.models.question]
    but its declaration is not part of the sources; the fields are the ones
    the routes read and write. [correct_answer] is nullable (see the
    migration [make_correct_answer_nullable]). *)
Module PastQuestion.
Record t := mk {
  id : Z;
  exam_type : string;
  subject : string;
  year : string;
  question_number : Z;
  question_text : string;
  options : list (string * string);
  correct_answer : option string;
  topic : option string;
  source_pdf : option string;
  page_number : option Z
}.
End PastQuestion.

(** A question as stored in the JSON column [ExamAttempt.questions]: the
    dictionaries built by [create_mock_exam] and those of [SAMPLE_QUESTIONS].
    [topic = None] is a dictionary without the key ["topic"]. *)
Module StoredQuestion.
Record t := mk {
  question : string;
  options : list (string * string);
  correct_answer : option string;
  topic : option string
}.
End StoredQuestion.

Module ExamQuestion.
Record t := mk {
  question_number : Z;
  question_text : string;
  options : list (string * string);
  correct_answer : option string
}.
End ExamQuestion.

Module MockExamRequest.
Record t := mk {
  exam_type : string;
  subject : string;
  year : option string;
  number_of_questions : Z;
  time_limit_minutes : Z
}.
End MockExamRequest.

Module MockExamResponse.
Record t := mk {
  exam_id : Z;
  exam_type : string;
  subject : string;
  total_questions : Z;
  time_limit_minutes : Z;
  questions : list ExamQuestion.t;
  started_at : Z
}.
End MockExamResponse.

Module ExamSubmissionRequest.
Record t := mk {
  exam_id : Z;
  answers : list (Z * string);
  time_taken_seconds : Z
}.
End ExamSubmissionRequest.

Module DetailedResult.
Record t := mk {
  question_number : Z;
  question_text : string;
  user_answer : string;
  correct_answer : option string;
  is_correct : bool;
  topic : string
}.
End DetailedResult.

Module ExamResultResponse.
Record t := mk {
  exam_id : Z;
  total_questions : Z;
  correct_count : Z;
  score_percentage : Z;
  time_taken_seconds : Z;
  weak_topics : list string;
  detailed_results : list DetailedResult.t;
  recommendations : list string
}.
End ExamResultResponse.

Module ExamAttempt.
Record t := mk {
  id : Z;
  user_id : Z;
  exam_type : string;
  subject : string;
  year : option string;
  questions : list StoredQuestion.t;
  user_answers : list (Z * string);
  correct_answers : gmap string (option string);
  time_limit_minutes : Z;
  time_taken_seconds : Z;
  total_questions : Z;
  correct_count : Z;
  score_percentage : Z;
  weak_topics : option (list string);
  started_at : Z;
  completed_at : option Z
}.
End ExamAttempt.

Module UserSubject.
Record t := mk {
  id : Z;
  user_id : Z;
  subject_name : string;
  total_questions_attempted : Z;
  correct_answers : Z
}.
End UserSubject.

(** The columns of [question_history] that the handlers below read back;
    the stored image reference, solution text and JSON payloads are write-only
    here and left out. *)
Module QuestionHistory.
Record t := mk {
  id : Z;
  user_id : Z;
  question_text : string;
  subject : option string;
  topic : option string;
  solved_at : Z
}.
End QuestionHistory.

Module User.
Record t := mk {
  id : Z;
  email : string;
  phone : option string;
  full_name : string;
  role : string;
  student_class : option string
}.
End User.

(** The relational store: one list of rows per table, in insertion order. *)
Record DB := mkDB {
  users : list User.t;
  user_subjects : list UserSubject.t;
  question_history : list QuestionHistory.t;
  exam_attempts : list ExamAttempt.t;
  past_questions : list PastQuestion.t
}.

Definition empty_db : DB := mkDB [] [] [] [] [].

(** Autoincremented primary key: one more than the largest key in use. *)
Definition next_id (ids : list Z) : Z := 1 + foldr Z.max 0 ids.

(** [.first()] on a filtered query, with the position of the row. *)
Definition first {A} (P : A -> bool) (rows : list A) : option (nat * A) :=
  list_find (fun r => P r = true) rows.

(** ** Request validation ([app/schemas/question.py]) *)

(** The JSON body of [POST /create] before validation: an optional field is
    [None] when the caller left it out. *)
Module MockExamBody.
Record t := mk {
  exam_type : string;
  subject : string;
  year : option string;
  number_of_questions : option Z;
  time_limit_minutes : option Z
}.
End MockExamBody.

(** [int = Field(default=dflt, ge=lo, le=hi)]: the default is taken as it is,
    a supplied value must lie within the bounds. *)
Definition int_field (loc : string) (dflt lo hi : Z) (v : option Z) : Result Z :=
  match v with
  | None => ret dflt
  | Some x =>
      if (lo <=? x) && (x <=? hi) then ret x
      else raise (RequestValidationError loc)
  end.

Definition validate_MockExamRequest (body : MockExamBody.t)
  : Result MockExamRequest.t :=
  let* n := int_field "number_of_questions" 40 10 100
              (MockExamBody.number_of_questions body) in
  let* t := int_field "time_limit_minutes" 60 15 180
              (MockExamBody.time_limit_minutes body) in
  ret (MockExamRequest.mk (MockExamBody.exam_type body)
         (MockExamBody.subject body) (MockExamBody.year body) n t).

(** ** Exam generator ([app/api/routes/exams.py]) *)

Definition SAMPLE_QUESTIONS : gmap string (list StoredQuestion.t) :=
  <["English Language" :=
      [ StoredQuestion.mk "Choose the correct spelling:"
          [("A", "Recieve"); ("B", "Receive"); ("C", "Receeve"); ("D", "Recive")]
          (Some "B") (Some "Spelling") ]]>
  (<["Mathematics" :=
      [ StoredQuestion.mk "Simplify: 3x + 5x - 2x"
          [("A", "6x"); ("B", "8x"); ("C", "10x"); ("D", "5x")]
          (Some "A") (Some "Algebraic Processes");
        StoredQuestion.mk "What is the square root of 144?"
          [("A", "10"); ("B", "11"); ("C", "12"); ("D", "13")]
          (Some "C") (Some "Number and Numeration");
        StoredQuestion.mk "Solve for x: 2x + 5 = 15"
          [("A", "3"); ("B", "4"); ("C", "5"); ("D", "6")]
          (Some "C") (Some "Linear Equations") ]]> ∅).

(** The query of [create_mock_exam]: same exam type and subject, an answer
    that is not null, and the requested year unless it is absent, empty or
    ["Random Mix"]. *)
Definition matches_request (request : MockExamRequest.t) (pq : PastQuestion.t) : bool :=
  String.eqb (PastQuestion.exam_type pq) (MockExamRequest.exam_type request)
  && String.eqb (PastQuestion.subject pq) (MockExamRequest.subject request)
  && bool_decide (PastQuestion.correct_answer pq <> None)
  && (if Py.truthy (MockExamRequest.year request)
         && negb (bool_decide (MockExamRequest.year request = Some "Random Mix"))
      then bool_decide (Some (PastQuestion.year pq) = MockExamRequest.year request)
      else true).

Definition questions_pool_db (request : MockExamRequest.t) (db : DB)
  : list PastQuestion.t :=
  List.filter (matches_request request) (past_questions db).

(** [{str(i+1): answer for i, q in enumerate(selected)}] *)
Definition answer_key {A} (answer : A -> option string) (selected : list A)
  : gmap string (option string) :=
  foldl (fun m (p : string * option string) => <[p.1 := p.2]> m) ∅
    (imap (fun i q => (Py.str (Z.of_nat i + 1), answer q)) selected).

Definition hide_past_question (i : nat) (pq : PastQuestion.t) : ExamQuestion.t :=
  ExamQuestion.mk (Z.of_nat i + 1) (PastQuestion.question_text pq)
    (PastQuestion.options pq) None.

Definition store_past_question (pq : PastQuestion.t) : StoredQuestion.t :=
  StoredQuestion.mk (PastQuestion.question_text pq) (PastQuestion.options pq)
    (PastQuestion.correct_answer pq)
    (Some (Py.str_or (PastQuestion.topic pq) "Unknown")).

Definition hide_sample_question (i : nat) (q : StoredQuestion.t) : ExamQuestion.t :=
  ExamQuestion.mk (Z.of_nat i + 1) (StoredQuestion.question q)
    (StoredQuestion.options q) None.

(** [request.number_of_questions or 50] and [request.time_limit_minutes or 90]
    of the question-bank branch. *)
Definition num_questions (request : MockExamRequest.t) : Z :=
  Py.int_or (MockExamRequest.number_of_questions request) 50.

Definition bank_time_limit (request : MockExamRequest.t) : Z :=
  Py.int_or (MockExamRequest.time_limit_minutes request) 90.

Definition add_exam_attempt (e : ExamAttempt.t) (db : DB) : DB :=
  mkDB (users db) (user_subjects db) (question_history db)
    (exam_attempts db ++ [e]) (past_questions db).

Definition create_mock_exam (request : MockExamRequest.t) (current_user : Z)
    (now : Z) (draws : list nat) (db : DB) : Result MockExamResponse.t * DB :=
  let pool := questions_pool_db request db in
  let exam_id := next_id (map ExamAttempt.id (exam_attempts db)) in
  match pool with
  | _ :: _ =>
      match Py.random_sample draws pool
              (Z.min (num_questions request) (Py.len pool)) with
      | inl e => (inl e, db)
      | inr selected_past_questions =>
          let exam_questions := imap hide_past_question selected_past_questions in
          let questions_for_storage := map store_past_question selected_past_questions in
          let time_limit := bank_time_limit request in
          let exam_attempt :=
            ExamAttempt.mk exam_id current_user
              (MockExamRequest.exam_type request) (MockExamRequest.subject request)
              (MockExamRequest.year request)
              questions_for_storage []
              (answer_key PastQuestion.correct_answer selected_past_questions)
              time_limit 0 (Py.len exam_questions) 0 0 None now None in
          (ret (MockExamResponse.mk exam_id
                  (MockExamRequest.exam_type request) (MockExamRequest.subject request)
                  (Py.len exam_questions) time_limit exam_questions now),
           add_exam_attempt exam_attempt db)
      end
  | [] =>
      let questions_pool :=
        default [] (SAMPLE_QUESTIONS !! MockExamRequest.subject request) in
      match questions_pool with
      | [] =>
          (raise (HTTPException HTTP_400_BAD_REQUEST
                    ("No questions available for " +:+ MockExamRequest.subject request
                     +:+ " " +:+ MockExamRequest.exam_type request
                     +:+ ". Please upload past questions first or try a different subject.")),
           db)
      | _ :: _ =>
          match Py.random_sample draws questions_pool
                  (Z.min (MockExamRequest.number_of_questions request)
                     (Py.len questions_pool)) with
          | inl e => (inl e, db)
          | inr selected_questions =>
              let exam_questions := imap hide_sample_question selected_questions in
              let exam_attempt :=
                ExamAttempt.mk exam_id current_user
                  (MockExamRequest.exam_type request) (MockExamRequest.subject request)
                  (MockExamRequest.year request)
                  selected_questions []
                  (answer_key StoredQuestion.correct_answer selected_questions)
                  (MockExamRequest.time_limit_minutes request) 0
                  (Py.len selected_questions) 0 0 None now None in
              (ret (MockExamResponse.mk exam_id
                      (MockExamRequest.exam_type request) (MockExamRequest.subject request)
                      (Py.len exam_questions)
                      (MockExamRequest.time_limit_minutes request) exam_questions now),
               add_exam_attempt exam_attempt db)
          end
      end
  end.

(** [POST /create]: the body is validated before the handler runs. *)
Definition post_create (body : MockExamBody.t) (current_user : Z) (now : Z)
    (draws : list nat) (db : DB) : Result MockExamResponse.t * DB :=
  match validate_MockExamRequest body with
  | inl e => (inl e, db)
  | inr request => create_mock_exam request current_user now draws db
  end.

(** ** Exam grader ([app/api/routes/exams.py]) *)

(** The three accumulators of the grading loop. *)
Module Grading.
Record t := mk {
  correct_count : Z;
  detailed_results : list DetailedResult.t;
  weak_topics : Py.odict Z
}.
Definition init : t := mk 0 [] [].
End Grading.

(** [exam.correct_answers.get(str(q_num))]: [None] for a missing key. *)
Definition key_get (key : gmap string (option string)) (q_num : Z) : option string :=
  match key !! Py.str q_num with
  | Some v => v
  | None => None
  end.

(** [question.get("topic", "Unknown")] *)
Definition topic_of (question : StoredQuestion.t) : string :=
  default "Unknown" (StoredQuestion.topic question).

(** One turn of [for q_num, user_answer in submission.answers.items()]. *)
Definition grade_step (exam : ExamAttempt.t) (st : Grading.t) (item : Z * string)
  : Result Grading.t :=
  let q_num := item.1 in
  let user_answer := item.2 in
  let correct_answer := key_get (ExamAttempt.correct_answers exam) q_num in
  let is_correct := bool_decide (Some user_answer = correct_answer) in
  let* st1 :=
    if is_correct then
      ret (Grading.mk (Grading.correct_count st + 1)
             (Grading.detailed_results st) (Grading.weak_topics st))
    else
      let* question := Py.getitem (ExamAttempt.questions exam) (q_num - 1) in
      let topic := topic_of question in
      ret (Grading.mk (Grading.correct_count st) (Grading.detailed_results st)
             (Py.dict_set (Grading.weak_topics st) topic
                (Py.dict_get (Grading.weak_topics st) topic 0 + 1))) in
  let* q_text := Py.getitem (ExamAttempt.questions exam) (q_num - 1) in
  let* q_topic := Py.getitem (ExamAttempt.questions exam) (q_num - 1) in
  ret (Grading.mk (Grading.correct_count st1)
         (Grading.detailed_results st1 ++
            [DetailedResult.mk q_num (StoredQuestion.question q_text) user_answer
               correct_answer is_correct (topic_of q_topic)])
         (Grading.weak_topics st1)).

Definition grade_loop (exam : ExamAttempt.t) (answers : list (Z * string))
  : Result Grading.t :=
  for_each (grade_step exam) answers Grading.init.

(** [int((correct_count / total_questions) * 100)] *)
Definition score_of (correct_count total_questions : Z) : Result Z :=
  let* ratio := Py.truediv correct_count total_questions in
  Py.int_of_float (Py.fmul ratio (Py.float_of_int 100)).

(** [sorted(weak_topics.items(), key=lambda x: x[1], reverse=True)] and the
    names of its first three entries. *)
Definition rank_weak_topics (weak_topics : Py.odict Z) : list (string * Z) :=
  Py.sorted_reverse snd weak_topics.

Definition weak_topic_names (weak_topics : Py.odict Z) : list string :=
  map fst (take 3 (rank_weak_topics weak_topics)).

Definition recommendations_for (subject : string) (score_percentage : Z)
    (weak_topics_names : list string) : list string :=
  ((if score_percentage <? 50
    then ["Focus on improving your understanding of " +:+ subject +:+ " fundamentals"]
    else [])
   ++ (match weak_topics_names with
       | [] => []
       | _ :: _ => ["Spend more time studying: " +:+ Py.join ", " weak_topics_names]
       end)
   ++ (if 70 <=? score_percentage
       then ["Great job! Keep practicing to maintain this level"]
       else []))%list.

Definition finish_attempt (exam : ExamAttempt.t)
    (submission : ExamSubmissionRequest.t) (correct_count score_percentage : Z)
    (weak_topics_names : list string) (now : Z) : ExamAttempt.t :=
  ExamAttempt.mk (ExamAttempt.id exam) (ExamAttempt.user_id exam)
    (ExamAttempt.exam_type exam) (ExamAttempt.subject exam) (ExamAttempt.year exam)
    (ExamAttempt.questions exam)
    (ExamSubmissionRequest.answers submission)
    (ExamAttempt.correct_answers exam)
    (ExamAttempt.time_limit_minutes exam)
    (ExamSubmissionRequest.time_taken_seconds submission)
    (ExamAttempt.total_questions exam)
    correct_count score_percentage (Some weak_topics_names)
    (ExamAttempt.started_at exam) (Some now).

Definition is_subject_of (user_id : Z) (subject_name : string) (us : UserSubject.t) : bool :=
  (UserSubject.user_id us =? user_id)
  && String.eqb (UserSubject.subject_name us) subject_name.

Definition add_to_counters (attempted correct : Z) (us : UserSubject.t) : UserSubject.t :=
  UserSubject.mk (UserSubject.id us) (UserSubject.user_id us)
    (UserSubject.subject_name us)
    (UserSubject.total_questions_attempted us + attempted)
    (UserSubject.correct_answers us + correct).

(** The statistics update shared by grading and solving: the first row of
    the user for the subject, if there is one, is changed in place. *)
Definition bump_user_subject (user_id : Z) (subject_name : string)
    (attempted correct : Z) (rows : list UserSubject.t) : option (list UserSubject.t) :=
  match first (is_subject_of user_id subject_name) rows with
  | Some (j, us) => Some (<[j := add_to_counters attempted correct us]> rows)
  | None => None
  end.

Definition is_attempt_of (exam_id user_id : Z) (e : ExamAttempt.t) : bool :=
  (ExamAttempt.id e =? exam_id) && (ExamAttempt.user_id e =? user_id).

Definition submit_exam (submission : ExamSubmissionRequest.t) (current_user : Z)
    (now : Z) (db : DB) : Result ExamResultResponse.t * DB :=
  match first (is_attempt_of (ExamSubmissionRequest.exam_id submission) current_user)
          (exam_attempts db) with
  | None => (raise (HTTPException HTTP_404_NOT_FOUND "Exam not found"), db)
  | Some (i, exam) =>
      match ExamAttempt.completed_at exam with
      | Some _ =>
          (raise (HTTPException HTTP_400_BAD_REQUEST "Exam already submitted"), db)
      | None =>
          match grade_loop exam (ExamSubmissionRequest.answers submission) with
          | inl e => (inl e, db)
          | inr g =>
              let correct_count := Grading.correct_count g in
              match score_of correct_count (ExamAttempt.total_questions exam) with
              | inl e => (inl e, db)
              | inr score_percentage =>
                  let weak_topics_names := weak_topic_names (Grading.weak_topics g) in
                  let exam' :=
                    finish_attempt exam submission correct_count score_percentage
                      weak_topics_names now in
                  let user_subjects' :=
                    default (user_subjects db)
                      (bump_user_subject current_user (ExamAttempt.subject exam)
                         (ExamAttempt.total_questions exam) correct_count
                         (user_subjects db)) in
                  (ret (ExamResultResponse.mk (ExamAttempt.id exam)
                          (ExamAttempt.total_questions exam) correct_count
                          score_percentage
                          (ExamSubmissionRequest.time_taken_seconds submission)
                          weak_topics_names (Grading.detailed_results g)
                          (recommendations_for (ExamAttempt.subject exam)
                             score_percentage weak_topics_names)),
                   mkDB (users db) user_subjects' (question_history db)
                     (<[i := exam']> (exam_attempts db)) (past_questions db))
              end
          end
      end
  end.

(** ** Ad-hoc question solving ([app/api/routes/questions.py]) *)

Module QuestionSolveRequest.
Record t := mk {
  question_text : option string;
  question_image : option string;
  subject : option string
}.
End QuestionSolveRequest.

(** What the handlers read from the dictionary returned by the AI service;
    a field is [None] when the key is missing or null. *)
Module SolutionData.
Record t := mk {
  question_text : option string;
  subject : option string;
  topic : option string
}.
End SolutionData.

Module QuestionSolveResponse.
Record t := mk {
  question_id : Z;
  question_text : string;
  subject : string;
  topic : string
}.
End QuestionSolveResponse.

(** The upload of [POST /solve-with-image]: its content type and the verdict
    of the image decoder ([Some msg] when it raises). *)
Module UploadFile.
Record t := mk {
  content_type : option string;
  decode_error : option string
}.
End UploadFile.

(** [if user_subject: ... += 1 else: db.add(UserSubject(..., 1))] *)
Definition count_solved_question (user_id : Z) (subject_name : string)
    (rows : list UserSubject.t) : list UserSubject.t :=
  match bump_user_subject user_id subject_name 1 0 rows with
  | Some rows' => rows'
  | None =>
      (rows ++ [UserSubject.mk (next_id (map UserSubject.id rows)) user_id
                  subject_name 1 0])%list
  end.

(** The part shared by both solving handlers, from "Save to database" on. *)
Definition save_solution (question_text : string) (solution_data : SolutionData.t)
    (current_user : Z) (now : Z) (db : DB) : Result QuestionSolveResponse.t * DB :=
  let question_id := next_id (map QuestionHistory.id (question_history db)) in
  let question_history' :=
    (question_history db ++
       [QuestionHistory.mk question_id current_user question_text
          (SolutionData.subject solution_data) (SolutionData.topic solution_data) now])%list in
  let user_subjects' :=
    match SolutionData.subject solution_data with
    | Some subject_name =>
        if Py.truthy (Some subject_name)
        then count_solved_question current_user subject_name (user_subjects db)
        else user_subjects db
    | None => user_subjects db
    end in
  (ret (QuestionSolveResponse.mk question_id question_text
          (default "Unknown" (SolutionData.subject solution_data))
          (default "Unknown" (SolutionData.topic solution_data))),
   mkDB (users db) user_subjects' question_history' (exam_attempts db)
     (past_questions db)).

(** [ai] is the outcome of the call to the AI service: the dictionary it
    returned, or the message of the exception it raised. *)
Definition solve_question (request : QuestionSolveRequest.t)
    (ai : string + SolutionData.t) (current_user : Z) (now : Z) (db : DB)
  : Result QuestionSolveResponse.t * DB :=
  let question_text := QuestionSolveRequest.question_text request in
  if Py.truthy (QuestionSolveRequest.question_image request) then
    match ai with
    | inl msg =>
        (raise (HTTPException HTTP_500_INTERNAL_SERVER_ERROR
                  ("Vision AI failed: " +:+ msg)), db)
    | inr solution_data =>
        let question_text :=
          default (Py.str_or question_text "Question from image")
            (SolutionData.question_text solution_data) in
        save_solution question_text solution_data current_user now db
    end
  else if negb (Py.truthy question_text) then
    (raise (HTTPException HTTP_400_BAD_REQUEST
              "Please provide either question text or image"), db)
  else
    match ai with
    | inl msg =>
        (raise (HTTPException HTTP_500_INTERNAL_SERVER_ERROR
                  ("AI service error: " +:+ msg)), db)
    | inr solution_data =>
        save_solution (default "" question_text) solution_data current_user now db
    end.

Definition solve_question_with_image (image : UploadFile.t)
    (ai : string + SolutionData.t) (current_user : Z) (now : Z) (db : DB)
  : Result QuestionSolveResponse.t * DB :=
  match UploadFile.content_type image with
  | None => (raise (HTTPException HTTP_400_BAD_REQUEST "File must be an image"), db)
  | Some content_type =>
      if negb (String.prefix "image/" content_type) then
        (raise (HTTPException HTTP_400_BAD_REQUEST "File must be an image"), db)
      else
        match UploadFile.decode_error image with
        | Some msg =>
            (raise (HTTPException HTTP_400_BAD_REQUEST
                      ("Invalid image file: " +:+ msg)), db)
        | None =>
            match ai with
            | inl msg =>
                (raise (HTTPException HTTP_500_INTERNAL_SERVER_ERROR
                          ("Vision AI service error: " +:+ msg)), db)
            | inr solution_data =>
                save_solution
                  (default "Question from image"
                     (SolutionData.question_text solution_data))
                  solution_data current_user now db
            end
        end
  end.

(** ** Registration and profile update ([app/api/routes/auth.py]) *)

Module UserRegister.
Record t := mk {
  email : string;
  phone : option string;
  full_name : string;
  role : string;
  student_class : option string;
  subjects : list string
}.
End UserRegister.

Module UserUpdate.
Record t := mk {
  full_name : option string;
  phone : option string;
  student_class : option string;
  subjects : option (list string)
}.
End UserUpdate.

(** [db.add(UserSubject(user_id=..., subject_name=...))] for each name: the
    counters take their column default 0. *)
Definition add_subjects (user_id : Z) (names : list string)
    (rows : list UserSubject.t) : list UserSubject.t :=
  foldl (fun rows name =>
           (rows ++ [UserSubject.mk (next_id (map UserSubject.id rows)) user_id name 0 0])%list)
    rows names.

Definition register_user (user_data : UserRegister.t) (db : DB) : Result Z * DB :=
  match first (fun u => String.eqb (User.email u) (UserRegister.email user_data))
          (users db) with
  | Some _ => (raise (HTTPException HTTP_400_BAD_REQUEST "Email already registered"), db)
  | None =>
      let phone_taken :=
        if Py.truthy (UserRegister.phone user_data)
        then bool_decide
               (is_Some (first (fun u => bool_decide (User.phone u = UserRegister.phone user_data))
                           (users db)))
        else false in
      if phone_taken then
        (raise (HTTPException HTTP_400_BAD_REQUEST "Phone number already registered"), db)
      else
        let new_id := next_id (map User.id (users db)) in
        let new_user :=
          User.mk new_id (UserRegister.email user_data) (UserRegister.phone user_data)
            (UserRegister.full_name user_data) (UserRegister.role user_data)
            (UserRegister.student_class user_data) in
        (ret new_id,
         mkDB (users db ++ [new_user])
           (add_subjects new_id (UserRegister.subjects user_data) (user_subjects db))
           (question_history db) (exam_attempts db) (past_questions db))
  end.

Definition update_my_profile (update_data : UserUpdate.t) (current_user : Z) (db : DB)
  : Result unit * DB :=
  match first (fun u => User.id u =? current_user) (users db) with
  | None => (raise (HTTPException 401 "Could not validate credentials"), db)
  | Some (i, u) =>
      let full_name :=
        if Py.truthy (UserUpdate.full_name update_data)
        then default (User.full_name u) (UserUpdate.full_name update_data)
        else User.full_name u in
      let phone_in_use :=
        if Py.truthy (UserUpdate.phone update_data)
        then bool_decide
               (is_Some (first (fun v => bool_decide (User.phone v = UserUpdate.phone update_data)
                                         && negb (User.id v =? current_user))
                           (users db)))
        else false in
      if phone_in_use then
        (raise (HTTPException HTTP_400_BAD_REQUEST "Phone number already in use"), db)
      else
        let phone :=
          if Py.truthy (UserUpdate.phone update_data)
          then UserUpdate.phone update_data else User.phone u in
        let student_class :=
          if Py.truthy (UserUpdate.student_class update_data)
          then UserUpdate.student_class update_data else User.student_class u in
        let user_subjects' :=
          match UserUpdate.subjects update_data with
          | Some names =>
              add_subjects current_user names
                (List.filter (fun us => negb (UserSubject.user_id us =? current_user))
                   (user_subjects db))
          | None => user_subjects db
          end in
        (ret tt,
         mkDB (<[i := User.mk (User.id u) (User.email u) phone full_name (User.role u)
                        student_class]> (users db))
           user_subjects' (question_history db) (exam_attempts db) (past_questions db))
  end.

(** ** Study streak ([app/api/routes/dashboard.py]) *)

(** Timestamps are seconds since the epoch (UTC); [func.date] and [.date()]
    give the day number. *)
Definition date_of (timestamp : Z) : Z := timestamp / 86400.

(** [.distinct().order_by(... .desc())]: each date once, latest first. *)
Fixpoint insert_desc (d : Z) (dates : list Z) : list Z :=
  match dates with
  | [] => [d]
  | x :: rest =>
      if d =? x then dates
      else if x <? d then d :: dates
      else x :: insert_desc d rest
  end.

Definition activity_dates (user_id : Z) (db : DB) : list Z :=
  foldr insert_desc []
    (map (fun q => date_of (QuestionHistory.solved_at q))
       (List.filter (fun q => QuestionHistory.user_id q =? user_id) (question_history db))).

(** The loop of [calculate_study_streak]; the [else: break] branch returns
    the streak reached so far. *)
Fixpoint streak_loop (dates : list Z) (streak current_date : Z) : Z :=
  match dates with
  | [] => streak
  | activity_date :: rest =>
      if (activity_date =? current_date) || (activity_date =? current_date - streak)
      then streak_loop rest (streak + 1) activity_date
      else streak
  end.

Definition calculate_study_streak (user_id : Z) (now : Z) (db : DB) : Z :=
  match activity_dates user_id db with
  | [] => 0
  | dates => streak_loop dates 0 (date_of now)
  end.

(** ** The handlers as operations on the store *)

Inductive Operation :=
| OpRegister (user_data : UserRegister.t)
| OpUpdateProfile (update_data : UserUpdate.t) (current_user : Z)
| OpSolve (request : QuestionSolveRequest.t) (ai : string + SolutionData.t)
    (current_user now : Z)
| OpSolveWithImage (image : UploadFile.t) (ai : string + SolutionData.t)
    (current_user now : Z)
| OpCreateExam (body : MockExamBody.t) (current_user now : Z) (draws : list nat)
| OpSubmitExam (submission : ExamSubmissionRequest.t) (current_user now : Z).

Definition run (op : Operation) (db : DB) : DB :=
  match op with
  | OpRegister user_data => (register_user user_data db).2
  | OpUpdateProfile update_data u => (update_my_profile update_data u db).2
  | OpSolve request ai u now => (solve_question request ai u now db).2
  | OpSolveWithImage image ai u now => (solve_question_with_image image ai u now db).2
  | OpCreateExam body u now draws => (post_create body u now draws db).2
  | OpSubmitExam submission u now => (submit_exam submission u now db).2
  end.

(** ** Specification-level notions *)

(** The year a request asks for, when it asks for a specific one. *)
Definition requested_year (request : MockExamRequest.t) : option string :=
  match MockExamRequest.year request with
  | Some y => if decide (y = "" ∨ y = "Random Mix") then None else Some y
  | None => None
  end.

(** A bank entry matches a request: same exam type and subject, an answer
    that is not null, and the requested year if a specific one is requested. *)
Definition matching (request : MockExamRequest.t) (pq : PastQuestion.t) : Prop :=
  PastQuestion.exam_type pq = MockExamRequest.exam_type request
  ∧ PastQuestion.subject pq = MockExamRequest.subject request
  ∧ PastQuestion.correct_answer pq ≠ None
  ∧ match requested_year request with
    | Some y => PastQuestion.year pq = y
    | None => True
    end.

#[global] Instance matching_dec request pq : Decision (matching request pq).
Proof. unfold matching. destruct (requested_year request); apply _. Defined.

(** A request that passed validation. *)
Definition validated (request : MockExamRequest.t) : Prop :=
  10 ≤ MockExamRequest.number_of_questions request ≤ 100
  ∧ 15 ≤ MockExamRequest.time_limit_minutes request ≤ 180.

(** What a supplied optional integer must satisfy to be accepted. *)
Definition within (lo hi : Z) (v : option Z) : Prop :=
  match v with
  | Some x => lo ≤ x ≤ hi
  | None => True
  end.

#[global] Instance within_dec lo hi v : Decision (within lo hi v).
Proof. destruct v; apply _. Defined.

(** The invariant of stored attempts: [total_questions] is the number of
    question snapshots, an attempt has between 1 and 100 of them, and the
    answer key has an entry exactly for the positions 1 to [total_questions]. *)
Definition attempt_wf (e : ExamAttempt.t) : Prop :=
  ExamAttempt.total_questions e = Py.len (ExamAttempt.questions e)
  ∧ 1 ≤ ExamAttempt.total_questions e ≤ 100
  ∧ ∀ p, is_Some (ExamAttempt.correct_answers e !! Py.str p)
         ↔ 1 ≤ p ≤ ExamAttempt.total_questions e.

Definition db_wf (db : DB) : Prop := Forall attempt_wf (exam_attempts db).

(** The positions of a submission are those of the attempt, each once. *)
Definition positions_in_range (exam : ExamAttempt.t) (answers : list (Z * string)) : Prop :=
  NoDup answers.*1
  ∧ Forall (fun p => 1 ≤ p ≤ Py.len (ExamAttempt.questions exam)) answers.*1.

(** The submitted label is the key's label for the position. *)
Definition answered_correctly (exam : ExamAttempt.t) (item : Z * string) : Prop :=
  Some item.2 = key_get (ExamAttempt.correct_answers exam) item.1.

#[global] Instance answered_correctly_dec exam item
  : Decision (answered_correctly exam item) :=
  decide (Some item.2 = key_get (ExamAttempt.correct_answers exam) item.1).

Definition matches_among (exam : ExamAttempt.t) (answers : list (Z * string)) : Z :=
  Z.of_nat (length (filter (answered_correctly exam) answers)).

(** The topic charged for a miss at position [p]. *)
Definition topic_at (exam : ExamAttempt.t) (p : Z) : string :=
  match Py.getitem (ExamAttempt.questions exam) (p - 1) with
  | inr q => topic_of q
  | inl _ => "Unknown"
  end.

(** The topics of the submitted positions answered incorrectly, in the order
    of the submission. *)
Definition missed_topics (exam : ExamAttempt.t) (answers : list (Z * string))
  : list string :=
  (fun item => topic_at exam item.1)
    <$> filter (fun item => ¬ answered_correctly exam item) answers.

(** Topics in the order of their first encounter. *)
Definition first_seen (topics : list string) : list string :=
  foldl (fun (seen : list string) t => if decide (t ∈ seen) then seen else (seen ++ [t])%list)
    [] topics.

(** How often a topic occurs. *)
Definition misses (t : string) (topics : list string) : Z :=
  Z.of_nat (length (filter (fun s => s = t) topics)).

(** The miss counter the spec describes: one entry per topic, in the order of
    first encounter, with the number of misses. *)
Definition tally (topics : list string) : Py.odict Z :=
  (fun t => (t, misses t topics)) <$> first_seen topics.

(** [weak_topics[topic] = weak_topics.get(topic, 0) + 1] *)
Definition count_miss (d : Py.odict Z) (t : string) : Py.odict Z :=
  Py.dict_set d t (Py.dict_get d t 0 + 1).

(** The counters of a user for a subject, as [.first()] finds them. *)
Definition counters_of (rows : list UserSubject.t) (user_id : Z) (subject_name : string)
  : option (Z * Z) :=
  (fun r : nat * UserSubject.t =>
     (UserSubject.total_questions_attempted r.2, UserSubject.correct_answers r.2))
    <$> first (is_subject_of user_id subject_name) rows.

Definition counters (db : DB) (user_id : Z) (subject_name : string) : option (Z * Z) :=
  counters_of (user_subjects db) user_id subject_name.

(** The effect of one solved question on the counters: the counter of
    attempted questions of the user for the subject named by the AI goes up
    by one, starting from a new row with 1 and 0 when there is none; no other
    counter changes. *)
Definition solved_question_counted (db db' : DB) (user_id : Z)
    (solution_data : SolutionData.t) : Prop :=
  ∀ s, SolutionData.subject solution_data = Some s → s ≠ "" →
    ∀ u' s',
      counters db' u' s'
      = if decide ((u', s') = (user_id, s))
        then Some (match counters db user_id s with
                   | Some p => (p.1 + 1, p.2)
                   | None => (1, 0)
                   end)
        else counters db u' s'.

(** An operation never decreases a counter of a well-formed store. *)
Definition never_decreases (op : Operation) : Prop :=
  ∀ db user_id subject_name a c,
    db_wf db →
    counters db user_id subject_name = Some (a, c) →
    ∃ a' c', counters (run op db) user_id subject_name = Some (a', c')
             ∧ a ≤ a' ∧ c ≤ c'.

(** A profile update that supplies a list of subjects. *)
Definition replaces_subjects (op : Operation) : Prop :=
  match op with
  | OpUpdateProfile update_data _ => is_Some (UserUpdate.subjects update_data)
  | _ => False
  end.

(** [k] consecutive days ending at [today], latest first. *)
Definition consecutive_days (today : Z) (k : nat) : list Z :=
  (fun i => today - Z.of_nat i) <$> seq 0 k.


(** The claim that a request without the optional fields asks for 50
    questions in 90 minutes on the question-bank branch. *)
Definition bank_defaults_50_90 : Prop :=
  ∀ body request,
    MockExamBody.number_of_questions body = None →
    MockExamBody.time_limit_minutes body = None →
    validate_MockExamRequest body = inr request →
    num_questions request = 50 ∧ bank_time_limit request = 90.

(** The truncated percentage the spec describes. *)
Definition floor_percentage (correct_count total_questions : Z) : Z :=
  100 * correct_count / total_questions.

(** The pairs (correct, total), with at most 100 questions, on which the
    binary64 computation of [score_of] falls below the truncated percentage. *)
Definition score_exceptions : list (Z * Z) := [(29, 50); (29, 100); (57, 100); (58, 100)].

Definition is_score_exception (correct_count total_questions : Z) : bool :=
  existsb (fun x => (x.1 =? correct_count) && (x.2 =? total_questions)) score_exceptions.

(** [score_of] returns the truncated percentage, or one less on an
    exception. *)
Definition score_check (correct_count total_questions : Z) : bool :=
  match score_of correct_count total_questions with
  | inr s =>
      if is_score_exception correct_count total_questions
      then s =? floor_percentage correct_count total_questions - 1
      else s =? floor_percentage correct_count total_questions
  | inl _ => false
  end.

(** ** Concrete inputs *)

(** A bank of three WAEC Mathematics questions of 2020, the last one
    without a topic. *)
Definition small_bank : list PastQuestion.t :=
  [ PastQuestion.mk 1 "WAEC" "Mathematics" "2020" 1 "Simplify 2x + 3x"
      [("A", "5x"); ("B", "6x")] (Some "A") (Some "Algebra") None None;
    PastQuestion.mk 2 "WAEC" "Mathematics" "2020" 2 "Angles of a triangle add up to"
      [("A", "90"); ("B", "180")] (Some "B") (Some "Geometry") None None;
    PastQuestion.mk 3 "WAEC" "Mathematics" "2020" 3 "Solve x + 1 = 2"
      [("A", "1"); ("B", "2")] (Some "A") None None None ].

Definition db_small_bank : DB := mkDB [] [] [] [] small_bank.

(** A bank of [n] entries for the same paper, all with answer A. *)
Definition bank_entry (i : nat) : PastQuestion.t :=
  PastQuestion.mk (Z.of_nat i) "WAEC" "Mathematics" "2020" (Z.of_nat i)
    ("Question " +:+ pretty i) [("A", "yes"); ("B", "no")] (Some "A")
    (Some "Algebra") None None.

Definition db_bank_of (n : nat) : DB := mkDB [] [] [] [] (bank_entry <$> seq 1 n).

(** A request that leaves the optional fields out. *)
Definition body_plain : MockExamBody.t :=
  MockExamBody.mk "WAEC" "Mathematics" None None None.

(** User 7 has started an exam on the small bank: attempt 1, whose
    positions 1, 2, 3 are the bank entries 1, 3, 2, with key A, A, B ... *)
Definition db_started : DB := (post_create body_plain 7 1000 [] db_small_bank).2.

Definition attempt_started : ExamAttempt.t :=
  let questions :=
    [ StoredQuestion.mk "Simplify 2x + 3x" [("A", "5x"); ("B", "6x")]
        (Some "A") (Some "Algebra");
      StoredQuestion.mk "Solve x + 1 = 2" [("A", "1"); ("B", "2")]
        (Some "A") (Some "Unknown");
      StoredQuestion.mk "Angles of a triangle add up to" [("A", "90"); ("B", "180")]
        (Some "B") (Some "Geometry") ] in
  ExamAttempt.mk 1 7 "WAEC" "Mathematics" None questions []
    (answer_key StoredQuestion.correct_answer questions) 60 0 3 0 0 None 1000 None.

(** ... and has handed it in with one right and two wrong answers. *)
Definition submission_full : ExamSubmissionRequest.t :=
  ExamSubmissionRequest.mk 1 [(1, "A"); (2, "B"); (3, "A")] 600.


(** An exam of 100 questions, all with key A, and a submission with the
    right answer at positions 1 to 29 and a wrong one elsewhere. *)
Definition db_started_100 : DB :=
  (post_create (MockExamBody.mk "WAEC" "Mathematics" None (Some 100) None)
     7 1000 [] (db_bank_of 120)).2.

Definition submission_29_of_100 : ExamSubmissionRequest.t :=
  ExamSubmissionRequest.mk 1
    ((fun i => (Z.of_nat i, if (i <=? 29)%nat then "A" else "B")) <$> seq 1 100) 600.

Definition db_graded : DB := (submit_exam submission_full 7 2000 db_started).2.

(** User 7 solved a question on each of the days 10, 9 and 8 (in seconds:
    noon of each day); it is now the evening of day 10. *)
Definition db_three_days : DB :=
  mkDB [] []
    [ QuestionHistory.mk 1 7 "Q1" (Some "Mathematics") None (8 * 86400 + 43200);
      QuestionHistory.mk 2 7 "Q2" (Some "Mathematics") None (9 * 86400 + 43200);
      QuestionHistory.mk 3 7 "Q3" (Some "Mathematics") None (10 * 86400 + 43200) ]
    [] [].

Definition evening_of_day_10 : Z := 10 * 86400 + 72000.

(** A student registers with Mathematics, takes the exam on the small bank
    and hands it in with one right answer out of three; then the profile is
    updated with a list of subjects. *)
Definition student : UserRegister.t :=
  UserRegister.mk "ada@example.com" None "Ada" "student" (Some "SS3") ["Mathematics"].

Definition db_enrolled : DB :=
  run (OpCreateExam body_plain 1 1000 []) (run (OpRegister student) db_small_bank).

Definition db_practised : DB := run (OpSubmitExam submission_full 1 2000) db_enrolled.

Definition profile_update : UserUpdate.t :=
  UserUpdate.mk None None None (Some ["Mathematics"; "Physics"]).

Definition already_submitted : Error :=
  HTTPException HTTP_400_BAD_REQUEST "Exam already submitted".

(** * Further parts of the backend *)
(** ** Further notions for the exam routes *)

(** The key's label for a position is the stored answer of its question. *)
Definition key_agrees (e : ExamAttempt.t) : Prop :=
  ∀ p q, 1 ≤ p →
    ExamAttempt.questions e !! Z.to_nat (p - 1) = Some q →
    key_get (ExamAttempt.correct_answers e) p = StoredQuestion.correct_answer q.

(** Every stored question has an answer. *)
Definition answerable (e : ExamAttempt.t) : Prop :=
  Forall (fun q => is_Some (StoredQuestion.correct_answer q)) (ExamAttempt.questions e).

(** The submission that gives, at every position, the stored answer. *)
Definition perfect_answers (e : ExamAttempt.t) : list (Z * string) :=
  imap (fun i q => (Z.of_nat i + 1, default "" (StoredQuestion.correct_answer q)))
    (ExamAttempt.questions e).

(** The score as a number, 0 where [score_of] raises. *)
Definition score_value (correct_count total_questions : Z) : Z :=
  match score_of correct_count total_questions with
  | inr s => s
  | inl _ => 0
  end.

(** The facts about one score that are checked by evaluation: it lies
    between 0 and 100, is 100 only when every answer is right and 0 only when
    none is, and one more right answer does not lower it. *)
Definition score_facts (correct_count total_questions : Z) : bool :=
  let s := score_value correct_count total_questions in
  (0 <=? s) && (s <=? 100)
  && Bool.eqb (s =? 100) (correct_count =? total_questions)
  && Bool.eqb (s =? 0) (correct_count =? 0)
  && ((total_questions <=? correct_count)
      || (s <=? score_value (correct_count + 1) total_questions)).

Definition fundamentals_advice (subject : string) : string :=
  "Focus on improving your understanding of " +:+ subject +:+ " fundamentals".

Definition congratulation : string :=
  "Great job! Keep practicing to maintain this level".

Definition study_advice (weak_topics_names : list string) : string :=
  "Spend more time studying: " +:+ Py.join ", " weak_topics_names.

(** The row of the breakdown for one submitted answer. *)
Definition detail_of (exam : ExamAttempt.t) (item : Z * string) : DetailedResult.t :=
  DetailedResult.mk item.1
    (match Py.getitem (ExamAttempt.questions exam) (item.1 - 1) with
     | inr q => StoredQuestion.question q
     | inl _ => ""
     end)
    item.2
    (key_get (ExamAttempt.correct_answers exam) item.1)
    (bool_decide (answered_correctly exam item))
    (topic_at exam item.1).

(** ** Exam history ([app/api/routes/exams.py]) *)

(** [.order_by(column.desc())] on a column of integers. Rows with the same
    value keep the order of the table here; SQL leaves their order open. *)
Definition order_by_desc {A} (column : A -> Z) (rows : list A) : list A :=
  Py.sorted_reverse column rows.

(** A timestamp column that is not null in the rows at hand. *)
Definition completed_time (e : ExamAttempt.t) : Z :=
  default 0 (ExamAttempt.completed_at e).

Definition history_entry (exam : ExamAttempt.t) : ExamResultResponse.t :=
  ExamResultResponse.mk (ExamAttempt.id exam) (ExamAttempt.total_questions exam)
    (ExamAttempt.correct_count exam) (ExamAttempt.score_percentage exam)
    (ExamAttempt.time_taken_seconds exam)
    (default [] (ExamAttempt.weak_topics exam)) [] [].

Definition in_history (subject : option string) (current_user : Z) (e : ExamAttempt.t)
  : bool :=
  (ExamAttempt.user_id e =? current_user)
  && bool_decide (ExamAttempt.completed_at e <> None)
  && (if Py.truthy subject
      then bool_decide (Some (ExamAttempt.subject e) = subject)
      else true).

Definition get_exam_history (subject : option string) (current_user : Z) (db : DB)
  : list ExamResultResponse.t :=
  map history_entry
    (order_by_desc completed_time
       (List.filter (in_history subject current_user) (exam_attempts db))).


(** ** Further notions for the dashboard *)

(** The day that [calculate_study_streak] expects at position [i] of the
    activity dates: the comparison with [current_date - timedelta(days=streak)]
    moves the expected day back by [i] at step [i]. *)
Definition streak_day (today i : Z) : Z := today - i * (i + 1) / 2.

(** The counts of [get_student_dashboard] ([func.count(...).scalar() or 0]);
    each takes the reading of the clock that its query uses. *)
Definition total_questions_solved (current_user : Z) (db : DB) : Z :=
  Py.len (List.filter (fun q => QuestionHistory.user_id q =? current_user)
            (question_history db)).

Definition questions_today (current_user : Z) (now : Z) (db : DB) : Z :=
  Py.len (List.filter
            (fun q => (QuestionHistory.user_id q =? current_user)
                      && (date_of (QuestionHistory.solved_at q) =? date_of now))
            (question_history db)).

Definition questions_this_week (current_user : Z) (now : Z) (db : DB) : Z :=
  let week_ago := now - 7 * 86400 in
  Py.len (List.filter
            (fun q => (QuestionHistory.user_id q =? current_user)
                      && (week_ago <=? QuestionHistory.solved_at q))
            (question_history db)).

Definition total_exams_taken (current_user : Z) (db : DB) : Z :=
  Py.len (List.filter
            (fun e => (ExamAttempt.user_id e =? current_user)
                      && bool_decide (ExamAttempt.completed_at e ≠ None))
            (exam_attempts db)).

(** No row of the user is dated after the day of [now]. *)
Definition none_after (user_id : Z) (now : Z) (db : DB) : Prop :=
  Forall (fun q => QuestionHistory.user_id q = user_id →
                   date_of (QuestionHistory.solved_at q) ≤ date_of now)
    (question_history db).

(** The user has a row dated [day]. *)
Definition active_on (user_id : Z) (day : Z) (db : DB) : Prop :=
  ∃ q, q ∈ question_history db
       ∧ QuestionHistory.user_id q = user_id
       ∧ date_of (QuestionHistory.solved_at q) = day.

(** Activity on days 10, 9 and 7, none on day 8. *)
Definition db_skipped_day : DB :=
  mkDB [] []
    [ QuestionHistory.mk 1 7 "Q1" (Some "Mathematics") None (7 * 86400 + 43200);
      QuestionHistory.mk 2 7 "Q2" (Some "Mathematics") None (9 * 86400 + 43200);
      QuestionHistory.mk 3 7 "Q3" (Some "Mathematics") None (10 * 86400 + 43200) ]
    [] [].

(** A text question and the answer of the AI service to it. *)
Definition question_2_plus_2 : QuestionSolveRequest.t :=
  QuestionSolveRequest.mk (Some "What is 2 + 2?") None None.

Definition answer_2_plus_2 : SolutionData.t :=
  SolutionData.mk None (Some "Mathematics") (Some "Arithmetic").

Definition photo : UploadFile.t := UploadFile.mk (Some "image/png") None.


(** ** Further notions for the accounts *)

(** Two different rows of [users] never share an id, an email or a
    non-empty phone number. *)
Definition users_wf (db : DB) : Prop :=
  ∀ i j u v,
    users db !! i = Some u → users db !! j = Some v →
    User.id u = User.id v
    ∨ User.email u = User.email v
    ∨ (Py.truthy (User.phone u) = true ∧ User.phone u = User.phone v) →
    i = j.

(** Every row of [user_subjects] belongs to a user. *)
Definition subjects_owned (db : DB) : Prop :=
  Forall (fun us => UserSubject.user_id us ∈ User.id <$> users db) (user_subjects db).

(** The rows that [add_subjects] creates when the next free id is [id0]. *)
Definition enrolled_rows (id0 user_id : Z) (names : list string) : list UserSubject.t :=
  imap (fun i name => UserSubject.mk (id0 + Z.of_nat i) user_id name 0 0) names.

Definition rows_of_user (user_id : Z) (rows : list UserSubject.t) : list UserSubject.t :=
  List.filter (fun us => UserSubject.user_id us =? user_id) rows.

Definition rows_of_others (user_id : Z) (rows : list UserSubject.t) : list UserSubject.t :=
  List.filter (fun us => negb (UserSubject.user_id us =? user_id)) rows.

(** A second student, who gives a phone number. *)
Definition student_with_phone : UserRegister.t :=
  UserRegister.mk "bayo@example.com" (Some "0801") "Bayo" "student" None
    ["Physics"; "Chemistry"].

(** What a row of [user_subjects] says, without its id. *)
Definition subject_entry (us : UserSubject.t) : Z * string * Z * Z :=
  (UserSubject.user_id us, UserSubject.subject_name us,
   UserSubject.total_questions_attempted us, UserSubject.correct_answers us).

(** The entry of a subject just chosen: both counters at 0. *)
Definition fresh_entry (user_id : Z) (name : string) : Z * string * Z * Z :=
  (user_id, name, 0, 0).

Definition db_two_students : DB :=
  run (OpRegister student_with_phone) db_practised.


(** ** Study plans ([app/api/routes/study_plans.py]) *)

(** One day of the plan that the AI service returns, with the keys that the
    handlers read; a field is [None] when the key is missing. *)
Module DailyPlan.
Record t := mk {
  day : option string;
  subject : option string;
  topic : option string;
  duration_minutes : option Z;
  activities : option (list string)
}.
End DailyPlan.

(** One entry of ["weekly_breakdown"]; [daily_schedule] is empty when the
    key is missing. *)
Module WeekPlan.
Record t := mk {
  daily_schedule : list DailyPlan.t
}.
End WeekPlan.

(** The dictionary returned by [ai_service.generate_study_plan];
    [weekly_breakdown] is empty when the key is missing. *)
Module PlanData.
Record t := mk {
  weekly_breakdown : list WeekPlan.t
}.
End PlanData.

(** The fields of the request that the handler stores; the subjects and weak
    areas only go to the AI service. *)
Module StudyPlanRequest.
Record t := mk {
  target_exam : string;
  exam_date : option Z;
  hours_per_day : Z;
  days_per_week : Z
}.
End StudyPlanRequest.

Module StudyPlan.
Record t := mk {
  id : Z;
  user_id : Z;
  plan_name : string;
  target_exam : string;
  exam_date : option Z;
  hours_per_day : Z;
  days_per_week : Z;
  weekly_schedule : list WeekPlan.t;
  is_active : bool;
  completion_percentage : Z;
  created_at : Z
}.
End StudyPlan.

Module DailySchedule.
Record t := mk {
  day : option string;
  time_slot : string;
  subject : option string;
  topic : option string;
  duration_minutes : option Z;
  activity_type : string
}.
End DailySchedule.

Module StudyPlanResponse.
Record t := mk {
  id : Z;
  plan_name : string;
  target_exam : string;
  exam_date : option Z;
  hours_per_day : Z;
  days_per_week : Z;
  weekly_schedule : list DailySchedule.t;
  completion_percentage : Z;
  is_active : bool;
  created_at : Z
}.
End StudyPlanResponse.

(** [max(1, delta.days // 7)], or 12 without an exam date; [delta.days] is
    the number of whole days from [now] to the exam date, rounded down. *)
Definition weeks_until_exam (request : StudyPlanRequest.t) (now : Z) : Z :=
  match StudyPlanRequest.exam_date request with
  | Some exam_date =>
      let delta_days := (exam_date - now) / 86400 in
      Z.max 1 (delta_days / 7)
  | None => 12
  end.

(** [query.filter(user_id == ..., is_active == True).update({"is_active": False})]
    on one row. *)
Definition deactivate (user_id : Z) (p : StudyPlan.t) : StudyPlan.t :=
  if (StudyPlan.user_id p =? user_id) && StudyPlan.is_active p
  then StudyPlan.mk (StudyPlan.id p) (StudyPlan.user_id p) (StudyPlan.plan_name p)
         (StudyPlan.target_exam p) (StudyPlan.exam_date p) (StudyPlan.hours_per_day p)
         (StudyPlan.days_per_week p) (StudyPlan.weekly_schedule p) false
         (StudyPlan.completion_percentage p) (StudyPlan.created_at p)
  else p.

(** The entry for one day as [generate_study_plan] formats it:
    [daily.get("activities", ["study"])[0]]. *)
Definition format_generated_day (daily : DailyPlan.t) : Result DailySchedule.t :=
  let* activity_type := Py.getitem (default ["study"] (DailyPlan.activities daily)) 0 in
  ret (DailySchedule.mk (DailyPlan.day daily) "Morning/Afternoon"
         (DailyPlan.subject daily) (DailyPlan.topic daily)
         (DailyPlan.duration_minutes daily) activity_type).

(** The entry for one day as the reading handlers format it:
    [... [0] if daily.get("activities") else "study"], with 60 minutes where
    the duration is missing. *)
Definition format_stored_day (daily : DailyPlan.t) : Result DailySchedule.t :=
  let* activity_type :=
    match DailyPlan.activities daily with
    | Some (a :: rest) => Py.getitem (a :: rest) 0
    | _ => ret "study"
    end in
  ret (DailySchedule.mk (DailyPlan.day daily) "Morning/Afternoon"
         (DailyPlan.subject daily) (DailyPlan.topic daily)
         (Some (default 60 (DailyPlan.duration_minutes daily))) activity_type).

(** The two nested loops that build [weekly_schedule]. *)
Definition format_schedule (format : DailyPlan.t -> Result DailySchedule.t)
    (weeks : list WeekPlan.t) : Result (list DailySchedule.t) :=
  for_each
    (fun weekly_schedule week_data =>
       for_each
         (fun weekly_schedule daily =>
            let* entry := format daily in
            ret (weekly_schedule ++ [entry]))
         (WeekPlan.daily_schedule week_data) weekly_schedule)
    weeks [].

Definition plan_response (plan : StudyPlan.t) (weekly_schedule : list DailySchedule.t)
  : StudyPlanResponse.t :=
  StudyPlanResponse.mk (StudyPlan.id plan) (StudyPlan.plan_name plan)
    (StudyPlan.target_exam plan) (StudyPlan.exam_date plan)
    (StudyPlan.hours_per_day plan) (StudyPlan.days_per_week plan)
    weekly_schedule (StudyPlan.completion_percentage plan) (StudyPlan.is_active plan)
    (StudyPlan.created_at plan).

(** [ai] stands for [ai_service.generate_study_plan] as a function of the
    number of weeks it is given: the plan it returns, or the message of the
    exception it raises. The plan is committed before the response is
    formatted, so an exception of the formatting leaves the new table. *)
Definition generate_study_plan (request : StudyPlanRequest.t)
    (ai : Z -> string + PlanData.t) (current_user : Z) (now : Z)
    (plans : list StudyPlan.t) : Result StudyPlanResponse.t * list StudyPlan.t :=
  match ai (weeks_until_exam request now) with
  | inl msg =>
      (raise (HTTPException HTTP_500_INTERNAL_SERVER_ERROR
                ("AI service error: " +:+ msg)), plans)
  | inr plan_data =>
      let study_plan :=
        StudyPlan.mk (next_id (map StudyPlan.id plans)) current_user
          (StudyPlanRequest.target_exam request +:+ " Preparation Plan")
          (StudyPlanRequest.target_exam request) (StudyPlanRequest.exam_date request)
          (StudyPlanRequest.hours_per_day request) (StudyPlanRequest.days_per_week request)
          (PlanData.weekly_breakdown plan_data) true 0 now in
      let plans' := (map (deactivate current_user) plans ++ [study_plan])%list in
      (let* weekly_schedule :=
         format_schedule format_generated_day (PlanData.weekly_breakdown plan_data) in
       ret (plan_response study_plan weekly_schedule),
       plans')
  end.

Definition is_active_plan_of (user_id : Z) (p : StudyPlan.t) : bool :=
  (StudyPlan.user_id p =? user_id) && StudyPlan.is_active p.

Definition get_active_study_plan (current_user : Z) (plans : list StudyPlan.t)
  : Result StudyPlanResponse.t :=
  match first (is_active_plan_of current_user) plans with
  | None =>
      raise (HTTPException HTTP_404_NOT_FOUND
               "No active study plan found. Please create one.")
  | Some (_, plan) =>
      let* weekly_schedule :=
        format_schedule format_stored_day (StudyPlan.weekly_schedule plan) in
      ret (plan_response plan weekly_schedule)
  end.

Definition is_plan_of (plan_id user_id : Z) (p : StudyPlan.t) : bool :=
  (StudyPlan.id p =? plan_id) && (StudyPlan.user_id p =? user_id).

Definition set_completion (completion_percentage : Z) (p : StudyPlan.t) : StudyPlan.t :=
  StudyPlan.mk (StudyPlan.id p) (StudyPlan.user_id p) (StudyPlan.plan_name p)
    (StudyPlan.target_exam p) (StudyPlan.exam_date p) (StudyPlan.hours_per_day p)
    (StudyPlan.days_per_week p) (StudyPlan.weekly_schedule p) (StudyPlan.is_active p)
    completion_percentage (StudyPlan.created_at p).

(** Returns the stored percentage. *)
Definition update_plan_progress (plan_id completion_percentage : Z) (current_user : Z)
    (plans : list StudyPlan.t) : Result Z * list StudyPlan.t :=
  match first (is_plan_of plan_id current_user) plans with
  | None => (raise (HTTPException HTTP_404_NOT_FOUND "Study plan not found"), plans)
  | Some (i, plan) =>
      let plan' := set_completion (Z.min 100 (Z.max 0 completion_percentage)) plan in
      (ret (StudyPlan.completion_percentage plan'), <[i := plan']> plans)
  end.

(** *** Notions for the study plans *)

(** The body of the inner loop. *)
Definition collect_day (format : DailyPlan.t -> Result DailySchedule.t)
    (weekly_schedule : list DailySchedule.t) (daily : DailyPlan.t)
  : Result (list DailySchedule.t) :=
  let* entry := format daily in ret (weekly_schedule ++ [entry]).

(** All days of a plan, week after week. *)
Definition days_of (weeks : list WeekPlan.t) : list DailyPlan.t :=
  concat (map WeekPlan.daily_schedule weeks).

(** What the reading handlers make of an entry that [generate_study_plan]
    returned: the duration defaults to 60. *)
Definition with_default_duration (entry : DailySchedule.t) : DailySchedule.t :=
  DailySchedule.mk (DailySchedule.day entry) (DailySchedule.time_slot entry)
    (DailySchedule.subject entry) (DailySchedule.topic entry)
    (Some (default 60 (DailySchedule.duration_minutes entry)))
    (DailySchedule.activity_type entry).

Definition active_plans_of (user_id : Z) (plans : list StudyPlan.t) : list StudyPlan.t :=
  List.filter (is_active_plan_of user_id) plans.

Definition plans_of_others (user_id : Z) (plans : list StudyPlan.t) : list StudyPlan.t :=
  List.filter (fun p => negb (StudyPlan.user_id p =? user_id)) plans.

(** Stored percentages lie between 0 and 100. *)
Definition plans_wf (plans : list StudyPlan.t) : Prop :=
  Forall (fun p => 0 ≤ StudyPlan.completion_percentage p ≤ 100) plans.

(** An AI plan of one week: a full Monday, and a Tuesday without
    activities. *)
Definition monday : DailyPlan.t :=
  DailyPlan.mk (Some "Monday") (Some "Mathematics") (Some "Algebra") (Some 120)
    (Some ["practice"; "study"]).

Definition tuesday_no_activities : DailyPlan.t :=
  DailyPlan.mk (Some "Tuesday") (Some "Physics") (Some "Waves") None (Some []).

Definition tuesday : DailyPlan.t :=
  DailyPlan.mk (Some "Tuesday") (Some "Physics") (Some "Waves") None None.

Definition jamb_request : StudyPlanRequest.t :=
  StudyPlanRequest.mk "JAMB" (Some (100 * 86400)) 2 5.

Definition old_plan : StudyPlan.t :=
  StudyPlan.mk 1 7 "WAEC Preparation Plan" "WAEC" None 1 3 [] true 40 500.

Definition other_plan : StudyPlan.t :=
  StudyPlan.mk 2 8 "NECO Preparation Plan" "NECO" None 1 3 [] true 10 600.

Definition plan_with_gap : PlanData.t :=
  PlanData.mk [WeekPlan.mk [monday; tuesday_no_activities]].

Definition plan_without_gap : PlanData.t :=
  PlanData.mk [WeekPlan.mk [monday]; WeekPlan.mk [tuesday]].

Definition plans_before : list StudyPlan.t := [old_plan; other_plan].


(** ** Parents and children ([app/api/routes/dashboard.py]) *)

Inductive UserRole := STUDENT | PARENT | ADMIN | SCHOOL.

#[global] Instance UserRole_eq_dec : EqDecision UserRole.
Proof. solve_decision. Defined.

(** The parent routes work on these columns of [users]; [parent_id] is the
    nullable foreign key to the parent's row. The caller of a parent route
    has passed [get_current_parent]. *)
Module Family.

Module User.
Record t := mk {
  id : Z;
  email : string;
  full_name : string;
  role : UserRole;
  parent_id : option Z
}.
End User.

(** The keys that both answers of [link_child_to_parent] have. *)
Module LinkChildResponse.
Record t := mk {
  message : string;
  child_id : Z;
  child_name : string
}.
End LinkChildResponse.

Definition set_parent (parent : Z) (child : User.t) : User.t :=
  User.mk (User.id child) (User.email child) (User.full_name child) (User.role child)
    (Some parent).

Definition link_child_to_parent (child_email : string) (current_user : Z)
    (users : list User.t) : Result LinkChildResponse.t * list User.t :=
  match first (fun u => String.eqb (User.email u) child_email) users with
  | None =>
      (raise (HTTPException HTTP_404_NOT_FOUND
                "Child account not found. Please ensure your child has registered."),
       users)
  | Some (i, child) =>
      if negb (bool_decide (User.role child = STUDENT)) then
        (raise (HTTPException HTTP_400_BAD_REQUEST
                  "The account must be a student account"), users)
      else
        match User.parent_id child with
        | Some parent =>
            if parent =? current_user then
              (ret (LinkChildResponse.mk "Child is already linked to your account"
                      (User.id child) (User.full_name child)), users)
            else
              (raise (HTTPException HTTP_400_BAD_REQUEST
                        "This child account is already linked to another parent"),
               users)
        | None =>
            (ret (LinkChildResponse.mk "Child linked successfully"
                    (User.id child) (User.full_name child)),
             <[i := set_parent current_user child]> users)
        end
  end.

(** The children that [get_parent_dashboard] lists. *)
Definition children_of (current_user : Z) (users : list User.t) : list User.t :=
  List.filter (fun u => bool_decide (User.parent_id u = Some current_user)) users.

(** The summary of [get_child_detailed_report]. *)
Module ChildSummary.
Record t := mk {
  name : string;
  email : string;
  total_questions : Z;
  total_exams : Z
}.
End ChildSummary.

Definition is_child_of (child_id current_user : Z) (u : User.t) : bool :=
  (User.id u =? child_id) && bool_decide (User.parent_id u = Some current_user).

Definition get_child_detailed_report (child_id : Z) (current_user : Z)
    (users : list User.t) (db : DB) : Result ChildSummary.t :=
  match first (is_child_of child_id current_user) users with
  | None =>
      raise (HTTPException HTTP_404_NOT_FOUND
               "Child not found or not linked to your account")
  | Some (_, child) =>
      ret (ChildSummary.mk (User.full_name child) (User.email child)
             (total_questions_solved (User.id child) db)
             (total_exams_taken (User.id child) db))
  end.

(** No two rows share an id or an email. *)
Definition distinct (users : list User.t) : Prop :=
  NoDup (User.id <$> users) ∧ NoDup (User.email <$> users).

Definition ada : User.t := User.mk 1 "ada@example.com" "Ada" STUDENT None.
Definition mrs_obi : User.t := User.mk 2 "obi@example.com" "Mrs Obi" PARENT None.
Definition mr_eze : User.t := User.mk 3 "eze@example.com" "Mr Eze" PARENT None.
Definition family : list User.t := [ada; mrs_obi; mr_eze].

End Family.


(** ** The question bank ([app/api/routes/past_questions.py],
    [app/services/pq_processor.py]) *)

(** [s.endswith(suffix)] *)
Definition endswith (s suffix : string) : bool :=
  String.prefix (String.rev suffix) (String.rev s).

(** A question as the vision model returns it for a page, with the keys of
    the prompt's format. [question_number], [question_text] and [options] are
    [None] when the key is missing; [correct_answer] and [topic] are [None]
    when the key is missing or null. *)
Module ExtractedQuestion.
Record t := mk {
  question_number : option Z;
  question_text : option string;
  options : option (list (string * string));
  correct_answer : option string;
  topic : option string
}.
End ExtractedQuestion.

(** The dictionary after [_extract_questions_from_image] has added the page
    and the name of the source. *)
Module QuestionData.
Record t := mk {
  question_number : option Z;
  question_text : option string;
  options : option (list (string * string));
  correct_answer : option string;
  topic : option string;
  page_number : Z;
  source_pdf : string
}.
End QuestionData.

(** [f"{exam_type}_{subject}_{year}.pdf"] *)
Definition source_pdf_name (exam_type subject year : string) : string :=
  exam_type +:+ "_" +:+ subject +:+ "_" +:+ year +:+ ".pdf".

(** [page] is the answer of the vision model for the page, [None] when the
    call or the decoding of its answer raises: the page then gives no
    question. *)
Definition _extract_questions_from_image (page : option (list ExtractedQuestion.t))
    (page_num : Z) (exam_type subject year : string) : list QuestionData.t :=
  match page with
  | Some questions =>
      map (fun q =>
             QuestionData.mk (ExtractedQuestion.question_number q)
               (ExtractedQuestion.question_text q) (ExtractedQuestion.options q)
               (ExtractedQuestion.correct_answer q) (ExtractedQuestion.topic q)
               page_num (source_pdf_name exam_type subject year))
        questions
  | None => []
  end.

(** [images] is the outcome of [convert_from_path]: the message of its
    exception, or one answer of the vision model per page. The result is the
    message of the [ValueError] raised, or the questions of all pages. *)
Definition process_pdf (PDF2IMAGE_AVAILABLE : bool)
    (images : string + list (option (list ExtractedQuestion.t)))
    (exam_type subject year : string) : string + list QuestionData.t :=
  if negb PDF2IMAGE_AVAILABLE then
    inl "pdf2image is not installed. Please install it with: pip install pdf2image"
  else
    match images with
    | inl msg =>
        inl ("Error converting PDF to images: " +:+ msg
             +:+ ". Make sure poppler is installed.")
    | inr pages =>
        inr (concat (imap (fun i page =>
                             _extract_questions_from_image page (Z.of_nat i + 1)
                               exam_type subject year)
                       pages))
    end.

(** An exception other than [ValueError] raised inside the [try] of
    [upload_past_questions] leaves the handler as this error. *)
Definition processing_error (str_e : string) : Error :=
  HTTPException HTTP_500_INTERNAL_SERVER_ERROR ("Error processing PDF: " +:+ str_e).

(** [q_data[key]] inside the [try]: a missing key raises [KeyError]. *)
Definition required {A} (key : string) (v : option A) : Result A :=
  match v with
  | Some x => ret x
  | None => raise (processing_error ("'" +:+ key +:+ "'"))
  end.

Definition same_question (exam_type subject year : string) (question_number : Z)
    (pq : PastQuestion.t) : bool :=
  String.eqb (PastQuestion.exam_type pq) exam_type
  && String.eqb (PastQuestion.subject pq) subject
  && String.eqb (PastQuestion.year pq) year
  && (PastQuestion.question_number pq =? question_number).

(** [existing.question_text = ...] and the five assignments after it. *)
Definition update_existing (existing : PastQuestion.t) (q_data : QuestionData.t)
    (question_text : string) (options : list (string * string)) : PastQuestion.t :=
  PastQuestion.mk (PastQuestion.id existing)
    (PastQuestion.exam_type existing) (PastQuestion.subject existing)
    (PastQuestion.year existing) (PastQuestion.question_number existing)
    question_text options (QuestionData.correct_answer q_data)
    (QuestionData.topic q_data) (Some (QuestionData.source_pdf q_data))
    (Some (QuestionData.page_number q_data)).

(** [PastQuestion(exam_type=exam_type, ...)], with the id it gets on insertion. *)
Definition new_past_question (id : Z) (exam_type subject year : string)
    (q_data : QuestionData.t) (question_number : Z)
    (question_text : string) (options : list (string * string)) : PastQuestion.t :=
  PastQuestion.mk id exam_type subject year question_number question_text options
    (QuestionData.correct_answer q_data) (QuestionData.topic q_data)
    (Some (QuestionData.source_pdf q_data)) (Some (QuestionData.page_number q_data)).

(** One turn of the saving loop. The state is the table and the positions
    of the rows put into [saved_questions]. The query for an existing row
    sees the rows added earlier in the request when the session autoflushes,
    and the first [committed] rows otherwise. *)
Definition save_question (autoflush : bool) (committed : nat)
    (exam_type subject year : string)
    (st : list PastQuestion.t * list nat) (q_data : QuestionData.t)
  : Result (list PastQuestion.t * list nat) :=
  let rows := st.1 in
  let saved_questions := st.2 in
  if negb (Py.truthy (QuestionData.correct_answer q_data)) then ret st
  else
    let* question_number := required "question_number" (QuestionData.question_number q_data) in
    let visible := if autoflush then rows else take committed rows in
    match first (same_question exam_type subject year question_number) visible with
    | Some (i, existing) =>
        let* question_text := required "question_text" (QuestionData.question_text q_data) in
        let* options := required "options" (QuestionData.options q_data) in
        ret (<[i := update_existing existing q_data question_text options]> rows,
             saved_questions ++ [i])
    | None =>
        let* question_text := required "question_text" (QuestionData.question_text q_data) in
        let* options := required "options" (QuestionData.options q_data) in
        ret (rows ++ [new_past_question (next_id (map PastQuestion.id rows))
                        exam_type subject year q_data question_number question_text
                        options],
             saved_questions ++ [length rows])
    end.

Definition has_answer (q_data : QuestionData.t) : bool :=
  Py.truthy (QuestionData.correct_answer q_data).

(** [HTTPException_str] is [str()] on an [HTTPException] with the given
    status and detail, which the web framework defines; [autoflush] is the
    setting of the database session, made in [app.core.database]. Neither is
    part of the sources. The two [HTTPException]s raised inside the [try] are
    caught by its [except Exception]. *)
Definition upload_past_questions (HTTPException_str : Z -> string -> string)
    (autoflush PDF2IMAGE_AVAILABLE : bool) (filename : string)
    (images : string + list (option (list ExtractedQuestion.t)))
    (exam_type subject year : string) (db : DB) : Result (list PastQuestion.t) * DB :=
  if negb (endswith filename ".pdf") then
    (raise (HTTPException HTTP_400_BAD_REQUEST "Only PDF files are supported"), db)
  else
    match process_pdf PDF2IMAGE_AVAILABLE images exam_type subject year with
    | inl msg => (raise (HTTPException HTTP_400_BAD_REQUEST msg), db)
    | inr [] =>
        (raise (processing_error
                  (HTTPException_str HTTP_400_BAD_REQUEST
                     "No questions could be extracted from the PDF. Please check the file format.")),
         db)
    | inr questions_data =>
        match List.filter has_answer questions_data with
        | [] =>
            (raise (processing_error
                      (HTTPException_str HTTP_400_BAD_REQUEST
                         "No questions with correct answers could be extracted from the PDF. Please ensure answers are marked in the PDF.")),
             db)
        | valid_questions =>
            match for_each
                    (save_question autoflush (length (past_questions db))
                       exam_type subject year)
                    valid_questions (past_questions db, []) with
            | inl e => (inl e, db)
            | inr st =>
                (ret (omap (fun i => st.1 !! i) st.2),
                 mkDB (users db) (user_subjects db) (question_history db)
                   (exam_attempts db) st.1)
            end
        end
    end.

Module AvailablePastQuestionsResponse.
Record t := mk {
  exam_type : string;
  subject : string;
  year : string;
  question_count : Z
}.
End AvailablePastQuestionsResponse.

Definition paper_of (pq : PastQuestion.t) : string * string * string :=
  (PastQuestion.exam_type pq, PastQuestion.subject pq, PastQuestion.year pq).

(** [if value: query = query.filter(column == value)] *)
Definition passes (value : option string) (column : string) : bool :=
  if Py.truthy value then bool_decide (Some column = value) else true.

Definition is_available (exam_type subject year : option string) (pq : PastQuestion.t)
  : bool :=
  passes exam_type (PastQuestion.exam_type pq)
  && passes subject (PastQuestion.subject pq)
  && passes year (PastQuestion.year pq).

Definition count_of_paper (r : string * string * string) (db : DB) : Z :=
  Py.len (List.filter (fun pq => bool_decide (paper_of pq = r)) (past_questions db)).

(** The papers of the [.distinct()] query come in no particular order. *)
Definition get_available_past_questions (exam_type subject year : option string)
    (db : DB) : list AvailablePastQuestionsResponse.t :=
  let results :=
    remove_dups (map paper_of
                   (List.filter (is_available exam_type subject year) (past_questions db))) in
  map (fun r => AvailablePastQuestionsResponse.mk r.1.1 r.1.2 r.2 (count_of_paper r db))
    results.

(** *** Notions for the question bank *)

(** No two rows of the bank are the same question of the same paper. *)
Definition bank_keys_distinct (rows : list PastQuestion.t) : Prop :=
  ∀ i j p q,
    rows !! i = Some p → rows !! j = Some q →
    paper_of p = paper_of q →
    PastQuestion.question_number p = PastQuestion.question_number q →
    i = j.

(** A question with the three keys that the saving loop indexes. *)
Definition complete (q_data : QuestionData.t) : Prop :=
  is_Some (QuestionData.question_number q_data)
  ∧ is_Some (QuestionData.question_text q_data)
  ∧ is_Some (QuestionData.options q_data).

(** A question as [process_pdf] returns it for a paper of [pages] pages. *)
Definition processed (exam_type subject year : string) (pages : nat)
    (q_data : QuestionData.t) : Prop :=
  QuestionData.source_pdf q_data = source_pdf_name exam_type subject year
  ∧ 1 ≤ QuestionData.page_number q_data ≤ Z.of_nat pages.

(** The question numbers of the questions that are saved. *)
Definition saved_numbers (questions_data : list QuestionData.t) : list (option Z) :=
  QuestionData.question_number <$> List.filter has_answer questions_data.

(** A row written by an upload for the paper. *)
Definition uploaded (exam_type subject year : string) (pages : nat) (pq : PastQuestion.t)
  : Prop :=
  paper_of pq = (exam_type, subject, year)
  ∧ Py.truthy (PastQuestion.correct_answer pq) = true
  ∧ PastQuestion.source_pdf pq = Some (source_pdf_name exam_type subject year)
  ∧ ∃ page, PastQuestion.page_number pq = Some page ∧ 1 ≤ page ≤ Z.of_nat pages.

(** What holds of the table and the saved positions during the saving loop
    that started on the table [rows0]: the rows of [rows0] keep their place,
    id, paper and question number, and those of other papers are unchanged;
    every later row and every saved row was written by the upload. *)
Definition saving (rows0 : list PastQuestion.t) (exam_type subject year : string)
    (pages : nat) (st : list PastQuestion.t * list nat) : Prop :=
  (length rows0 ≤ length st.1)%nat
  ∧ (∀ i p, rows0 !! i = Some p →
       ∃ p', st.1 !! i = Some p'
             ∧ PastQuestion.id p' = PastQuestion.id p
             ∧ paper_of p' = paper_of p
             ∧ PastQuestion.question_number p' = PastQuestion.question_number p
             ∧ (paper_of p ≠ (exam_type, subject, year) → p' = p))
  ∧ (∀ i p', st.1 !! i = Some p' → (length rows0 ≤ i)%nat →
       uploaded exam_type subject year pages p')
  ∧ Forall (fun i => ∃ p', st.1 !! i = Some p'
                           ∧ uploaded exam_type subject year pages p') st.2.

(** [str()] of an [HTTPException] as recent versions of the framework give
    it. *)
Definition status_and_detail (status_code : Z) (detail : string) : string :=
  Py.str status_code +:+ ": " +:+ detail.

(** The answers of the vision model for a paper of two pages: two answered
    questions on the first, one without an answer on the second. *)
Definition page_one : list ExtractedQuestion.t :=
  [ ExtractedQuestion.mk (Some 1) (Some "2 + 2 = ?") (Some [("A", "3"); ("B", "4")])
      (Some "B") (Some "Arithmetic");
    ExtractedQuestion.mk (Some 2) (Some "3 * 3 = ?") (Some [("A", "9"); ("B", "6")])
      (Some "A") None ].

Definition page_two : list ExtractedQuestion.t :=
  [ ExtractedQuestion.mk (Some 3) (Some "5 - 1 = ?") (Some [("A", "4"); ("B", "5")])
      None (Some "Arithmetic") ].

Definition scanned_paper : string + list (option (list ExtractedQuestion.t)) :=
  inr [Some page_one; Some page_two].

Definition unanswered_paper : string + list (option (list ExtractedQuestion.t)) :=
  inr [Some page_two].

Definition db_uploaded : DB :=
  (upload_past_questions status_and_detail true true "maths.pdf" scanned_paper
     "JAMB" "Mathematics" "2021" db_small_bank).2.

(** The rows that this upload returns. *)
Definition uploaded_rows : list PastQuestion.t :=
  [ PastQuestion.mk 4 "JAMB" "Mathematics" "2021" 1 "2 + 2 = ?"
      [("A", "3"); ("B", "4")] (Some "B") (Some "Arithmetic")
      (Some "JAMB_Mathematics_2021.pdf") (Some 1);
    PastQuestion.mk 5 "JAMB" "Mathematics" "2021" 2 "3 * 3 = ?"
      [("A", "9"); ("B", "6")] (Some "A") None
      (Some "JAMB_Mathematics_2021.pdf") (Some 1) ].

Definition paper_of_entry (a : AvailablePastQuestionsResponse.t) : string * string * string :=
  (AvailablePastQuestionsResponse.exam_type a, AvailablePastQuestionsResponse.subject a,
   AvailablePastQuestionsResponse.year a).

Definition sum_list (l : list Z) : Z := foldr Z.add 0 l.


(** ** Video search ([app/services/youtube_service.py]) *)

(** An item of the search result, with the fields that are read. *)
Module YouTubeItem.
Record t := mk {
  videoId : string;
  title : string;
  channelTitle : string
}.
End YouTubeItem.

Module VideoInfo.
Record t := mk {
  video_id : string;
  video_url : string;
  youtube_video_id : string;
  youtube_video_url : string;
  title : string;
  channel : string
}.
End VideoInfo.

Definition video_info (video : YouTubeItem.t) : VideoInfo.t :=
  let video_id := YouTubeItem.videoId video in
  let video_url := "https://www.youtube.com/watch?v=" +:+ video_id in
  VideoInfo.mk video_id video_url video_id video_url
    (YouTubeItem.title video) (YouTubeItem.channelTitle video).

(** [api] stands for the search endpoint as a function of the query [q]:
    [None] when the request, its status check or the decoding of its body
    raises, and otherwise the list under ["items"], empty when the key is
    missing. An exception inside either search is caught there and gives
    [None]. *)
Definition _fallback_search (api : string -> option (list YouTubeItem.t))
    (subject topic : string) : option VideoInfo.t :=
  let query := topic +:+ " " +:+ subject +:+ " tutorial" in
  match api query with
  | None => None
  | Some [] => None
  | Some (video :: _) => Some (video_info video)
  end.

Definition search_educational_video (api : string -> option (list YouTubeItem.t))
    (subject topic : string) : option VideoInfo.t :=
  let query := topic +:+ " " +:+ subject in
  match api query with
  | None => None
  | Some [] => _fallback_search api subject topic
  | Some (video :: _) => Some (video_info video)
  end.

(** ** Lessons ([app/api/routes/topics.py]) *)

Definition AVAILABLE_SUBJECTS : list string :=
  [ "Mathematics"; "English Language"; "Physics"; "Chemistry"; "Biology"; "Economics";
    "Geography"; "Government"; "Literature in English"; "Commerce"; "Accounting";
    "Agricultural Science"; "Civic Education"; "Computer Studies"; "Further Mathematics" ].

Definition newline : string := String (Ascii.ascii_of_nat 10) EmptyString.

(** An entry of ["examples"] in the answer of the AI service: a dictionary
    with optional ["problem"] and ["solution"], or a text. *)
Module Example.
Inductive t :=
| Worked (problem solution : option string)
| Text (text : string).
End Example.

(** What [teach_topic] reads back from the answer of the AI service; a text
    is [None] when its key is missing, a list is empty when its key is
    missing. *)
Module TeachingData.
Record t := mk {
  summary : option string;
  detailed_explanation : option string;
  examples : list Example.t;
  practice_questions : list string
}.
End TeachingData.

(** The part of the stored [lesson_data] that is read back. *)
Module LessonData.
Record t := mk {
  summary : string;
  detailed_explanation : string;
  examples : list string;
  practice_questions : list string
}.
End LessonData.

Module SavedLesson.
Record t := mk {
  id : Z;
  user_id : Z;
  subject : string;
  topic : string;
  difficulty_level : string;
  lesson_data : LessonData.t;
  youtube_video_id : option string;
  youtube_video_url : option string;
  last_accessed_at : Z
}.
End SavedLesson.

Module TopicTeachRequest.
Record t := mk {
  subject : string;
  topic : string;
  difficulty_level : option string
}.
End TopicTeachRequest.

Module TopicTeachResponse.
Record t := mk {
  subject : string;
  topic : string;
  summary : string;
  detailed_explanation : string;
  examples : list string;
  practice_questions : list string;
  video_link : option string;
  youtube_video_id : option string;
  lesson_id : Z
}.
End TopicTeachResponse.

Definition format_example (example : Example.t) : string :=
  match example with
  | Example.Worked problem solution =>
      "Problem: " +:+ default "" problem +:+ newline
      +:+ "Solution: " +:+ default "" solution
  | Example.Text text => text
  end.

Definition is_lesson_of (user_id : Z) (subject topic difficulty : string)
    (lesson : SavedLesson.t) : bool :=
  (SavedLesson.user_id lesson =? user_id)
  && String.eqb (SavedLesson.subject lesson) subject
  && String.eqb (SavedLesson.topic lesson) topic
  && String.eqb (SavedLesson.difficulty_level lesson) difficulty.

Definition touch (now : Z) (lesson : SavedLesson.t) : SavedLesson.t :=
  SavedLesson.mk (SavedLesson.id lesson) (SavedLesson.user_id lesson)
    (SavedLesson.subject lesson) (SavedLesson.topic lesson)
    (SavedLesson.difficulty_level lesson) (SavedLesson.lesson_data lesson)
    (SavedLesson.youtube_video_id lesson) (SavedLesson.youtube_video_url lesson) now.

Definition lesson_response (lesson : SavedLesson.t) : TopicTeachResponse.t :=
  let lesson_data := SavedLesson.lesson_data lesson in
  TopicTeachResponse.mk (SavedLesson.subject lesson) (SavedLesson.topic lesson)
    (LessonData.summary lesson_data) (LessonData.detailed_explanation lesson_data)
    (LessonData.examples lesson_data) (LessonData.practice_questions lesson_data)
    (SavedLesson.youtube_video_url lesson) (SavedLesson.youtube_video_id lesson)
    (SavedLesson.id lesson).

(** [youtube_url if youtube_url and youtube_url != "null" else None] *)
Definition usable_url (youtube_url : option string) : option string :=
  if Py.truthy youtube_url && negb (bool_decide (youtube_url = Some "null"))
  then youtube_url else None.

(** [ai] is the outcome of [ai_service.teach_topic], [api] the search
    endpoint; neither is consulted when the lesson is in the table. *)
Definition teach_topic (request : TopicTeachRequest.t)
    (ai : string + TeachingData.t) (api : string -> option (list YouTubeItem.t))
    (current_user : Z) (now : Z) (lessons : list SavedLesson.t)
  : Result TopicTeachResponse.t * list SavedLesson.t :=
  let subject := TopicTeachRequest.subject request in
  let topic := TopicTeachRequest.topic request in
  if negb (bool_decide (subject ∈ AVAILABLE_SUBJECTS)) then
    (raise (HTTPException HTTP_400_BAD_REQUEST
              ("Subject not available. Choose from: "
               +:+ Py.join ", " AVAILABLE_SUBJECTS)), lessons)
  else
    let difficulty := Py.str_or (TopicTeachRequest.difficulty_level request) "medium" in
    match first (is_lesson_of current_user subject topic difficulty) lessons with
    | Some (i, existing_lesson) =>
        let existing_lesson := touch now existing_lesson in
        (ret (lesson_response existing_lesson), <[i := existing_lesson]> lessons)
    | None =>
        match ai with
        | inl msg =>
            (raise (HTTPException HTTP_500_INTERNAL_SERVER_ERROR
                      ("AI service error: " +:+ msg)), lessons)
        | inr teaching_data =>
            let examples := map format_example (TeachingData.examples teaching_data) in
            let youtube_video_info := search_educational_video api subject topic in
            let youtube_video_id := VideoInfo.video_id <$> youtube_video_info in
            let youtube_url := VideoInfo.video_url <$> youtube_video_info in
            let lesson_data :=
              LessonData.mk (default "" (TeachingData.summary teaching_data))
                (default "" (TeachingData.detailed_explanation teaching_data))
                examples (TeachingData.practice_questions teaching_data) in
            let saved_lesson :=
              SavedLesson.mk (next_id (map SavedLesson.id lessons)) current_user
                subject topic difficulty lesson_data youtube_video_id
                (usable_url youtube_url) now in
            (ret (TopicTeachResponse.mk subject topic
                    (LessonData.summary lesson_data)
                    (LessonData.detailed_explanation lesson_data)
                    (LessonData.examples lesson_data)
                    (LessonData.practice_questions lesson_data)
                    (usable_url youtube_url) youtube_video_id
                    (SavedLesson.id saved_lesson)),
             lessons ++ [saved_lesson])
        end
    end.

(** *** Notions for the lessons *)

(** A user has at most one lesson per subject, topic and difficulty. *)
Definition lessons_distinct (lessons : list SavedLesson.t) : Prop :=
  ∀ i j a b,
    lessons !! i = Some a → lessons !! j = Some b →
    SavedLesson.user_id a = SavedLesson.user_id b →
    SavedLesson.subject a = SavedLesson.subject b →
    SavedLesson.topic a = SavedLesson.topic b →
    SavedLesson.difficulty_level a = SavedLesson.difficulty_level b →
    i = j.

(** A request for quadratic equations and the answers of the services. *)
Definition quadratics : TopicTeachRequest.t :=
  TopicTeachRequest.mk "Mathematics" "Quadratic Equations" None.

Definition quadratics_lesson : TeachingData.t :=
  TeachingData.mk (Some "Equations of degree two.") None
    [Example.Worked (Some "x^2 = 4") (Some "x = 2 or x = -2"); Example.Text "See the graph."]
    ["Solve x^2 = 9"].

(** The first search finds nothing, the search for a tutorial finds a video. *)
Definition tutorial_only (q : string) : option (list YouTubeItem.t) :=
  if String.eqb q "Quadratic Equations Mathematics tutorial"
  then Some [YouTubeItem.mk "abcdefghijk" "Quadratics" "Maths Channel"]
  else Some [].

Definition no_service (q : string) : option (list YouTubeItem.t) := None.

Definition quadratics_response : TopicTeachResponse.t :=
  TopicTeachResponse.mk "Mathematics" "Quadratic Equations"
    "Equations of degree two." ""
    [ "Problem: x^2 = 4" +:+ newline +:+ "Solution: x = 2 or x = -2"; "See the graph." ]
    ["Solve x^2 = 9"]
    (Some "https://www.youtube.com/watch?v=abcdefghijk") (Some "abcdefghijk") 1.

Definition lessons_after : list SavedLesson.t :=
  (teach_topic quadratics (inr quadratics_lesson) tutorial_only 7 1000 []).2.

(** * Properties *)

(** ** Python built-ins *)

Section getitem.
Context {A : Type}.
Implicit Types (l : list A) (i : Z).

Lemma getitem_error l i e : Py.getitem l i = inl e → e = IndexError.
Proof.
  unfold Py.getitem, raise, ret. cbv zeta.
  repeat case_match; congruence.
Qed.

Lemma getitem_in_range l i :
  0 ≤ i < Py.len l →
  ∃ x, l !! Z.to_nat i = Some x ∧ Py.getitem l i = inr x.
Proof.
  intros Hi. unfold Py.getitem, Py.len in *.
  destruct (Z.ltb_spec i 0); [lia|].
  destruct (Z.leb_spec 0 i); [|lia]. destruct (Z.ltb_spec i (Z.of_nat (length l))); [|lia].
  simpl. destruct (lookup_lt_is_Some_2 l (Z.to_nat i)) as [x Hx]; [lia|].
  exists x. by rewrite Hx.
Qed.



End getitem.

Section ordered_dict.
Context {V : Type}.
Implicit Types (d : Py.odict V) (k : string) (v : V).

Lemma dict_get_fmap (f : string → V) (keys : list string) k dflt :
  Py.dict_get ((fun t => (t, f t)) <$> keys) k dflt
  = if decide (k ∈ keys) then f k else dflt.
Proof.
  induction keys as [|t keys IH].
  - destruct (decide (k ∈ [])) as [Hk|]; [by apply elem_of_nil in Hk|done].
  - rewrite fmap_cons. cbn [Py.dict_get].
    destruct (String.eqb_spec t k) as [->|Hne].
    + rewrite decide_True; [done|]. apply elem_of_cons. by left.
    + rewrite IH. destruct (decide (k ∈ keys)) as [Hin|Hnin].
      * rewrite decide_True; [done|]. apply elem_of_cons. by right.
      * rewrite decide_False; [done|]. by intros [->|Hin]%elem_of_cons.
Qed.

Lemma dict_set_fmap_new (f : string → V) (keys : list string) k v :
  k ∉ keys →
  Py.dict_set ((fun t => (t, f t)) <$> keys) k v
  = ((fun t => (t, f t)) <$> keys) ++ [(k, v)].
Proof.
  induction keys as [|t keys IH]; intros Hk; [done|].
  rewrite fmap_cons. cbn [Py.dict_set].
  destruct (String.eqb_spec t k) as [->|Hne].
  { destruct Hk. apply elem_of_cons. by left. }
  rewrite IH; [done|]. intros Hin. apply Hk, elem_of_cons. by right.
Qed.

Lemma dict_set_fmap_old (f g : string → V) (keys : list string) k v :
  NoDup keys → k ∈ keys → g k = v → (∀ t, t ≠ k → g t = f t) →
  Py.dict_set ((fun t => (t, f t)) <$> keys) k v = (fun t => (t, g t)) <$> keys.
Proof.
  intros Hnd Hk Hgk Hg.
  induction Hnd as [|t keys Ht Hnd IH]; [by apply elem_of_nil in Hk|].
  rewrite !fmap_cons. cbn [Py.dict_set].
  destruct (String.eqb_spec t k) as [->|Hne].
  - rewrite Hgk. f_equal. apply list_fmap_ext. intros i t Hit.
    rewrite Hg; [done|]. intros ->. apply Ht. by eapply list_elem_of_lookup_2.
  - rewrite Hg by done. f_equal. apply IH.
    by apply elem_of_cons in Hk as [->|Hk].
Qed.
End ordered_dict.

Section sorting.
Context {A : Type} (key : A → Z).
Implicit Types (x : A) (l : list A).

Lemma insert_by_Permutation x l : Py.insert_by key x l ≡ₚ x :: l.
Proof.
  induction l as [|y l IH]; simpl; [done|].
  destruct (key x <=? key y); [done|].
  rewrite IH. apply Permutation_swap.
Qed.

Lemma sorted_Permutation l : Py.sorted key l ≡ₚ l.
Proof.
  induction l as [|x l IH]; simpl; [done|].
  change (foldr (Py.insert_by key) [] l) with (Py.sorted key l).
  by rewrite insert_by_Permutation, IH.
Qed.

Lemma insert_by_sorted x l :
  StronglySorted (fun a b => key a ≤ key b) l →
  StronglySorted (fun a b => key a ≤ key b) (Py.insert_by key x l).
Proof.
  induction 1 as [|y l Hl IH Hy]; simpl; [repeat constructor|].
  destruct (Z.leb_spec (key x) (key y)).
  - constructor; [by constructor|]. constructor; [done|].
    eapply Forall_impl; [exact Hy|]. simpl. intros; lia.
  - constructor; [done|]. rewrite insert_by_Permutation.
    constructor; [lia|done].
Qed.

Lemma sorted_sorted l : StronglySorted (fun a b => key a ≤ key b) (Py.sorted key l).
Proof.
  induction l as [|x l IH]; simpl; [constructor|]. by apply insert_by_sorted.
Qed.

(** Stability: an inserted element only passes elements with a strictly
    smaller key, so the elements of each key keep their order. *)
Lemma insert_by_stable (c : Z) x l :
  filter (fun a => key a = c) (Py.insert_by key x l)
  = filter (fun a => key a = c) (x :: l).
Proof.
  induction l as [|y l IH]; simpl; [done|].
  destruct (Z.leb_spec (key x) (key y)); [done|].
  rewrite (filter_cons _ y), IH, !(filter_cons _ x), !(filter_cons _ y).
  repeat case_decide; try done; lia.
Qed.

Lemma sorted_stable (c : Z) l :
  filter (fun a => key a = c) (Py.sorted key l) = filter (fun a => key a = c) l.
Proof.
  induction l as [|x l IH]; simpl; [done|].
  change (foldr (Py.insert_by key) [] l) with (Py.sorted key l).
  by rewrite insert_by_stable, !filter_cons, IH.
Qed.

Lemma StronglySorted_reverse (R : relation A) l :
  StronglySorted R l → StronglySorted (flip R) (reverse l).
Proof.
  induction 1 as [|x l Hl IH Hx]; [constructor|].
  rewrite reverse_cons. apply StronglySorted_app_2; [|done|repeat constructor].
  intros a b Ha ->%list_elem_of_singleton. rewrite elem_of_reverse in Ha.
  rewrite Forall_forall in Hx. by apply Hx.
Qed.

Lemma sorted_reverse_Permutation l : Py.sorted_reverse key l ≡ₚ l.
Proof.
  unfold Py.sorted_reverse.
  by rewrite reverse_Permutation, sorted_Permutation, reverse_Permutation.
Qed.

Lemma sorted_reverse_descending l :
  StronglySorted (fun a b => key b ≤ key a) (Py.sorted_reverse key l).
Proof. apply (StronglySorted_reverse _ _ (sorted_sorted (reverse l))). Qed.

Lemma sorted_reverse_stable (c : Z) l :
  filter (fun a => key a = c) (Py.sorted_reverse key l)
  = filter (fun a => key a = c) l.
Proof.
  unfold Py.sorted_reverse.
  by rewrite filter_reverse, sorted_stable, filter_reverse, reverse_involutive.
Qed.
End sorting.

Section sample.
Context {A : Type}.

Lemma sample_loop_length (k : nat) : ∀ (draws : list nat) (pool : list A),
  (k ≤ length pool)%nat → length (Py.sample_loop draws pool k) = k.
Proof.
  induction k as [|k IH]; intros draws pool Hk; [done|].
  cbn [Py.sample_loop]. cbv zeta.
  assert (length pool ≠ 0%nat) as Hn by lia.
  destruct (lookup_lt_is_Some_2 pool (hd 0%nat draws mod length pool)) as [x ->].
  { by apply Nat.mod_upper_bound. }
  destruct (lookup_lt_is_Some_2 pool (length pool - 1)) as [y ->]; [lia|].
  simpl. f_equal. apply IH. rewrite length_take, length_insert. lia.
Qed.

(** Taking the item at [j] and moving the last item into its place leaves
    the other items of the pool. *)
Lemma pool_take (pool : list A) (j : nat) x y :
  pool !! j = Some x → pool !! (length pool - 1)%nat = Some y →
  x :: take (length pool - 1) (<[j := y]> pool) ≡ₚ pool.
Proof.
  intros Hj Hlast.
  destruct (decide (pool = [])) as [->|Hne]; [done|].
  destruct (exists_last Hne) as (front & z & ->).
  rewrite length_app in *. simpl in *.
  replace (length front + 1 - 1)%nat with (length front) in * by lia.
  rewrite lookup_app_r, Nat.sub_diag in Hlast by lia. injection Hlast as ->.
  destruct (decide (j < length front)%nat) as [Hlt|Hge].
  - rewrite lookup_app_l in Hj by done.
    rewrite insert_app_l by done.
    rewrite take_app_length' by (by rewrite length_insert).
    rewrite insert_take_drop by done.
    pose proof (take_drop_middle front j x Hj) as Hsplit.
    clear Hj Hlt Hne. revert Hsplit.
    generalize (take j front) (drop (S j) front). intros l1 l2 <-.
    rewrite <- Permutation_cons_append, <- !Permutation_middle.
    apply Permutation_swap.
  - apply lookup_lt_Some in Hj as Hj'. rewrite length_app in Hj'. simpl in Hj'.
    assert (j = length front) as -> by lia.
    rewrite lookup_app_r, Nat.sub_diag in Hj by lia. injection Hj as ->.
    rewrite insert_app_r_alt, Nat.sub_diag by lia. simpl.
    rewrite take_app_length. apply Permutation_cons_append.
Qed.

(** The sample is taken from the population without replacement. *)
Lemma sample_loop_submseteq (k : nat) : ∀ (draws : list nat) (pool : list A),
  Py.sample_loop draws pool k ⊆+ pool.
Proof.
  induction k as [|k IH]; intros draws pool; [apply submseteq_nil_l|].
  cbn [Py.sample_loop]. cbv zeta.
  destruct (pool !! (hd 0%nat draws mod length pool)%nat) as [x|] eqn:Hj;
    [|apply submseteq_nil_l].
  destruct (pool !! (length pool - 1)%nat) as [y|] eqn:Hlast;
    [|apply submseteq_nil_l].
  etrans; [apply submseteq_skip, IH|].
  by rewrite (pool_take pool _ x y Hj Hlast).
Qed.
Lemma random_sample_length (draws : list nat) (population : list A) (k : Z) :
  0 ≤ k ≤ Py.len population →
  ∃ selected, Py.random_sample draws population k = inr selected
              ∧ Py.len selected = k
              ∧ selected ⊆+ population.
Proof.
  intros Hk. unfold Py.random_sample, Py.len in *.
  destruct (Z.leb_spec 0 k); [|lia].
  destruct (Z.leb_spec k (Z.of_nat (length population))); [|lia].
  eexists; split; [done|]. split; [|apply sample_loop_submseteq].
  rewrite sample_loop_length; lia.
Qed.
End sample.

(** ** The answer key *)

Section answer_key.
Context {A : Type} (answer : A → option string).
Implicit Types (selected : list A) (m : gmap string (option string)).

Lemma foldl_insert_is_Some (entries : list (string * option string)) : ∀ m k,
  is_Some (foldl (fun m (p : string * option string) => <[p.1 := p.2]> m) m entries !! k)
  ↔ is_Some (m !! k) ∨ k ∈ entries.*1.
Proof.
  induction entries as [|[k' v] entries IH]; intros m k; simpl.
  - rewrite elem_of_nil. tauto.
  - rewrite IH, lookup_insert_is_Some, elem_of_cons.
    destruct (decide (k' = k)); intuition congruence.
Qed.

Lemma answer_key_positions selected :
  (imap (fun i q => (Py.str (Z.of_nat i + 1), answer q)) selected).*1
  = (fun i => Py.str (Z.of_nat i + 1)) <$> seq 0 (length selected).
Proof.
  apply list_eq. intros i.
  rewrite !list_lookup_fmap, list_lookup_imap.
  destruct (selected !! i) as [q|] eqn:Hi; simpl.
  - apply lookup_lt_Some in Hi. by rewrite lookup_seq_lt.
  - apply lookup_ge_None in Hi. by rewrite lookup_seq_ge.
Qed.

(** The key has an entry for the positions 1 to [len(selected)] and for no
    other number. *)
Lemma answer_key_is_Some selected (p : Z) :
  is_Some (answer_key answer selected !! Py.str p) ↔ 1 ≤ p ≤ Py.len selected.
Proof.
  unfold answer_key, Py.len. rewrite foldl_insert_is_Some, lookup_empty, answer_key_positions.
  rewrite list_elem_of_fmap. setoid_rewrite elem_of_seq. split.
  - intros [[? [=]]|(i & Hp & Hi)]. apply (inj Py.str) in Hp. lia.
  - intros Hp. right. exists (Z.to_nat (p - 1)). split; [f_equal|]; lia.
Qed.
End answer_key.

(** ** The miss counter *)

Section tally.
Implicit Types (t : string) (topics : list string).

Lemma first_seen_snoc topics t :
  first_seen (topics ++ [t])
  = if decide (t ∈ first_seen topics) then first_seen topics
    else first_seen topics ++ [t].
Proof. unfold first_seen. by rewrite foldl_snoc. Qed.

Lemma elem_of_first_seen topics t : t ∈ first_seen topics ↔ t ∈ topics.
Proof.
  induction topics as [|s topics IH] using rev_ind; [done|].
  rewrite first_seen_snoc, elem_of_app, list_elem_of_singleton.
  case_decide as Hs.
  - rewrite IH. split; [tauto|]. intros [Ht| ->]; [done|]. by apply IH.
  - by rewrite elem_of_app, IH, list_elem_of_singleton.
Qed.

Lemma NoDup_first_seen topics : NoDup (first_seen topics).
Proof.
  induction topics as [|s topics IH] using rev_ind; [constructor|].
  rewrite first_seen_snoc. case_decide; [done|].
  apply NoDup_app. split_and!; [done| |apply NoDup_singleton].
  intros x Hx ->%list_elem_of_singleton. done.
Qed.

Lemma misses_snoc s topics t :
  misses s (topics ++ [t]) = misses s topics + (if decide (t = s) then 1 else 0).
Proof.
  unfold misses. rewrite filter_app, length_app, (filter_cons _ t).
  case_decide; simpl; lia.
Qed.

Lemma misses_not_elem t topics : t ∉ topics → misses t topics = 0.
Proof.
  unfold misses. induction topics as [|s topics IH]; intros Ht; [done|].
  rewrite filter_cons. case_decide as Hs.
  - destruct Ht. apply elem_of_cons. by left.
  - apply IH. intros Hin. apply Ht, elem_of_cons. by right.
Qed.

(** The dictionary built by the loop is the tally of the spec. *)
Lemma foldl_count_miss topics : foldl count_miss [] topics = tally topics.
Proof.
  induction topics as [|t topics IH] using rev_ind; [done|].
  rewrite foldl_snoc, IH. unfold tally, count_miss.
  rewrite first_seen_snoc, dict_get_fmap.
  destruct (decide (t ∈ first_seen topics)) as [Hin|Hnin].
  - apply dict_set_fmap_old; [apply NoDup_first_seen|done|..].
    + rewrite misses_snoc. by rewrite decide_True.
    + intros s Hs. rewrite misses_snoc. rewrite decide_False by done. lia.
  - rewrite dict_set_fmap_new by done. rewrite fmap_app. simpl. f_equal.
    + apply list_fmap_ext. intros i s Hs. rewrite misses_snoc.
      rewrite decide_False; [by rewrite Z.add_0_r|].
      intros ->. apply Hnin. by eapply list_elem_of_lookup_2.
    + rewrite misses_snoc, decide_True by done.
      rewrite elem_of_first_seen in Hnin. by rewrite misses_not_elem.
Qed.
End tally.

(** ** The grading loop *)

Section grading.
Variable exam : ExamAttempt.t.
Implicit Types (st : Grading.t) (p : Z) (a : string) (answers : list (Z * string)).

Lemma grade_step_found st p a q :
  Py.getitem (ExamAttempt.questions exam) (p - 1) = inr q →
  grade_step exam st (p, a)
  = inr (Grading.mk
           (Grading.correct_count st
            + (if decide (answered_correctly exam (p, a)) then 1 else 0))
           (Grading.detailed_results st ++
              [DetailedResult.mk p (StoredQuestion.question q) a
                 (key_get (ExamAttempt.correct_answers exam) p)
                 (bool_decide (answered_correctly exam (p, a))) (topic_of q)])
           (if decide (answered_correctly exam (p, a)) then Grading.weak_topics st
            else count_miss (Grading.weak_topics st) (topic_of q))).
Proof.
  intros Hq. unfold grade_step. simpl. rewrite Hq.
  destruct (decide (answered_correctly exam (p, a))) as [Heq|Hne].
  - rewrite !bool_decide_eq_true_2 by exact Heq. reflexivity.
  - rewrite !bool_decide_eq_false_2 by exact Hne. cbn. by rewrite Z.add_0_r.
Qed.

Lemma grade_step_not_found st p a e :
  Py.getitem (ExamAttempt.questions exam) (p - 1) = inl e →
  grade_step exam st (p, a) = inl IndexError.
Proof.
  intros Hq. rewrite (getitem_error _ _ _ Hq) in Hq.
  unfold grade_step. simpl. rewrite Hq.
  by destruct (bool_decide _).
Qed.

Lemma grade_step_success st item st' :
  grade_step exam st item = inr st' →
  ∃ q, Py.getitem (ExamAttempt.questions exam) (item.1 - 1) = inr q.
Proof.
  destruct item as [p a]. simpl.
  destruct (Py.getitem (ExamAttempt.questions exam) (p - 1)) as [e|q] eqn:Hq; [|eauto].
  by rewrite (grade_step_not_found st p a e Hq).
Qed.

(** What a loop that ran to its end has computed. *)
Lemma for_each_grade_step answers : ∀ st st',
  for_each (grade_step exam) answers st = inr st' →
  Grading.correct_count st' = Grading.correct_count st + matches_among exam answers
  ∧ Grading.weak_topics st'
    = foldl count_miss (Grading.weak_topics st) (missed_topics exam answers).
Proof.
  unfold matches_among, missed_topics.
  induction answers as [|[p a] answers IH]; intros st st'; simpl.
  - intros [= <-]. split; [lia|done].
  - destruct (grade_step exam st (p, a)) as [e|st1] eqn:Hstep; simpl; [done|].
    intros Hrest. apply IH in Hrest as [Hc Hw].
    destruct (grade_step_success _ _ _ Hstep) as [q Hq]. simpl in Hq.
    rewrite (grade_step_found _ _ _ _ Hq) in Hstep. injection Hstep as <-.
    simpl in Hc, Hw. rewrite Hc, Hw, !filter_cons.
    destruct (decide (answered_correctly exam (p, a))) as [Hok|Hko].
    + rewrite decide_False by tauto. split; [simpl length; lia|done].
    + rewrite decide_True by done. split; [lia|].
      rewrite fmap_cons. simpl. unfold topic_at. by rewrite Hq.
Qed.

Lemma grade_loop_spec answers g :
  grade_loop exam answers = inr g →
  Grading.correct_count g = matches_among exam answers
  ∧ Grading.weak_topics g = tally (missed_topics exam answers).
Proof.
  intros [Hc Hw]%for_each_grade_step. simpl in Hc, Hw.
  by rewrite Hc, Hw, foldl_count_miss.
Qed.

(** The loop runs to its end when every lookup succeeds. *)
Lemma for_each_grade_step_total answers :
  Forall (fun item => ∃ q, Py.getitem (ExamAttempt.questions exam) (item.1 - 1) = inr q)
    answers →
  ∀ st, ∃ st', for_each (grade_step exam) answers st = inr st'.
Proof.
  induction 1 as [|[p a] answers [q Hq] _ IH]; intros st; simpl; [by eexists|].
  simpl in Hq. rewrite (grade_step_found _ _ _ _ Hq). simpl. apply IH.
Qed.


Lemma matches_among_bounds answers :
  0 ≤ matches_among exam answers ≤ Z.of_nat (length answers).
Proof.
  unfold matches_among.
  pose proof (length_filter (answered_correctly exam) answers). lia.
Qed.

Lemma positions_in_range_length answers :
  positions_in_range exam answers →
  Z.of_nat (length answers) ≤ Py.len (ExamAttempt.questions exam).
Proof.
  intros [Hnd Hr]. unfold Py.len in *.
  set (n := length (ExamAttempt.questions exam)) in *.
  assert (answers.*1 ⊆+ Z.of_nat <$> seq 1 n) as Hsub.
  { apply NoDup_submseteq; [done|]. intros p Hp.
    rewrite Forall_forall in Hr. specialize (Hr p Hp).
    apply list_elem_of_fmap. exists (Z.to_nat p). split; [lia|].
    apply elem_of_seq. lia. }
  apply submseteq_length in Hsub. rewrite !length_fmap, length_seq in Hsub. lia.
Qed.

Lemma positions_in_range_found answers :
  positions_in_range exam answers →
  Forall (fun item => ∃ q, Py.getitem (ExamAttempt.questions exam) (item.1 - 1) = inr q)
    answers.
Proof.
  intros [_ Hr]. rewrite Forall_fmap in Hr.
  eapply Forall_impl; [exact Hr|]. intros [p a] Hp. simpl in *.
  destruct (getitem_in_range (ExamAttempt.questions exam) (p - 1)) as (q & _ & Hq);
    [lia|eauto].
Qed.
End grading.

(** ** The score *)

(** Every total from 1 to 100 with every count up to it, by evaluation. *)
Lemma score_table :
  forallb (fun n => forallb (fun c => score_check (Z.of_nat c) (Z.of_nat n)) (seq 0 (S n)))
    (seq 1 100) = true.
Proof. vm_compute. reflexivity. Qed.

Lemma score_check_true (correct_count total_questions : Z) :
  1 ≤ total_questions ≤ 100 → 0 ≤ correct_count ≤ total_questions →
  score_check correct_count total_questions = true.
Proof.
  intros Hn Hc. pose proof score_table as Ht.
  rewrite forallb_forall in Ht.
  specialize (Ht (Z.to_nat total_questions)).
  rewrite forallb_forall in Ht.
  specialize (Ht ltac:(apply in_seq; lia) (Z.to_nat correct_count) ltac:(apply in_seq; lia)).
  by rewrite !Z2Nat.id in Ht by lia.
Qed.

Lemma score_of_total (correct_count total_questions : Z) :
  1 ≤ total_questions ≤ 100 → 0 ≤ correct_count ≤ total_questions →
  ∃ s, score_of correct_count total_questions = inr s.
Proof.
  intros Hn Hc. pose proof (score_check_true _ _ Hn Hc) as Hs.
  unfold score_check in Hs. destruct (score_of _ _) as [e|s]; [done|by eexists].
Qed.

(** ** Rows found by [.first()] *)

Lemma first_insert_same {A} (P : A → bool) (rows : list A) i x y :
  first P rows = Some (i, x) → P y = true →
  first P (<[i := y]> rows) = Some (i, y).
Proof.
  unfold first. intros (Hi & _ & Hj)%list_find_Some Hy.
  apply list_find_insert_Some. right; left.
  split_and!; [done|done|by eapply lookup_lt_Some|done|done].
Qed.

Lemma first_lookup {A} (P : A → bool) (rows : list A) i x :
  first P rows = Some (i, x) → rows !! i = Some x ∧ P x = true.
Proof. unfold first. by intros (Hi & Hx & _)%list_find_Some. Qed.

(** ** Resubmission *)

(** C1: a submission for an attempt whose [completed_at] is set is rejected
    with "Exam already submitted" whatever it contains, and the store (hence
    every stored field of the attempt) stays as it was; and since a graded
    attempt has [completed_at] set, every later submission for it is rejected:
    an attempt is graded at most once. *)
Theorem C1_completed_attempt_rejected submission current_user now db :
  (∀ i exam completed,
     first (is_attempt_of (ExamSubmissionRequest.exam_id submission) current_user)
       (exam_attempts db) = Some (i, exam) →
     ExamAttempt.completed_at exam = Some completed →
     submit_exam submission current_user now db = (inl already_submitted, db))
  ∧ (∀ result db',
       submit_exam submission current_user now db = (inr result, db') →
       ∀ submission' now',
         ExamSubmissionRequest.exam_id submission'
         = ExamSubmissionRequest.exam_id submission →
         submit_exam submission' current_user now' db' = (inl already_submitted, db')).
Proof.
  split.
  - intros i exam completed Hfind Hdone. unfold submit_exam.
    by rewrite Hfind, Hdone.
  - intros result db' Hsubmit submission' now' Hid. unfold submit_exam in Hsubmit.
    destruct (first _ (exam_attempts db)) as [[i exam]|] eqn:Hfind; [|done].
    destruct (ExamAttempt.completed_at exam) eqn:Hopen; [done|].
    destruct (grade_loop exam _) as [e|g]; [done|].
    destruct (score_of _ _) as [e|score]; [done|].
    injection Hsubmit as _ <-.
    unfold submit_exam. simpl. rewrite Hid.
    erewrite first_insert_same; [done|exact Hfind|].
    by destruct (first_lookup _ _ _ _ Hfind) as [_ Hexam].
Qed.

(** The graded attempt of user 7: a second submission, with any payload, is
    rejected. *)
Lemma C1_completed_attempt_rejected_witness :
  submit_exam (ExamSubmissionRequest.mk 1 [(2, "B")] 5) 7 3000 db_graded
  = (inl already_submitted, db_graded)
  ∧ submit_exam (ExamSubmissionRequest.mk 1 [] 0) 7 4000 db_graded
    = (inl already_submitted, db_graded).
Proof.
  split.
  - eapply (proj2 (C1_completed_attempt_rejected submission_full 7 2000 db_started)).
    + vm_compute. reflexivity.
    + reflexivity.
  - eapply (proj1 (C1_completed_attempt_rejected
                     (ExamSubmissionRequest.mk 1 [] 0) 7 4000 db_graded) 0%nat _ 2000).
    + vm_compute. reflexivity.
    + reflexivity.
Defined.

(** ** Exam generation *)

Lemma matches_request_matching request pq :
  matches_request request pq = true ↔ matching request pq.
Proof.
  unfold matches_request, matching, requested_year.
  rewrite !andb_true_iff, !String.eqb_eq, bool_decide_eq_true.
  destruct (MockExamRequest.year request) as [y|]; simpl; [|tauto].
  destruct (decide (y = "" ∨ y = "Random Mix")) as [[->| ->]|Hno].
  - simpl. tauto.
  - rewrite bool_decide_eq_true_2 by done. simpl. tauto.
  - destruct (String.eqb_spec y "") as [->|Hy]; [tauto|]. simpl.
    rewrite (bool_decide_eq_false_2 (Some y = Some "Random Mix")).
    2:{ intros [= ->]. tauto. }
    simpl. rewrite bool_decide_eq_true.
    split; [intros (?&[= ?]); tauto|intros (?&?&?&->); tauto].
Qed.

Lemma questions_pool_db_matching request db :
  questions_pool_db request db = filter (matching request) (past_questions db).
Proof.
  unfold questions_pool_db. induction (past_questions db) as [|pq bank IH]; [done|].
  simpl. rewrite filter_cons, IH.
  destruct (matches_request request pq) eqn:Hm.
  - apply matches_request_matching in Hm. by rewrite decide_True.
  - rewrite decide_False; [done|]. rewrite <- matches_request_matching. congruence.
Qed.

Lemma hidden_answers {A} (hide : nat → A → ExamQuestion.t) (selected : list A) :
  (∀ i x, ExamQuestion.correct_answer (hide i x) = None) →
  Forall (fun q => ExamQuestion.correct_answer q = None) (imap hide selected).
Proof.
  intros Hhide. apply Forall_lookup. intros i q.
  rewrite list_lookup_imap. destruct (selected !! i); simpl; [|done].
  intros [= <-]. apply Hhide.
Qed.

Lemma int_or_nonzero x d : x ≠ 0 → Py.int_or x d = x.
Proof. unfold Py.int_or. by destruct (Z.eqb_spec x 0). Qed.

(** C2: on the question-bank branch, with at least one matching entry, the
    exam is created (no error, however few entries match), the student gets
    min(requested, matching) questions, drawn without replacement from the
    matching entries, and none of them carries an answer. *)
Theorem C2_bank_exam_size request current_user now draws db :
  validated request →
  filter (matching request) (past_questions db) ≠ [] →
  ∃ response db',
    create_mock_exam request current_user now draws db = (inr response, db')
    ∧ Py.len (MockExamResponse.questions response)
      = Z.min (MockExamRequest.number_of_questions request)
          (Py.len (filter (matching request) (past_questions db)))
    ∧ (∃ selected,
         selected ⊆+ filter (matching request) (past_questions db)
         ∧ MockExamResponse.questions response = imap hide_past_question selected)
    ∧ Forall (fun q => ExamQuestion.correct_answer q = None)
        (MockExamResponse.questions response).
Proof.
  intros [Hn _] Hpool. unfold create_mock_exam.
  rewrite questions_pool_db_matching.
  destruct (filter (matching request) (past_questions db)) as [|pq pool] eqn:Hfilter;
    [done|].
  unfold num_questions. rewrite int_or_nonzero by lia.
  destruct (random_sample_length draws (pq :: pool)
              (Z.min (MockExamRequest.number_of_questions request) (Py.len (pq :: pool))))
    as (selected & -> & Hlen & Hsub).
  { unfold Py.len. simpl length. lia. }
  eexists _, _. split; [done|]. simpl. split_and!.
  - unfold Py.len in *. by rewrite length_imap.
  - by exists selected.
  - by apply hidden_answers.
Qed.

(** 100 questions of 2020 requested from the bank of three: three returned. *)
Lemma C2_bank_exam_size_witness :
  ∃ response db',
    create_mock_exam (MockExamRequest.mk "WAEC" "Mathematics" (Some "2020") 100 60)
      7 1000 [2; 0]%nat db_small_bank = (inr response, db')
    ∧ Py.len (MockExamResponse.questions response) = 3
    ∧ (∃ selected,
         selected ⊆+ small_bank
         ∧ MockExamResponse.questions response = imap hide_past_question selected)
    ∧ Forall (fun q => ExamQuestion.correct_answer q = None)
        (MockExamResponse.questions response).
Proof.
  apply (C2_bank_exam_size (MockExamRequest.mk "WAEC" "Mathematics" (Some "2020") 100 60)
           7 1000 [2; 0]%nat db_small_bank).
  - unfold validated. simpl. lia.
  - vm_compute. discriminate.
Defined.

(** C7: without a matching bank entry and without a built-in sample question
    for the subject, creation fails with the 400 "No questions available"
    error and the store, hence the table of attempts, stays as it was. *)
Theorem C7_no_questions_available request current_user now draws db :
  filter (matching request) (past_questions db) = [] →
  default [] (SAMPLE_QUESTIONS !! MockExamRequest.subject request) = [] →
  create_mock_exam request current_user now draws db
  = (inl (HTTPException 400
            ("No questions available for " +:+ MockExamRequest.subject request
             +:+ " " +:+ MockExamRequest.exam_type request
             +:+ ". Please upload past questions first or try a different subject.")),
     db).
Proof.
  intros Hbank Hsample. unfold create_mock_exam.
  by rewrite questions_pool_db_matching, Hbank, Hsample.
Qed.

(** Physics has neither bank entries nor sample questions. *)
Lemma C7_no_questions_available_witness :
  create_mock_exam (MockExamRequest.mk "JAMB" "Physics" None 40 60) 7 1000 [] db_small_bank
  = (inl (HTTPException 400
            "No questions available for Physics JAMB. Please upload past questions first or try a different subject."),
     db_small_bank).
Proof.
  apply (C7_no_questions_available (MockExamRequest.mk "JAMB" "Physics" None 40 60)
           7 1000 [] db_small_bank).
  - vm_compute. reflexivity.
  - vm_compute. reflexivity.
Defined.

(** C6, the claim as stated fails: a request without the optional fields is
    validated to 40 questions in 60 minutes, and that is what the
    question-bank branch uses, also when the bank holds 50 entries or more. *)
Lemma C6_bank_defaults_counterexample :
  ¬ bank_defaults_50_90
  ∧ ∃ response db',
      post_create body_plain 7 1000 [] (db_bank_of 60) = (inr response, db')
      ∧ MockExamResponse.total_questions response = 40
      ∧ MockExamResponse.time_limit_minutes response = 60.
Proof.
  split.
  - intros Hclaim.
    destruct (Hclaim body_plain (MockExamRequest.mk "WAEC" "Mathematics" None 40 60)
                eq_refl eq_refl eq_refl) as [H50 _].
    vm_compute in H50. discriminate.
  - eexists _, _. split; [vm_compute; reflexivity|]. split; reflexivity.
Qed.

Lemma int_field_within loc dflt lo hi v :
  within lo hi v → int_field loc dflt lo hi v = inr (default dflt v).
Proof.
  destruct v as [x|]; simpl; [|done]. intros Hx.
  destruct (Z.leb_spec lo x); [|lia]. by destruct (Z.leb_spec x hi); [|lia].
Qed.

Lemma int_field_outside loc dflt lo hi v :
  ¬ within lo hi v → int_field loc dflt lo hi v = inl (RequestValidationError loc).
Proof.
  destruct v as [x|]; simpl; [|tauto]. intros Hx.
  destruct (Z.leb_spec lo x); [|done]. by destruct (Z.leb_spec x hi); [lia|].
Qed.

(** C6 as amended: a field left out takes the default of the schema, 40
    questions and 60 minutes; a supplied value is accepted exactly when the
    count lies in [10,100] and the time limit in [15,180], and rejected with a
    validation error before the handler runs otherwise; the question-bank
    branch uses the validated values as they are. *)
Theorem C6_schema_defaults_and_bounds body :
  (within 10 100 (MockExamBody.number_of_questions body)
   ∧ within 15 180 (MockExamBody.time_limit_minutes body) →
   ∃ request,
     validate_MockExamRequest body = inr request
     ∧ MockExamRequest.number_of_questions request
       = default 40 (MockExamBody.number_of_questions body)
     ∧ MockExamRequest.time_limit_minutes request
       = default 60 (MockExamBody.time_limit_minutes body)
     ∧ num_questions request = MockExamRequest.number_of_questions request
     ∧ bank_time_limit request = MockExamRequest.time_limit_minutes request)
  ∧ (¬ (within 10 100 (MockExamBody.number_of_questions body)
        ∧ within 15 180 (MockExamBody.time_limit_minutes body)) →
     ∃ loc, ∀ current_user now draws db,
       post_create body current_user now draws db
       = (inl (RequestValidationError loc), db)).
Proof.
  unfold post_create, validate_MockExamRequest. split.
  - intros [Hn Ht]. rewrite (int_field_within _ _ _ _ _ Hn),
      (int_field_within _ _ _ _ _ Ht). simpl.
    eexists. split; [done|]. simpl. split_and!; [done|done|..].
    + apply int_or_nonzero.
      destruct (MockExamBody.number_of_questions body); simpl in *; lia.
    + apply int_or_nonzero.
      destruct (MockExamBody.time_limit_minutes body); simpl in *; lia.
  - intros Hout.
    destruct (decide (within 10 100 (MockExamBody.number_of_questions body))) as [Hn|Hn].
    + assert (¬ within 15 180 (MockExamBody.time_limit_minutes body)) as Ht by tauto.
      rewrite (int_field_within _ _ _ _ _ Hn), (int_field_outside _ _ _ _ _ Ht).
      by eexists.
    + rewrite (int_field_outside _ _ _ _ _ Hn). by eexists.
Qed.

(** The request without optional fields, and one asking for 9 questions. *)
Lemma C6_schema_defaults_and_bounds_witness :
  (∃ request,
     validate_MockExamRequest body_plain = inr request
     ∧ MockExamRequest.number_of_questions request = 40
     ∧ MockExamRequest.time_limit_minutes request = 60
     ∧ num_questions request = MockExamRequest.number_of_questions request
     ∧ bank_time_limit request = MockExamRequest.time_limit_minutes request)
  ∧ ∃ loc, ∀ current_user now draws db,
      post_create (MockExamBody.mk "WAEC" "Mathematics" None (Some 9) (Some 90))
        current_user now draws db
      = (inl (RequestValidationError loc), db).
Proof.
  split.
  - apply (proj1 (C6_schema_defaults_and_bounds body_plain)). by split.
  - apply (proj2 (C6_schema_defaults_and_bounds
                    (MockExamBody.mk "WAEC" "Mathematics" None (Some 9) (Some 90)))).
    simpl. lia.
Defined.

(** ** Grading *)

Lemma db_started_attempts : exam_attempts db_started = [attempt_started].
Proof. vm_compute. reflexivity. Qed.

Lemma attempt_started_wf : attempt_wf attempt_started.
Proof.
  split_and!; [reflexivity|simpl; lia..|].
  intros p. apply (answer_key_is_Some StoredQuestion.correct_answer).
Qed.


(** Grading is total on submissions whose positions are those of the
    attempt. *)
Lemma grade_total exam answers :
  attempt_wf exam → positions_in_range exam answers →
  ∃ g score,
    grade_loop exam answers = inr g
    ∧ score_of (Grading.correct_count g) (ExamAttempt.total_questions exam) = inr score.
Proof.
  intros (Hlen & Hn & _) Hrange.
  destruct (for_each_grade_step_total exam answers
              (positions_in_range_found exam answers Hrange) Grading.init) as [g Hg].
  fold (grade_loop exam answers) in Hg.
  destruct (grade_loop_spec exam answers g Hg) as [Hc _].
  pose proof (matches_among_bounds exam answers).
  pose proof (positions_in_range_length exam answers Hrange).
  destruct (score_of_total (Grading.correct_count g) (ExamAttempt.total_questions exam))
    as [score Hscore]; [lia|lia|].
  by exists g, score.
Qed.




(** The ranking of a miss counter: a rearrangement of its entries, by
    decreasing count, the entries of each count in the counter's order. *)
Lemma rank_weak_topics_spec (weak_topics : Py.odict Z) :
  rank_weak_topics weak_topics ≡ₚ weak_topics
  ∧ StronglySorted (fun a b => b.2 ≤ a.2) (rank_weak_topics weak_topics)
  ∧ ∀ c, filter (fun e => e.2 = c) (rank_weak_topics weak_topics)
         = filter (fun e => e.2 = c) weak_topics.
Proof.
  unfold rank_weak_topics. split_and!.
  - apply sorted_reverse_Permutation.
  - apply (sorted_reverse_descending snd).
  - intros c. apply (sorted_reverse_stable snd).
Qed.

(** C5: the weak topics of a graded submission are the first three names of
    a ranking of the tally of missed topics (one entry per topic of an
    incorrectly answered position, "Unknown" for a question without topic, in
    the order of first encounter, with the number of misses): the ranking
    rearranges the tally by decreasing count and keeps the first-encounter
    order among topics of equal count. With the counts Algebra 3, Geometry 3,
    Trig 1 met in that order the weak topics are Algebra, Geometry, Trig; a
    fourth topic with 2 misses pushes Trig out. *)
Theorem C5_weak_topic_ranking :
  (∀ submission current_user now db result db',
     submit_exam submission current_user now db = (inr result, db') →
     ∃ i exam ranking,
       first (is_attempt_of (ExamSubmissionRequest.exam_id submission) current_user)
         (exam_attempts db) = Some (i, exam)
       ∧ ranking ≡ₚ tally (missed_topics exam (ExamSubmissionRequest.answers submission))
       ∧ StronglySorted (fun a b => b.2 ≤ a.2) ranking
       ∧ (∀ c, filter (fun e => e.2 = c) ranking
               = filter (fun e => e.2 = c)
                   (tally (missed_topics exam (ExamSubmissionRequest.answers submission))))
       ∧ ExamResultResponse.weak_topics result = map fst (take 3 ranking))
  ∧ weak_topic_names [("Algebra", 3); ("Geometry", 3); ("Trig", 1)]
    = ["Algebra"; "Geometry"; "Trig"]
  ∧ weak_topic_names [("Trig", 1); ("Algebra", 3); ("Stats", 2); ("Geometry", 3)]
    = ["Algebra"; "Geometry"; "Stats"].
Proof.
  split; [|split; reflexivity].
  intros submission current_user now db result db' Hsubmit.
  unfold submit_exam in Hsubmit.
  destruct (first _ (exam_attempts db)) as [[i exam]|] eqn:Hfind; [|done].
  destruct (ExamAttempt.completed_at exam); [done|].
  destruct (grade_loop exam _) as [e|g] eqn:Hg; [done|].
  destruct (score_of _ _) as [e|score]; [done|].
  injection Hsubmit as <- _.
  destruct (grade_loop_spec exam _ g Hg) as [_ Hw].
  simpl. rewrite Hw.
  destruct (rank_weak_topics_spec
              (tally (missed_topics exam (ExamSubmissionRequest.answers submission))))
    as (Hperm & Hsorted & Hstable).
  by eexists i, exam, _.
Qed.

(** The submission with misses at positions 2 (no topic) and 3 (Geometry). *)
Lemma C5_weak_topic_ranking_witness :
  ∃ i exam ranking,
    first (is_attempt_of 1 7) (exam_attempts db_started) = Some (i, exam)
    ∧ ranking ≡ₚ tally (missed_topics exam [(1, "A"); (2, "B"); (3, "A")])
    ∧ StronglySorted (fun a b => b.2 ≤ a.2) ranking
    ∧ (∀ c, filter (fun e => e.2 = c) ranking
            = filter (fun e => e.2 = c)
                (tally (missed_topics exam [(1, "A"); (2, "B"); (3, "A")])))
    ∧ ["Unknown"; "Geometry"] = map fst (take 3 ranking).
Proof.
  eapply (proj1 C5_weak_topic_ranking submission_full 7 2000 db_started
            (ExamResultResponse.mk 1 3 1 33 600 ["Unknown"; "Geometry"] _ _)).
  vm_compute. reflexivity.
Defined.



(** On attempts of at most 100 questions the score is the truncated
    percentage, except on the four pairs of [score_exceptions], where the
    binary64 product falls just below the integer and the score is one less. *)
Lemma score_of_percentage (correct_count total_questions : Z) :
  1 ≤ total_questions ≤ 100 → 0 ≤ correct_count ≤ total_questions →
  score_of correct_count total_questions
  = inr (floor_percentage correct_count total_questions
         - (if is_score_exception correct_count total_questions then 1 else 0)).
Proof.
  intros Hn Hc. pose proof (score_check_true _ _ Hn Hc) as Hs.
  unfold score_check in Hs. destruct (score_of _ _) as [e|s]; [done|].
  destruct (is_score_exception _ _); apply Z.eqb_eq in Hs; f_equal; lia.
Qed.

(** C4: the score is computed in floating point,
    [int((correct_count / total_questions) * 100)], which is the truncated
    percentage for 7 of 9 (77) but not for 29 of 100: the quotient is the
    double below 0.29, its product with 100 the double below 29, and the
    attempt with 29 correct answers out of 100 is stored with 28 percent. *)
Theorem C4_score_29_of_100 :
  (∃ result db',
     submit_exam submission_29_of_100 7 2000 db_started_100 = (inr result, db')
     ∧ ExamResultResponse.total_questions result = 100
     ∧ ExamResultResponse.correct_count result = 29
     ∧ ExamResultResponse.score_percentage result = 28)
  ∧ floor_percentage 29 100 = 29
  ∧ score_of 29 100 = inr 28
  ∧ score_of 7 9 = inr 77.
Proof.
  split_and!; [|reflexivity|vm_compute; reflexivity|vm_compute; reflexivity].
  eexists _, _. split; [vm_compute; reflexivity|]. split_and!; reflexivity.
Qed.

(** ** Study streak *)

(** C9: the loop compares the next date with [current_date - streak] days,
    not with the day before [current_date]; from the third consecutive day on
    the comparison fails, so a run of three or more consecutive days ending
    today is reported as a streak of 2. *)
Theorem C9_streak_stops_at_two user_id now db (k : nat) (earlier : list Z) :
  (3 ≤ k)%nat →
  activity_dates user_id db = consecutive_days (date_of now) k ++ earlier →
  calculate_study_streak user_id now db = 2.
Proof.
  intros Hk Hdates. unfold calculate_study_streak. rewrite Hdates.
  destruct k as [|[|[|k]]]; [lia..|].
  unfold consecutive_days. simpl seq. rewrite !fmap_cons. simpl app.
  cbn [streak_loop].
  replace (date_of now - Z.of_nat 0) with (date_of now) by lia.
  rewrite Z.eqb_refl. cbn [orb].
  destruct (Z.eqb_spec (date_of now - Z.of_nat 1) (date_of now)); [lia|].
  destruct (Z.eqb_spec (date_of now - Z.of_nat 1) (date_of now - (0 + 1))); [|lia].
  cbn [orb].
  destruct (Z.eqb_spec (date_of now - Z.of_nat 2) (date_of now - Z.of_nat 1)); [lia|].
  destruct (Z.eqb_spec (date_of now - Z.of_nat 2)
              (date_of now - Z.of_nat 1 - (0 + 1 + 1))); [lia|].
  reflexivity.
Qed.

(** Activity on days 10, 9 and 8, asked on day 10. *)
Lemma C9_streak_stops_at_two_witness :
  activity_dates 7 db_three_days = [10; 9; 8]
  ∧ calculate_study_streak 7 evening_of_day_10 db_three_days = 2.
Proof.
  split; [reflexivity|].
  apply (C9_streak_stops_at_two 7 evening_of_day_10 db_three_days 3 []).
  - lia.
  - reflexivity.
Defined.

(** ** Subject counters *)

Lemma first_insert_congr {A} (Q : A → bool) (rows : list A) : ∀ j x y,
  rows !! j = Some x → Q y = Q x →
  first Q (<[j := y]> rows)
  = (fun r : nat * A => if decide (r.1 = j) then (j, y) else r) <$> first Q rows.
Proof.
  unfold first. induction rows as [|r rows IH]; intros [|j] x y Hj HQ;
    simplify_eq/=.
  - rewrite HQ. case_decide; [done|].
    by destruct (list_find _ rows) as [[i z]|].
  - case_decide; [done|]. rewrite (IH j x y Hj HQ).
    destruct (list_find _ rows) as [[i z]|]; simpl; [|done].
    unfold prod_map. simpl. by repeat case_decide; simplify_eq/=; try lia.
Qed.

Section subject_counters.
Implicit Types (rows : list UserSubject.t) (u : Z) (s : string).

Lemma is_subject_of_add_to_counters u s da dc us :
  is_subject_of u s (add_to_counters da dc us) = is_subject_of u s us.
Proof. done. Qed.

Lemma is_subject_of_true u s us :
  is_subject_of u s us = true
  ↔ UserSubject.user_id us = u ∧ UserSubject.subject_name us = s.
Proof.
  unfold is_subject_of. by rewrite andb_true_iff, Z.eqb_eq, String.eqb_eq.
Qed.

(** Adding to the counters of the first row of (u, s) changes the counters
    of (u, s) and no others. *)
Lemma counters_of_bump rows u s da dc rows' u' s' :
  bump_user_subject u s da dc rows = Some rows' →
  counters_of rows' u' s'
  = if decide ((u', s') = (u, s))
    then (fun p : Z * Z => (p.1 + da, p.2 + dc)) <$> counters_of rows u' s'
    else counters_of rows u' s'.
Proof.
  unfold bump_user_subject, counters_of.
  destruct (first (is_subject_of u s) rows) as [[j us]|] eqn:Hfind; [|done].
  intros [= <-]. destruct (first_lookup _ _ _ _ Hfind) as [Hj Hus].
  rewrite (first_insert_congr _ rows j us _ Hj (is_subject_of_add_to_counters u' s' da dc us)).
  case_decide as Hkey.
  - injection Hkey as -> ->. rewrite Hfind. simpl. by rewrite decide_True.
  - destruct (first (is_subject_of u' s') rows) as [[i x]|] eqn:Hfind'; [|done].
    simpl. case_decide as Hi; [|done]. subst i.
    destruct (first_lookup _ _ _ _ Hfind') as [Hj' Hx].
    rewrite Hj in Hj'. injection Hj' as <-.
    apply is_subject_of_true in Hus as [<- <-].
    apply is_subject_of_true in Hx as [<- <-]. done.
Qed.

Lemma counters_of_bump_None rows u s da dc :
  bump_user_subject u s da dc rows = None ↔ counters_of rows u s = None.
Proof.
  unfold bump_user_subject, counters_of.
  by destruct (first (is_subject_of u s) rows) as [[j us]|].
Qed.

(** A row added at the end is found only where no earlier row is. *)
Lemma counters_of_snoc rows new u' s' :
  counters_of (rows ++ [new]) u' s'
  = match counters_of rows u' s' with
    | Some p => Some p
    | None =>
        if is_subject_of u' s' new
        then Some (UserSubject.total_questions_attempted new,
                   UserSubject.correct_answers new)
        else None
    end.
Proof.
  unfold counters_of, first.
  destruct (list_find _ rows) as [[i x]|] eqn:Hfind.
  - by rewrite (list_find_app_l _ _ _ _ _ Hfind).
  - rewrite (list_find_app_r _ _ _ Hfind). simpl.
    destruct (is_subject_of u' s' new) eqn:Hnew.
    + by rewrite decide_True.
    + rewrite decide_False; [done|congruence].
Qed.

Lemma counters_of_add_subjects names : ∀ rows uid u' s' p,
  counters_of rows u' s' = Some p →
  counters_of (add_subjects uid names rows) u' s' = Some p.
Proof.
  unfold add_subjects.
  induction names as [|name names IH]; intros rows uid u' s' p Hp; [done|].
  simpl. apply IH. by rewrite counters_of_snoc, Hp.
Qed.

Lemma counters_of_count_solved_question rows u s u' s' :
  counters_of (count_solved_question u s rows) u' s'
  = if decide ((u', s') = (u, s))
    then Some (match counters_of rows u s with
               | Some p => (p.1 + 1, p.2)
               | None => (1, 0)
               end)
    else counters_of rows u' s'.
Proof.
  unfold count_solved_question.
  destruct (bump_user_subject u s 1 0 rows) as [rows'|] eqn:Hbump.
  - rewrite (counters_of_bump _ _ _ _ _ _ u' s' Hbump).
    case_decide as Hkey; [|done]. injection Hkey as -> ->.
    destruct (counters_of rows u s) as [p|] eqn:Hp.
    + simpl. by rewrite Z.add_0_r.
    + rewrite <- (counters_of_bump_None _ _ _ 1 0) in Hp. congruence.
  - apply counters_of_bump_None in Hbump. rewrite counters_of_snoc.
    case_decide as Hkey.
    + injection Hkey as -> ->. rewrite Hbump.
      by rewrite (proj2 (is_subject_of_true u s _)).
    + destruct (counters_of rows u' s') as [p|]; [done|].
      destruct (is_subject_of u' s' _) eqn:Hnew; [|done].
      apply is_subject_of_true in Hnew as [<- <-]. done.
Qed.
End subject_counters.

(** ** The invariant of stored attempts *)

Lemma validate_validated body request :
  validate_MockExamRequest body = inr request → validated request.
Proof.
  unfold validate_MockExamRequest, validated, int_field.
  destruct (MockExamBody.number_of_questions body) as [n|],
    (MockExamBody.time_limit_minutes body) as [t|]; simpl;
    repeat (match goal with |- context [?a <=? ?b] => destruct (Z.leb_spec a b) end; simpl);
    intros [= <-]; simpl; lia.
Qed.

Lemma create_mock_exam_wf request current_user now draws db :
  validated request → db_wf db →
  db_wf (create_mock_exam request current_user now draws db).2.
Proof.
  intros [Hn _] Hdb. unfold create_mock_exam.
  destruct (questions_pool_db request db) as [|pq pool].
  - destruct (default [] _) as [|q questions_pool]; [done|].
    destruct (random_sample_length draws (q :: questions_pool)
                (Z.min (MockExamRequest.number_of_questions request)
                   (Py.len (q :: questions_pool))))
      as (selected & -> & Hlen & Hsub).
    { unfold Py.len. simpl length. lia. }
    apply Forall_app. split; [done|]. apply Forall_singleton.
    split_and!; [done|unfold Py.len in *; simpl in *; lia..|].
    intros p. apply (answer_key_is_Some StoredQuestion.correct_answer).
  - unfold num_questions. rewrite int_or_nonzero by lia.
    destruct (random_sample_length draws (pq :: pool)
                (Z.min (MockExamRequest.number_of_questions request) (Py.len (pq :: pool))))
      as (selected & -> & Hlen & Hsub).
    { unfold Py.len. simpl length. lia. }
    apply Forall_app. split; [done|]. apply Forall_singleton.
    assert (Py.len (imap hide_past_question selected) = Py.len selected) as Himap.
    { unfold Py.len. by rewrite length_imap. }
    split_and!; simpl.
    + unfold Py.len. by rewrite length_imap, length_map.
    + rewrite Himap, Hlen. unfold Py.len. simpl length. lia.
    + rewrite Himap, Hlen. unfold Py.len. simpl length. lia.
    + intros p. rewrite Himap.
      apply (answer_key_is_Some PastQuestion.correct_answer).
Qed.

Lemma submit_exam_wf submission current_user now db :
  db_wf db → db_wf (submit_exam submission current_user now db).2.
Proof.
  intros Hdb. unfold submit_exam.
  destruct (first _ (exam_attempts db)) as [[i exam]|] eqn:Hfind; [|done].
  destruct (ExamAttempt.completed_at exam); [done|].
  destruct (grade_loop exam _) as [e|g]; [done|].
  destruct (score_of _ _) as [e|score]; [done|].
  apply Forall_insert; [done|].
  destruct (first_lookup _ _ _ _ Hfind) as [Hi _].
  unfold db_wf in Hdb. rewrite Forall_lookup in Hdb. exact (Hdb i exam Hi).
Qed.

(** The invariant holds in the empty store and after every operation. *)
Lemma db_wf_run op db : db_wf db → db_wf (run op db).
Proof.
  intros Hdb. destruct op; simpl.
  - unfold register_user. repeat case_match; done.
  - unfold update_my_profile. repeat case_match; done.
  - unfold solve_question. repeat case_match; done.
  - unfold solve_question_with_image. repeat case_match; done.
  - unfold post_create. destruct (validate_MockExamRequest body) as [e|request] eqn:Hv;
      [done|]. apply create_mock_exam_wf; [|done]. by eapply validate_validated.
  - by apply submit_exam_wf.
Qed.

Lemma db_wf_empty : db_wf empty_db.
Proof. constructor. Qed.

(** ** Counters under the operations *)

Lemma submit_exam_counters submission current_user now db result db' :
  submit_exam submission current_user now db = (inr result, db') →
  ∃ i exam,
    first (is_attempt_of (ExamSubmissionRequest.exam_id submission) current_user)
      (exam_attempts db) = Some (i, exam)
    ∧ 0 ≤ ExamResultResponse.correct_count result
    ∧ (∀ u' s',
         counters db' u' s'
         = if decide ((u', s') = (current_user, ExamAttempt.subject exam))
           then (fun p : Z * Z =>
                   (p.1 + ExamAttempt.total_questions exam,
                    p.2 + ExamResultResponse.correct_count result))
                  <$> counters db u' s'
           else counters db u' s')
    ∧ (counters db current_user (ExamAttempt.subject exam) = None →
       user_subjects db' = user_subjects db).
Proof.
  unfold submit_exam.
  destruct (first _ (exam_attempts db)) as [[i exam]|] eqn:Hfind; [|done].
  destruct (ExamAttempt.completed_at exam); [done|].
  destruct (grade_loop exam _) as [e|g] eqn:Hg; [done|].
  destruct (score_of _ _) as [e|score]; [done|].
  intros [= <- <-]. exists i, exam. split; [done|]. simpl.
  destruct (grade_loop_spec exam _ g Hg) as [Hc _].
  pose proof (matches_among_bounds exam (ExamSubmissionRequest.answers submission)).
  split; [lia|]. unfold counters. simpl.
  destruct (bump_user_subject current_user (ExamAttempt.subject exam)
              (ExamAttempt.total_questions exam) (Grading.correct_count g)
              (user_subjects db)) as [rows'|] eqn:Hbump; simpl.
  - split.
    + intros u' s'. apply (counters_of_bump _ _ _ _ _ _ u' s' Hbump).
    + intros Hnone. rewrite <- (counters_of_bump_None _ _ _
        (ExamAttempt.total_questions exam) (Grading.correct_count g)) in Hnone.
      congruence.
  - split; [|done]. intros u' s'. case_decide as Hkey; [|done].
    injection Hkey as -> ->. apply counters_of_bump_None in Hbump.
    by rewrite Hbump.
Qed.

Lemma save_solution_counted question_text solution_data current_user now db :
  solved_question_counted db
    (save_solution question_text solution_data current_user now db).2
    current_user solution_data.
Proof.
  intros s Hs Hne u' s'. unfold save_solution, counters. simpl. rewrite Hs.
  destruct (String.eqb_spec s "") as [->|_]; [done|]. simpl.
  apply counters_of_count_solved_question.
Qed.

Lemma save_solution_grows question_text solution_data current_user now db u' s' a c :
  counters db u' s' = Some (a, c) →
  ∃ a' c', counters (save_solution question_text solution_data current_user now db).2
             u' s' = Some (a', c')
           ∧ a ≤ a' ∧ c ≤ c'.
Proof.
  intros Hp.
  destruct (SolutionData.subject solution_data) as [s|] eqn:Hs.
  2:{ unfold save_solution, counters. simpl. rewrite Hs. exists a, c. by split; [|lia]. }
  destruct (decide (s = "")) as [->|Hne].
  { unfold save_solution, counters. simpl. rewrite Hs. simpl.
    exists a, c. by split; [|lia]. }
  rewrite (save_solution_counted question_text solution_data current_user now db s Hs Hne).
  case_decide as Hkey.
  - injection Hkey as -> ->. rewrite Hp. simpl. eexists _, _. split; [done|lia].
  - exists a, c. by split; [|lia].
Qed.

Lemma unchanged_counters_grow (db db' : DB) u' s' a c :
  user_subjects db' = user_subjects db →
  counters db u' s' = Some (a, c) →
  ∃ a' c', counters db' u' s' = Some (a', c') ∧ a ≤ a' ∧ c ≤ c'.
Proof.
  unfold counters. intros -> Hp. exists a, c. by split; [|lia].
Qed.

Lemma create_mock_exam_user_subjects request current_user now draws db :
  user_subjects (create_mock_exam request current_user now draws db).2
  = user_subjects db.
Proof. unfold create_mock_exam. by repeat case_match. Qed.

Lemma never_decreases_outside_profile_update op :
  ¬ replaces_subjects op → never_decreases op.
Proof.
  intros Hop db u' s' a c Hdb Hp.
  pose proof (fun db' => unchanged_counters_grow db db' u' s' a c) as Hsame.
  destruct op; simpl in *.
  - unfold register_user.
    destruct (first _ (users db)); [by apply Hsame|].
    case_match; [by apply Hsame|]. simpl.
    exists a, c. split; [|lia]. by apply counters_of_add_subjects.
  - apply Hsame; [|done]. unfold update_my_profile.
    rewrite <- not_eq_None_Some in Hop. apply dec_stable in Hop.
    repeat case_match; simpl; try done; congruence.
  - unfold solve_question.
    repeat case_match; try (by apply Hsame); by apply save_solution_grows.
  - unfold solve_question_with_image.
    repeat case_match; try (by apply Hsame); by apply save_solution_grows.
  - apply Hsame; [|done]. unfold post_create.
    case_match; [done|]. apply create_mock_exam_user_subjects.
  - destruct (submit_exam submission current_user now db) as [[e|result] db'] eqn:Hsubmit.
    + apply Hsame; [|done]. unfold submit_exam in Hsubmit.
      repeat case_match; by simplify_eq/=.
    + destruct (submit_exam_counters _ _ _ _ _ _ Hsubmit)
        as (i & exam & Hfind & Hcorrect & Hcounters & _).
      simpl. rewrite Hcounters. rewrite Hp.
      destruct (first_lookup _ _ _ _ Hfind) as [Hi _].
      unfold db_wf in Hdb. rewrite Forall_lookup in Hdb.
      destruct (Hdb i exam Hi) as (_ & Htotal & _).
      case_decide; simpl; eexists _, _; (split; [done|lia]).
Qed.

Lemma solve_question_counted request ai current_user now db response db' :
  solve_question request ai current_user now db = (inr response, db') →
  ∃ solution_data, ai = inr solution_data
                   ∧ solved_question_counted db db' current_user solution_data.
Proof.
  unfold solve_question. intros Hsolve.
  destruct ai as [msg|solution_data]; [by repeat case_match|].
  exists solution_data. split; [done|].
  repeat case_match; try done;
    match type of Hsolve with
    | save_solution ?q ?d ?u ?n ?b = _ =>
        replace db' with (save_solution q d u n b).2 by (by rewrite Hsolve)
    end;
    apply save_solution_counted.
Qed.

Lemma solve_question_with_image_counted image ai current_user now db response db' :
  solve_question_with_image image ai current_user now db = (inr response, db') →
  ∃ solution_data, ai = inr solution_data
                   ∧ solved_question_counted db db' current_user solution_data.
Proof.
  unfold solve_question_with_image. intros Hsolve.
  destruct ai as [msg|solution_data]; [by repeat case_match|].
  exists solution_data. split; [done|].
  repeat case_match; try done;
    match type of Hsolve with
    | save_solution ?q ?d ?u ?n ?b = _ =>
        replace db' with (save_solution q d u n b).2 by (by rewrite Hsolve)
    end;
    apply save_solution_counted.
Qed.

Lemma db_practised_wf : db_wf db_practised.
Proof. unfold db_practised. do 3 apply db_wf_run. constructor. Qed.

(** C8, the claim as stated fails: a profile update that supplies a list of
    subjects deletes the rows of the user and adds new ones with both counters
    at 0; the student's Mathematics counters fall from 3 attempted and 1
    correct to 0 and 0. *)
Lemma C8_profile_update_counterexample :
  ¬ (∀ op, never_decreases op)
  ∧ counters db_practised 1 "Mathematics" = Some (3, 1)
  ∧ counters (run (OpUpdateProfile profile_update 1) db_practised) 1 "Mathematics"
    = Some (0, 0).
Proof.
  assert (counters db_practised 1 "Mathematics" = Some (3, 1)) as Hbefore
    by (vm_compute; reflexivity).
  assert (counters (run (OpUpdateProfile profile_update 1) db_practised) 1 "Mathematics"
          = Some (0, 0)) as Hafter by (vm_compute; reflexivity).
  split; [|exact (conj Hbefore Hafter)]. intros Hclaim.
  destruct (Hclaim (OpUpdateProfile profile_update 1) db_practised 1 "Mathematics" 3 1
              db_practised_wf Hbefore) as (a' & c' & Ha & Hle & _).
  rewrite Hafter in Ha. injection Ha as <- <-. lia.
Qed.

(** C8 as amended: under every operation other than a profile update that
    supplies a list of subjects, the counters of every user and subject never
    decrease. Grading adds the attempt's [total_questions] and the
    submission's [correct_count] to the first row of the user for the attempt's
    subject and changes no other counters, and no row when there is none;
    a solved question whose AI answer names a subject adds one to
    [total_questions_attempted] of the user's row for it, or makes the row with
    1 and 0, and changes no other counters. *)
Theorem C8_counters_grow_outside_profile_update :
  (∀ op, ¬ replaces_subjects op → never_decreases op)
  ∧ (∀ submission current_user now db result db',
       submit_exam submission current_user now db = (inr result, db') →
       ∃ i exam,
         first (is_attempt_of (ExamSubmissionRequest.exam_id submission) current_user)
           (exam_attempts db) = Some (i, exam)
         ∧ (∀ u' s',
              counters db' u' s'
              = if decide ((u', s') = (current_user, ExamAttempt.subject exam))
                then (fun p : Z * Z =>
                        (p.1 + ExamAttempt.total_questions exam,
                         p.2 + ExamResultResponse.correct_count result))
                       <$> counters db u' s'
                else counters db u' s')
         ∧ (counters db current_user (ExamAttempt.subject exam) = None →
            user_subjects db' = user_subjects db))
  ∧ (∀ request ai current_user now db response db',
       solve_question request ai current_user now db = (inr response, db') →
       ∃ solution_data, ai = inr solution_data
                        ∧ solved_question_counted db db' current_user solution_data)
  ∧ (∀ image ai current_user now db response db',
       solve_question_with_image image ai current_user now db = (inr response, db') →
       ∃ solution_data, ai = inr solution_data
                        ∧ solved_question_counted db db' current_user solution_data).
Proof.
  split_and!.
  - apply never_decreases_outside_profile_update.
  - intros submission current_user now db result db' Hsubmit.
    destruct (submit_exam_counters _ _ _ _ _ _ Hsubmit)
      as (i & exam & Hfind & _ & Hcounters & Hnone).
    by exists i, exam.
  - apply solve_question_counted.
  - apply solve_question_with_image_counted.
Qed.

(** Grading the student's exam, and one solved Mathematics question. *)
Lemma C8_counters_grow_outside_profile_update_witness :
  (∃ a' c',
     counters (run (OpSubmitExam submission_full 1 2000) db_enrolled) 1 "Mathematics"
     = Some (a', c') ∧ 0 ≤ a' ∧ 0 ≤ c')
  ∧ (∃ solution_data,
       @inr string _ (SolutionData.mk None (Some "Mathematics") (Some "Algebra"))
       = inr solution_data
       ∧ solved_question_counted db_practised
           (run (OpSolve (QuestionSolveRequest.mk (Some "What is 2 + 2?") None None)
                   (inr (SolutionData.mk None (Some "Mathematics") (Some "Algebra")))
                   1 3000) db_practised)
           1 solution_data).
Proof.
  split.
  - apply (proj1 C8_counters_grow_outside_profile_update
             (OpSubmitExam submission_full 1 2000) (fun H => H) db_enrolled
             1 "Mathematics" 0 0).
    + unfold db_enrolled. do 2 apply db_wf_run. constructor.
    + vm_compute. reflexivity.
  - eapply (proj1 (proj2 (proj2 C8_counters_grow_outside_profile_update))
              (QuestionSolveRequest.mk (Some "What is 2 + 2?") None None)
              (inr (SolutionData.mk None (Some "Mathematics") (Some "Algebra")))
              1 3000 db_practised).
    vm_compute. reflexivity.
Defined.

(** * Further properties *)

(** ** Stored attempts and their keys *)

Section answer_key_lookup.
Context {A : Type} (answer : A → option string).

Lemma foldl_insert_lookup (entries : list (string * option string)) :
  ∀ (m : gmap string (option string)) k v,
  NoDup entries.*1 → (k, v) ∈ entries →
  foldl (fun m (p : string * option string) => <[p.1 := p.2]> m) m entries !! k = Some v.
Proof.
  induction entries as [|[k' v'] entries IH]; intros m k v Hnd Hin.
  { by apply elem_of_nil in Hin. }
  rewrite fmap_cons in Hnd. apply NoDup_cons in Hnd as [Hk' Hnd].
  apply elem_of_cons in Hin as [[= -> ->]|Hin]; simpl.
  - assert (∀ m' : gmap string (option string), m' !! k' = Some v' →
              foldl (fun m (p : string * option string) => <[p.1 := p.2]> m) m' entries
                !! k' = Some v') as Hkeep.
    { clear IH Hnd. induction entries as [|[k2 v2] entries IH]; intros m' Hm'; [done|].
      simpl. apply IH.
      - intros Hin. apply Hk'. rewrite fmap_cons. apply elem_of_cons. by right.
      - rewrite lookup_insert_ne; [done|]. intros ->. apply Hk'.
        rewrite fmap_cons. apply elem_of_cons. by left. }
    apply Hkeep. apply lookup_insert_eq.
  - by apply IH.
Qed.

Lemma answer_key_lookup (selected : list A) (p : Z) (x : A) :
  1 ≤ p → selected !! Z.to_nat (p - 1) = Some x →
  key_get (answer_key answer selected) p = answer x.
Proof.
  intros Hp Hx. unfold key_get, answer_key.
  rewrite (foldl_insert_lookup _ ∅ (Py.str p) (answer x)); [done| |].
  - rewrite answer_key_positions. apply NoDup_fmap_2; [|apply NoDup_seq].
    intros i j Hij. simpl in Hij. apply (inj Py.str) in Hij. lia.
  - apply list_elem_of_lookup. exists (Z.to_nat (p - 1)).
    rewrite list_lookup_imap, Hx. simpl.
    replace (Z.of_nat (Z.to_nat (p - 1)) + 1) with p by lia. done.
Qed.
End answer_key_lookup.

Lemma next_id_fresh (ids : list Z) (x : Z) : x ∈ ids → x < next_id ids.
Proof.
  unfold next_id. induction ids as [|y ids IH]; intros Hx.
  { by apply elem_of_nil in Hx. }
  simpl. apply elem_of_cons in Hx as [->|Hx]; [lia|]. specialize (IH Hx). lia.
Qed.

Lemma sample_questions_answerable (subject : string) :
  Forall (fun q => is_Some (StoredQuestion.correct_answer q))
    (default [] (SAMPLE_QUESTIONS !! subject)).
Proof.
  unfold SAMPLE_QUESTIONS. rewrite !lookup_insert, lookup_empty.
  repeat case_decide; simpl; repeat constructor; by eexists.
Qed.

(** What [create_mock_exam] stores when it succeeds: one new attempt, at the
    end of the table, open, owned by the caller, under a fresh id, with the
    invariant, a key that agrees with the questions, and answers throughout. *)
Lemma create_mock_exam_stored request current_user now draws db response db' :
  validated request →
  create_mock_exam request current_user now draws db = (inr response, db') →
  ∃ exam,
    db' = add_exam_attempt exam db
    ∧ ExamAttempt.id exam = next_id (map ExamAttempt.id (exam_attempts db))
    ∧ MockExamResponse.exam_id response = ExamAttempt.id exam
    ∧ MockExamResponse.total_questions response = ExamAttempt.total_questions exam
    ∧ ExamAttempt.user_id exam = current_user
    ∧ ExamAttempt.completed_at exam = None
    ∧ ExamAttempt.user_answers exam = []
    ∧ ExamAttempt.subject exam = MockExamRequest.subject request
    ∧ attempt_wf exam ∧ key_agrees exam ∧ answerable exam.
Proof.
  intros [Hn _]. unfold create_mock_exam. rewrite questions_pool_db_matching.
  destruct (filter (matching request) (past_questions db)) as [|pq pool] eqn:Hpool.
  - destruct (default [] _) as [|q questions_pool] eqn:Hsample; [done|].
    destruct (random_sample_length draws (q :: questions_pool)
                (Z.min (MockExamRequest.number_of_questions request)
                   (Py.len (q :: questions_pool))))
      as (selected & -> & Hlen & Hsub).
    { unfold Py.len. simpl length. lia. }
    intros [= <- <-]. eexists. split; [reflexivity|]. simpl.
    assert (Py.len (imap hide_sample_question selected) = Py.len selected) as Himap.
    { unfold Py.len. by rewrite length_imap. }
    split_and!; try done.
    + split_and!; simpl; [done|unfold Py.len in *; simpl length in *; lia..|].
      intros p. apply (answer_key_is_Some StoredQuestion.correct_answer).
    + intros p x Hp Hx. simpl in *.
      by apply (answer_key_lookup StoredQuestion.correct_answer).
    + unfold answerable. simpl. apply Forall_forall. intros x Hx.
      pose proof (sample_questions_answerable (MockExamRequest.subject request)) as Hall.
      rewrite Hsample, Forall_forall in Hall. apply Hall.
      by eapply elem_of_submseteq.
  - unfold num_questions. rewrite int_or_nonzero by lia.
    destruct (random_sample_length draws (pq :: pool)
                (Z.min (MockExamRequest.number_of_questions request) (Py.len (pq :: pool))))
      as (selected & -> & Hlen & Hsub).
    { unfold Py.len. simpl length. lia. }
    intros [= <- <-]. eexists. split; [reflexivity|]. simpl.
    assert (Py.len (imap hide_past_question selected) = Py.len selected) as Himap.
    { unfold Py.len. by rewrite length_imap. }
    split_and!; try done.
    + split_and!; simpl.
      * unfold Py.len. by rewrite length_imap, length_map.
      * rewrite Himap, Hlen. unfold Py.len. simpl length. lia.
      * rewrite Himap, Hlen. unfold Py.len. simpl length. lia.
      * intros p. rewrite Himap. apply (answer_key_is_Some PastQuestion.correct_answer).
    + intros p x Hp Hx. simpl in *.
      change (map store_past_question selected) with (store_past_question <$> selected) in Hx.
      rewrite list_lookup_fmap in Hx.
      destruct (selected !! Z.to_nat (p - 1)) as [y|] eqn:Hy; [|done].
      injection Hx as <-. simpl.
      by apply (answer_key_lookup PastQuestion.correct_answer).
    + unfold answerable. simpl. apply Forall_forall. intros x Hx.
      apply list_elem_of_In, in_map_iff in Hx as (y & <- & Hy%list_elem_of_In). simpl.
      assert (y ∈ filter (matching request) (past_questions db)) as Hin.
      { rewrite Hpool. by eapply elem_of_submseteq. }
      apply list_elem_of_filter in Hin as [(_ & _ & Hans & _) _].
      by apply not_eq_None_Some.
Qed.

(** ** Handing in the key *)

Lemma perfect_answers_positions (exam : ExamAttempt.t) :
  (perfect_answers exam).*1
  = (fun i => Z.of_nat i + 1) <$> seq 0 (length (ExamAttempt.questions exam)).
Proof.
  unfold perfect_answers. apply list_eq. intros i.
  rewrite !list_lookup_fmap, list_lookup_imap.
  destruct (ExamAttempt.questions exam !! i) as [q|] eqn:Hi; simpl.
  - apply lookup_lt_Some in Hi. by rewrite lookup_seq_lt.
  - apply lookup_ge_None in Hi. by rewrite lookup_seq_ge.
Qed.

Lemma perfect_answers_in_range (exam : ExamAttempt.t) :
  positions_in_range exam (perfect_answers exam).
Proof.
  unfold positions_in_range. rewrite perfect_answers_positions. split.
  - apply NoDup_fmap_2; [|apply NoDup_seq]. intros i j Hij. lia.
  - apply Forall_fmap, Forall_forall. intros i Hi%elem_of_seq.
    unfold Py.len. simpl. lia.
Qed.

Lemma perfect_answers_correct (exam : ExamAttempt.t) :
  key_agrees exam → answerable exam →
  Forall (answered_correctly exam) (perfect_answers exam).
Proof.
  intros Hkey Hans. apply Forall_lookup. intros i [p a] Hi.
  unfold perfect_answers in Hi. rewrite list_lookup_imap in Hi.
  destruct (ExamAttempt.questions exam !! i) as [q|] eqn:Hq; [|done].
  injection Hi as <- <-. unfold answered_correctly. simpl.
  rewrite (Hkey (Z.of_nat i + 1) q); [|lia|].
  - unfold answerable in Hans. rewrite Forall_lookup in Hans.
    by destruct (Hans i q Hq) as [a ->].
  - rewrite <- Hq. f_equal. lia.
Qed.

Lemma filter_all {A} (P : A → Prop) `{∀ x, Decision (P x)} (l : list A) :
  Forall P l → filter P l = l.
Proof.
  induction 1 as [|x l Hx _ IH]; [done|]. by rewrite filter_cons_True, IH.
Qed.

Lemma filter_none {A} (P : A → Prop) `{∀ x, Decision (P x)} (l : list A) :
  Forall P l → filter (fun x => ¬ P x) l = [].
Proof.
  induction 1 as [|x l Hx _ IH]; [done|]. rewrite filter_cons_False; tauto.
Qed.

Lemma is_score_exception_below (correct_count total_questions : Z) :
  is_score_exception correct_count total_questions = true →
  29 ≤ correct_count < total_questions.
Proof.
  unfold is_score_exception, score_exceptions. cbn [existsb fst snd]. intros He.
  repeat (apply orb_prop in He as [He|He]);
    try discriminate; apply andb_prop in He as [?%Z.eqb_eq ?%Z.eqb_eq]; lia.
Qed.

Lemma score_of_full (total_questions : Z) :
  1 ≤ total_questions ≤ 100 → score_of total_questions total_questions = inr 100.
Proof.
  intros Hn. rewrite score_of_percentage by lia.
  destruct (is_score_exception total_questions total_questions) eqn:He.
  { apply is_score_exception_below in He. lia. }
  unfold floor_percentage. f_equal. rewrite Z.sub_0_r. apply Z.div_mul. lia.
Qed.

(** X1: an exam that has just been created can be handed in by its creator,
    and handing in the stored answer at every position is graded as all
    correct: [correct_count] is the number of questions, the score is 100, no
    weak topic is named and the only recommendation is the congratulation. *)
Theorem create_then_submit_key request current_user now draws db response db1
    time_taken now' :
  validated request →
  create_mock_exam request current_user now draws db = (inr response, db1) →
  ∃ exam result db2,
    last (exam_attempts db1) = Some exam
    ∧ submit_exam
        (ExamSubmissionRequest.mk (MockExamResponse.exam_id response)
           (perfect_answers exam) time_taken)
        current_user now' db1 = (inr result, db2)
    ∧ ExamResultResponse.correct_count result = MockExamResponse.total_questions response
    ∧ ExamResultResponse.score_percentage result = 100
    ∧ ExamResultResponse.weak_topics result = []
    ∧ ExamResultResponse.recommendations result = [congratulation].
Proof.
  intros Hv Hcreate.
  destruct (create_mock_exam_stored _ _ _ _ _ _ _ Hv Hcreate)
    as (exam & -> & Hid & Hrid & Htotal & Huser & Hopen & _ & _ & Hwf & Hkey & Hans).
  assert (first (is_attempt_of (MockExamResponse.exam_id response) current_user)
            (exam_attempts db ++ [exam])
          = Some (length (exam_attempts db), exam)) as Hfind.
  { unfold first. rewrite list_find_app_r.
    - simpl. rewrite decide_True; [simpl; do 2 f_equal; lia|].
      unfold is_attempt_of. rewrite Hrid, Huser, !Z.eqb_refl. done.
    - apply list_find_None, Forall_forall. intros e He.
      unfold is_attempt_of. rewrite Hrid, Hid.
      assert (ExamAttempt.id e < next_id (map ExamAttempt.id (exam_attempts db))) as Hlt.
      { apply next_id_fresh, list_elem_of_In, in_map, list_elem_of_In, He. }
      destruct (Z.eqb_spec (ExamAttempt.id e)
                  (next_id (map ExamAttempt.id (exam_attempts db)))); [lia|].
      simpl. congruence. }
  pose proof (perfect_answers_in_range exam) as Hrange.
  pose proof (perfect_answers_correct exam Hkey Hans) as Hcorrect.
  destruct (for_each_grade_step_total exam _
              (positions_in_range_found exam _ Hrange) Grading.init) as [g Hg].
  fold (grade_loop exam (perfect_answers exam)) in Hg.
  destruct (grade_loop_spec exam _ g Hg) as [Hc Hw].
  assert (Grading.correct_count g = ExamAttempt.total_questions exam) as Hall.
  { rewrite Hc. unfold matches_among. rewrite (filter_all _ _ Hcorrect).
    destruct Hwf as (-> & _). unfold Py.len, perfect_answers. by rewrite length_imap. }
  assert (Grading.weak_topics g = []) as Hnone.
  { rewrite Hw. unfold missed_topics. by rewrite (filter_none _ _ Hcorrect). }
  exists exam. eexists _, _. split.
  { simpl. apply last_snoc. }
  unfold submit_exam. simpl exam_attempts.
  cbn [ExamSubmissionRequest.exam_id ExamSubmissionRequest.answers].
  rewrite Hfind, Hopen, Hg, Hall, score_of_full by (destruct Hwf as (_ & ? & _); lia).
  split; [reflexivity|]. simpl. rewrite Hnone. split_and!; done.
Qed.

(** The default exam on the small bank, handed in with its key. *)
Lemma create_then_submit_key_witness :
  ∃ exam result db2,
    last (exam_attempts db_started) = Some exam
    ∧ submit_exam (ExamSubmissionRequest.mk 1 (perfect_answers exam) 300) 7 2000 db_started
      = (inr result, db2)
    ∧ ExamResultResponse.correct_count result = 3
    ∧ ExamResultResponse.score_percentage result = 100
    ∧ ExamResultResponse.weak_topics result = []
    ∧ ExamResultResponse.recommendations result = [congratulation].
Proof.
  eapply (create_then_submit_key (MockExamRequest.mk "WAEC" "Mathematics" None 40 60)
            7 1000 [] db_small_bank
            (MockExamResponse.mk 1 "WAEC" "Mathematics" 3 60 _ 1000) db_started 300 2000).
  - unfold validated. simpl. lia.
  - vm_compute. reflexivity.
Defined.

(** ** The range of the score *)

Lemma score_facts_table :
  forallb (fun n => forallb (fun c => score_facts (Z.of_nat c) (Z.of_nat n)) (seq 0 (S n)))
    (seq 1 100) = true.
Proof. vm_compute. reflexivity. Qed.

Lemma score_facts_true (correct_count total_questions : Z) :
  1 ≤ total_questions ≤ 100 → 0 ≤ correct_count ≤ total_questions →
  score_facts correct_count total_questions = true.
Proof.
  intros Hn Hc. pose proof score_facts_table as Ht.
  rewrite forallb_forall in Ht.
  specialize (Ht (Z.to_nat total_questions)).
  rewrite forallb_forall in Ht.
  specialize (Ht ltac:(apply in_seq; lia) (Z.to_nat correct_count) ltac:(apply in_seq; lia)).
  by rewrite !Z2Nat.id in Ht by lia.
Qed.

Lemma score_value_of (correct_count total_questions s : Z) :
  score_of correct_count total_questions = inr s →
  score_value correct_count total_questions = s.
Proof. unfold score_value. by intros ->. Qed.

Lemma score_value_step (correct_count total_questions : Z) :
  1 ≤ total_questions ≤ 100 → 0 ≤ correct_count < total_questions →
  score_value correct_count total_questions
  ≤ score_value (correct_count + 1) total_questions.
Proof.
  intros Hn Hc.
  pose proof (score_facts_true correct_count total_questions Hn ltac:(lia)) as Hs.
  unfold score_facts in Hs. cbv zeta in Hs.
  rewrite !andb_true_iff, orb_true_iff, !Z.leb_le in Hs.
  destruct Hs as [_ [?|?]]; lia.
Qed.

(** X3: on attempts of at most 100 questions more right answers never
    lower the score: of two gradings of the same attempt, the one with more
    right answers has a score at least as high. *)
Theorem score_monotone (total_questions c1 c2 s1 s2 : Z) :
  1 ≤ total_questions ≤ 100 →
  0 ≤ c1 → c1 ≤ c2 → c2 ≤ total_questions →
  score_of c1 total_questions = inr s1 →
  score_of c2 total_questions = inr s2 →
  s1 ≤ s2.
Proof.
  intros Hn H1 Hle H2 Hs1 Hs2.
  apply score_value_of in Hs1, Hs2. subst s1 s2.
  assert (∀ k : nat, c1 + Z.of_nat k ≤ total_questions →
            score_value c1 total_questions
            ≤ score_value (c1 + Z.of_nat k) total_questions) as Hsteps.
  { induction k as [|k IH]; intros Hk.
    - rewrite Z.add_0_r. lia.
    - etrans; [apply IH; lia|].
      replace (c1 + Z.of_nat (S k)) with (c1 + Z.of_nat k + 1) by lia.
      apply score_value_step; lia. }
  specialize (Hsteps (Z.to_nat (c2 - c1))).
  replace (c1 + Z.of_nat (Z.to_nat (c2 - c1))) with c2 in Hsteps by lia.
  apply Hsteps. lia.
Qed.

(** 28 and 29 right answers out of 100 both score 28. *)
Lemma score_monotone_witness : 28 ≤ 28.
Proof.
  apply (score_monotone 100 28 29 28 28); try lia; vm_compute; reflexivity.
Defined.

(** X2: a submission whose positions are those of the attempt is graded
    with 0 <= correct_count <= number of answers <= total_questions and a
    score between 0 and 100; the score is 100 exactly when every question is
    answered correctly and 0 exactly when no answer is right. *)
Theorem submit_exam_score_range submission current_user now db i exam :
  first (is_attempt_of (ExamSubmissionRequest.exam_id submission) current_user)
    (exam_attempts db) = Some (i, exam) →
  ExamAttempt.completed_at exam = None →
  attempt_wf exam →
  positions_in_range exam (ExamSubmissionRequest.answers submission) →
  ∃ result db',
    submit_exam submission current_user now db = (inr result, db')
    ∧ ExamResultResponse.total_questions result = ExamAttempt.total_questions exam
    ∧ 0 ≤ ExamResultResponse.correct_count result
      ≤ Py.len (ExamSubmissionRequest.answers submission)
    ∧ Py.len (ExamSubmissionRequest.answers submission)
      ≤ ExamResultResponse.total_questions result
    ∧ 0 ≤ ExamResultResponse.score_percentage result ≤ 100
    ∧ (ExamResultResponse.score_percentage result = 100
       ↔ ExamResultResponse.correct_count result
         = ExamResultResponse.total_questions result)
    ∧ (ExamResultResponse.score_percentage result = 0
       ↔ ExamResultResponse.correct_count result = 0).
Proof.
  intros Hfind Hopen Hwf Hrange.
  destruct (grade_total exam _ Hwf Hrange) as (g & score & Hg & Hscore).
  destruct (grade_loop_spec exam _ g Hg) as [Hc _].
  pose proof (matches_among_bounds exam (ExamSubmissionRequest.answers submission)) as Hm.
  pose proof (positions_in_range_length exam _ Hrange) as Hlen.
  destruct Hwf as (Htotal & Hn & _).
  pose proof (score_facts_true (Grading.correct_count g)
                (ExamAttempt.total_questions exam) Hn ltac:(lia)) as Hs.
  unfold score_facts in Hs. cbv zeta in Hs.
  rewrite (score_value_of _ _ _ Hscore) in Hs.
  rewrite !andb_true_iff, !Bool.eqb_true_iff, !Z.leb_le in Hs.
  destruct Hs as ((((H0 & H100) & Hfull) & Hzero) & _).
  unfold submit_exam. rewrite Hfind, Hopen, Hg, Hscore.
  eexists _, _. split; [reflexivity|]. simpl. unfold Py.len in *.
  split_and!; lia.
Qed.

Lemma submit_exam_score_range_witness :
  ∃ result db',
    submit_exam submission_full 7 2000 db_started = (inr result, db')
    ∧ ExamResultResponse.total_questions result = 3
    ∧ 0 ≤ ExamResultResponse.correct_count result ≤ 3
    ∧ 3 ≤ ExamResultResponse.total_questions result
    ∧ 0 ≤ ExamResultResponse.score_percentage result ≤ 100
    ∧ (ExamResultResponse.score_percentage result = 100
       ↔ ExamResultResponse.correct_count result
         = ExamResultResponse.total_questions result)
    ∧ (ExamResultResponse.score_percentage result = 0
       ↔ ExamResultResponse.correct_count result = 0).
Proof.
  apply (submit_exam_score_range submission_full 7 2000 db_started 0%nat attempt_started).
  - vm_compute. reflexivity.
  - reflexivity.
  - exact attempt_started_wf.
  - split.
    + simpl. repeat (apply NoDup_cons; split);
        [intros Hx; repeat (apply elem_of_cons in Hx as [Hx|Hx]; [discriminate|]);
         by apply elem_of_nil in Hx..|apply NoDup_nil_2].
    + repeat constructor; vm_compute; discriminate.
Defined.

(** ** What a grading reports *)

Section report.
Variable exam : ExamAttempt.t.

Lemma for_each_grade_step_details (answers : list (Z * string)) : ∀ st st',
  for_each (grade_step exam) answers st = inr st' →
  Grading.detailed_results st'
  = Grading.detailed_results st ++ (detail_of exam <$> answers).
Proof.
  induction answers as [|[p a] answers IH]; intros st st'; simpl.
  - intros [= <-]. by rewrite app_nil_r.
  - destruct (grade_step exam st (p, a)) as [e|st1] eqn:Hstep; simpl; [done|].
    intros Hrest. rewrite (IH _ _ Hrest).
    destruct (grade_step_success _ _ _ _ Hstep) as [q Hq]. simpl in Hq.
    rewrite (grade_step_found _ _ _ _ _ Hq) in Hstep. injection Hstep as <-.
    simpl. rewrite <- app_assoc. simpl. do 2 f_equal.
    unfold detail_of, topic_at. simpl. by rewrite Hq.
Qed.

Lemma flagged_correct (answers : list (Z * string)) :
  length (filter (answered_correctly exam) answers)
  = length (filter (fun d => DetailedResult.is_correct d = true)
              (detail_of exam <$> answers)).
Proof.
  induction answers as [|item answers IH]; [done|].
  rewrite fmap_cons, !filter_cons. simpl.
  destruct (decide (answered_correctly exam item)) as [Hok|Hko].
  - rewrite bool_decide_eq_true_2 by done. rewrite decide_True by done.
    simpl. by rewrite IH.
  - rewrite bool_decide_eq_false_2 by done. by rewrite decide_False by done.
Qed.

Lemma tally_names (topics : list string) : (tally topics).*1 = first_seen topics.
Proof.
  unfold tally. rewrite <- list_fmap_compose. apply list_fmap_id.
Qed.

Lemma elem_of_tally (topics : list string) (t : string) (c : Z) :
  (t, c) ∈ tally topics → t ∈ topics ∧ c = misses t topics.
Proof.
  unfold tally. intros (s & [= -> ->] & Hs)%list_elem_of_fmap.
  split; [by apply elem_of_first_seen|reflexivity].
Qed.

Lemma misses_positive (t : string) (topics : list string) :
  t ∈ topics → 1 ≤ misses t topics.
Proof.
  unfold misses. induction topics as [|s topics IH]; intros Ht.
  { by apply elem_of_nil in Ht. }
  rewrite filter_cons. case_decide as Hs; [simpl length; lia|].
  apply IH. by apply elem_of_cons in Ht as [->|Ht].
Qed.
End report.

(** X4: the weak topics of a graded submission are at most three, pairwise
    different, each the topic of a submitted position that was answered
    incorrectly; and a missed topic that is left out has no more misses than
    any topic that is listed. *)
Theorem weak_topics_are_the_top_three submission current_user now db result db' :
  submit_exam submission current_user now db = (inr result, db') →
  ∃ i exam,
    first (is_attempt_of (ExamSubmissionRequest.exam_id submission) current_user)
      (exam_attempts db) = Some (i, exam)
    ∧ (length (ExamResultResponse.weak_topics result) ≤ 3)%nat
    ∧ NoDup (ExamResultResponse.weak_topics result)
    ∧ (∀ t, t ∈ ExamResultResponse.weak_topics result →
            t ∈ missed_topics exam (ExamSubmissionRequest.answers submission))
    ∧ (∀ t t',
         t ∈ ExamResultResponse.weak_topics result →
         t' ∈ missed_topics exam (ExamSubmissionRequest.answers submission) →
         t' ∉ ExamResultResponse.weak_topics result →
         misses t' (missed_topics exam (ExamSubmissionRequest.answers submission))
         ≤ misses t (missed_topics exam (ExamSubmissionRequest.answers submission))).
Proof.
  intros Hsubmit. unfold submit_exam in Hsubmit.
  destruct (first _ (exam_attempts db)) as [[i exam]|] eqn:Hfind; [|done].
  destruct (ExamAttempt.completed_at exam); [done|].
  destruct (grade_loop exam _) as [e|g] eqn:Hg; [done|].
  destruct (score_of _ _) as [e|score]; [done|].
  injection Hsubmit as <- _. exists i, exam. split; [done|]. simpl.
  destruct (grade_loop_spec exam _ g Hg) as [_ ->].
  set (topics := missed_topics exam (ExamSubmissionRequest.answers submission)).
  destruct (rank_weak_topics_spec (tally topics)) as (Hperm & Hsorted & _).
  unfold weak_topic_names.
  set (ranking := rank_weak_topics (tally topics)) in *.
  change (map fst (take 3 ranking)) with ((take 3 ranking).*1).
  assert (NoDup ranking.*1) as Hnd.
  { rewrite Hperm, tally_names. apply NoDup_first_seen. }
  assert (∀ t c, (t, c) ∈ ranking → t ∈ topics ∧ c = misses t topics) as Hentry.
  { intros t c Hin. rewrite Hperm in Hin. by apply elem_of_tally. }
  rewrite <- (take_drop 3 ranking) in Hnd, Hsorted.
  rewrite fmap_app in Hnd. apply NoDup_app in Hnd as (Hnd1 & Hdisj & _).
  apply StronglySorted_app in Hsorted as (Hle & _ & _).
  split_and!.
  - rewrite length_fmap, length_take. lia.
  - done.
  - intros t ([t0 c] & -> & Hin)%list_elem_of_fmap. simpl.
    apply (Hentry t0 c). rewrite <- (take_drop 3 ranking). apply elem_of_app. by left.
  - intros t t' ([t0 c] & -> & Hin)%list_elem_of_fmap Ht' Hout. simpl.
    assert ((t', misses t' topics) ∈ ranking) as Hin'.
    { rewrite Hperm. unfold tally. apply list_elem_of_fmap.
      exists t'. split; [done|]. by apply elem_of_first_seen. }
    rewrite <- (take_drop 3 ranking) in Hin'.
    apply elem_of_app in Hin' as [Hin'|Hin'].
    { destruct Hout. apply list_elem_of_fmap. by exists (t', misses t' topics). }
    specialize (Hle _ _ Hin Hin'). simpl in Hle.
    destruct (Hentry t0 c) as [_ ->]; [|done].
    rewrite <- (take_drop 3 ranking). apply elem_of_app. by left.
Qed.

(** The exam on the small bank with misses at positions 2 and 3. *)
Lemma weak_topics_are_the_top_three_witness :
  ∃ i exam,
    first (is_attempt_of 1 7) (exam_attempts db_started) = Some (i, exam)
    ∧ (length ["Unknown"; "Geometry"] ≤ 3)%nat
    ∧ NoDup ["Unknown"; "Geometry"]
    ∧ (∀ t, t ∈ ["Unknown"; "Geometry"] →
            t ∈ missed_topics exam [(1, "A"); (2, "B"); (3, "A")])
    ∧ (∀ t t',
         t ∈ ["Unknown"; "Geometry"] →
         t' ∈ missed_topics exam [(1, "A"); (2, "B"); (3, "A")] →
         t' ∉ ["Unknown"; "Geometry"] →
         misses t' (missed_topics exam [(1, "A"); (2, "B"); (3, "A")])
         ≤ misses t (missed_topics exam [(1, "A"); (2, "B"); (3, "A")])).
Proof.
  eapply (weak_topics_are_the_top_three submission_full 7 2000 db_started
            (ExamResultResponse.mk 1 3 1 33 600 ["Unknown"; "Geometry"] _ _)).
  vm_compute. reflexivity.
Defined.

(** X5: the breakdown of a graded submission has one row per submitted
    answer, in the order of the submission, with the position, the text and
    topic of the question looked up for it, the submitted and the key's label
    and the correctness flag; the rows flagged correct are as many as
    [correct_count]. *)
Theorem detailed_results_follow_the_answers submission current_user now db result db' :
  submit_exam submission current_user now db = (inr result, db') →
  ∃ i exam,
    first (is_attempt_of (ExamSubmissionRequest.exam_id submission) current_user)
      (exam_attempts db) = Some (i, exam)
    ∧ ExamResultResponse.detailed_results result
      = detail_of exam <$> ExamSubmissionRequest.answers submission
    ∧ ExamResultResponse.correct_count result
      = Z.of_nat (length (filter (fun d => DetailedResult.is_correct d = true)
                            (ExamResultResponse.detailed_results result))).
Proof.
  intros Hsubmit. unfold submit_exam in Hsubmit.
  destruct (first _ (exam_attempts db)) as [[i exam]|] eqn:Hfind; [|done].
  destruct (ExamAttempt.completed_at exam); [done|].
  destruct (grade_loop exam _) as [e|g] eqn:Hg; [done|].
  destruct (score_of _ _) as [e|score]; [done|].
  injection Hsubmit as <- _. exists i, exam. split; [done|]. simpl.
  destruct (grade_loop_spec exam _ g Hg) as [-> _].
  rewrite (for_each_grade_step_details exam _ _ _ Hg). simpl.
  split; [done|]. unfold matches_among. by rewrite flagged_correct.
Qed.

Lemma detailed_results_follow_the_answers_witness :
  ∃ i exam,
    first (is_attempt_of 1 7) (exam_attempts db_started) = Some (i, exam)
    ∧ ExamResultResponse.detailed_results
        (ExamResultResponse.mk 1 3 1 33 600 ["Unknown"; "Geometry"]
           (detail_of attempt_started <$> [(1, "A"); (2, "B"); (3, "A")])
           [fundamentals_advice "Mathematics"; study_advice ["Unknown"; "Geometry"]])
      = detail_of exam <$> [(1, "A"); (2, "B"); (3, "A")]
    ∧ 1 = Z.of_nat (length (filter (fun d => DetailedResult.is_correct d = true)
                              (detail_of attempt_started
                                 <$> [(1, "A"); (2, "B"); (3, "A")]))).
Proof.
  eapply (detailed_results_follow_the_answers submission_full 7 2000 db_started).
  vm_compute. reflexivity.
Defined.

(** ** Recommendations *)

Lemma recommendations_for_cases (subject : string) (score : Z) (names : list string) :
  recommendations_for subject score names
  = (if score <? 50 then [fundamentals_advice subject] else [])
    ++ (match names with [] => [] | _ :: _ => [study_advice names] end)
    ++ (if 70 <=? score then [congratulation] else []).
Proof. reflexivity. Qed.

(** X6: the recommendations of a graded submission come in the fixed order
    fundamentals, weak topics, congratulation; the first is present exactly
    below 50 percent, the second exactly when a weak topic was found, the
    third exactly from 70 percent on. The first and the third exclude each
    other, so there are never more than two, and there is none exactly when
    the score lies in [50, 70) and no weak topic was found. *)
Theorem recommendations_of_a_grading submission current_user now db result db' :
  submit_exam submission current_user now db = (inr result, db') →
  ∃ i exam,
    first (is_attempt_of (ExamSubmissionRequest.exam_id submission) current_user)
      (exam_attempts db) = Some (i, exam)
    ∧ ExamResultResponse.recommendations result
      = (if ExamResultResponse.score_percentage result <? 50
         then [fundamentals_advice (ExamAttempt.subject exam)] else [])
        ++ (if decide (ExamResultResponse.weak_topics result = []) then []
            else [study_advice (ExamResultResponse.weak_topics result)])
        ++ (if 70 <=? ExamResultResponse.score_percentage result
            then [congratulation] else [])
    ∧ (length (ExamResultResponse.recommendations result) ≤ 2)%nat
    ∧ ¬ (fundamentals_advice (ExamAttempt.subject exam)
           ∈ ExamResultResponse.recommendations result
         ∧ congratulation ∈ ExamResultResponse.recommendations result)
    ∧ (ExamResultResponse.recommendations result = []
       ↔ 50 ≤ ExamResultResponse.score_percentage result < 70
         ∧ ExamResultResponse.weak_topics result = []).
Proof.
  intros Hsubmit. unfold submit_exam in Hsubmit.
  destruct (first _ (exam_attempts db)) as [[i exam]|] eqn:Hfind; [|done].
  destruct (ExamAttempt.completed_at exam); [done|].
  destruct (grade_loop exam _) as [e|g] eqn:Hg; [done|].
  destruct (score_of _ _) as [e|score]; [done|].
  injection Hsubmit as <- _. exists i, exam. split; [done|]. simpl.
  rewrite recommendations_for_cases.
  set (names := weak_topic_names (Grading.weak_topics g)).
  assert (fundamentals_advice (ExamAttempt.subject exam) ≠ congratulation) as Hfc by done.
  assert (study_advice names ≠ congratulation) as Hsc by done.
  assert (fundamentals_advice (ExamAttempt.subject exam) ≠ study_advice names) as Hfs
    by done.
  destruct (Z.ltb_spec score 50), (Z.leb_spec 70 score); try lia;
    destruct (decide (names = [])) as [Hnil|Hcons];
    try (rewrite Hnil in *); destruct names as [|t names']; try done;
    simpl; (split; [done|]); (split; [lia|]);
    rewrite ?elem_of_cons, ?elem_of_nil;
    (split; [intuition congruence|]); (split; [try done|intros [? ?]; try done; lia]);
    try (intros _; split; [lia|done]).
Qed.

Lemma recommendations_of_a_grading_witness :
  ∃ i exam,
    first (is_attempt_of 1 7) (exam_attempts db_started) = Some (i, exam)
    ∧ [fundamentals_advice "Mathematics"; study_advice ["Unknown"; "Geometry"]]
      = (if 33 <? 50 then [fundamentals_advice (ExamAttempt.subject exam)] else [])
        ++ (if decide (["Unknown"; "Geometry"] = []) then []
            else [study_advice ["Unknown"; "Geometry"]])
        ++ (if 70 <=? 33 then [congratulation] else [])
    ∧ (length [fundamentals_advice "Mathematics"; study_advice ["Unknown"; "Geometry"]]
       ≤ 2)%nat
    ∧ ¬ (fundamentals_advice (ExamAttempt.subject exam)
           ∈ [fundamentals_advice "Mathematics"; study_advice ["Unknown"; "Geometry"]]
         ∧ congratulation
           ∈ [fundamentals_advice "Mathematics"; study_advice ["Unknown"; "Geometry"]])
    ∧ ([fundamentals_advice "Mathematics"; study_advice ["Unknown"; "Geometry"]] = []
       ↔ 50 ≤ 33 < 70 ∧ ["Unknown"; "Geometry"] = []).
Proof.
  eapply (recommendations_of_a_grading submission_full 7 2000 db_started
            (ExamResultResponse.mk 1 3 1 33 600 ["Unknown"; "Geometry"] _
               [fundamentals_advice "Mathematics"; study_advice ["Unknown"; "Geometry"]])).
  vm_compute. reflexivity.
Defined.

(** ** What a grading changes *)

(** X7: whatever its outcome, [submit_exam] leaves the users, the question
    history and the question bank as they are and changes no attempt other
    than the caller's attempt with the submitted id: every attempt of another
    id or another user stays at its place, unchanged. A caller who owns no
    attempt with that id gets the 404 "Exam not found" and nothing changes. *)
Theorem submit_exam_touches_one_attempt submission current_user now db outcome db' :
  submit_exam submission current_user now db = (outcome, db') →
  users db' = users db
  ∧ question_history db' = question_history db
  ∧ past_questions db' = past_questions db
  ∧ length (exam_attempts db') = length (exam_attempts db)
  ∧ (∀ j e,
       exam_attempts db !! j = Some e →
       ExamAttempt.id e ≠ ExamSubmissionRequest.exam_id submission
       ∨ ExamAttempt.user_id e ≠ current_user →
       exam_attempts db' !! j = Some e)
  ∧ (Forall (fun e => ExamAttempt.id e = ExamSubmissionRequest.exam_id submission →
                      ExamAttempt.user_id e ≠ current_user) (exam_attempts db) →
     outcome = inl (HTTPException 404 "Exam not found") ∧ db' = db).
Proof.
  unfold submit_exam.
  destruct (first _ (exam_attempts db)) as [[i exam]|] eqn:Hfind.
  - destruct (first_lookup _ _ _ _ Hfind) as [Hi Hmine].
    unfold is_attempt_of in Hmine.
    apply andb_true_iff in Hmine as [Hid%Z.eqb_eq Huser%Z.eqb_eq].
    assert (∀ o d,
              (o, d) = (outcome, db') →
              users d = users db → question_history d = question_history db →
              past_questions d = past_questions db →
              (∃ x, exam_attempts d = <[i := x]> (exam_attempts db)) →
              users db' = users db ∧ question_history db' = question_history db
              ∧ past_questions db' = past_questions db
              ∧ length (exam_attempts db') = length (exam_attempts db)
              ∧ (∀ j e, exam_attempts db !! j = Some e →
                   ExamAttempt.id e ≠ ExamSubmissionRequest.exam_id submission
                   ∨ ExamAttempt.user_id e ≠ current_user →
                   exam_attempts db' !! j = Some e)
              ∧ (Forall (fun e => ExamAttempt.id e = ExamSubmissionRequest.exam_id submission →
                                  ExamAttempt.user_id e ≠ current_user) (exam_attempts db) →
                 outcome = inl (HTTPException 404 "Exam not found") ∧ db' = db)) as Hcase.
    { intros o d [= <- <-] Hu Hq Hp [x Hx]. split_and!; try done.
      - by rewrite Hx, length_insert.
      - intros j e Hj Hother. rewrite Hx.
        destruct (decide (i = j)) as [<-|Hne]; [|by rewrite list_lookup_insert_ne].
        rewrite Hi in Hj. injection Hj as <-. tauto.
      - intros Hnone. rewrite Forall_lookup in Hnone.
        destruct (Hnone i exam Hi Hid Huser). }
    assert (∃ x, exam_attempts db = <[i := x]> (exam_attempts db)) as Hsame.
    { exists exam. by rewrite list_insert_id. }
    destruct (ExamAttempt.completed_at exam).
    { intros Heq. by apply (Hcase _ _ Heq). }
    destruct (grade_loop exam _) as [e|g].
    { intros Heq. by apply (Hcase _ _ Heq). }
    destruct (score_of _ _) as [e|score].
    { intros Heq. by apply (Hcase _ _ Heq). }
    intros Heq. apply (Hcase _ _ Heq); try done. simpl. by eexists.
  - intros [= <- <-]. split_and!; done.
Qed.

(** User 8 submits for attempt 1, which belongs to user 7. *)
Lemma submit_exam_touches_one_attempt_witness :
  users db_started = users db_started
  ∧ question_history db_started = question_history db_started
  ∧ past_questions db_started = past_questions db_started
  ∧ length (exam_attempts db_started) = length (exam_attempts db_started)
  ∧ (∀ j e,
       exam_attempts db_started !! j = Some e →
       ExamAttempt.id e ≠ 1 ∨ ExamAttempt.user_id e ≠ 8 →
       exam_attempts db_started !! j = Some e)
  ∧ (Forall (fun e => ExamAttempt.id e = 1 → ExamAttempt.user_id e ≠ 8)
       (exam_attempts db_started) →
     @inl Error ExamResultResponse.t (HTTPException 404 "Exam not found")
     = inl (HTTPException 404 "Exam not found")
     ∧ db_started = db_started).
Proof.
  apply (submit_exam_touches_one_attempt
           (ExamSubmissionRequest.mk 1 [(1, "A")] 10) 8 2000 db_started).
  vm_compute. reflexivity.
Defined.

(** ** The history of exams *)

Lemma get_exam_history_rows (subject : option string) (current_user : Z) (db : DB) :
  ∃ exams,
    get_exam_history subject current_user db = history_entry <$> exams
    ∧ exams ≡ₚ filter (fun e => in_history subject current_user e = true) (exam_attempts db)
    ∧ StronglySorted (fun a b => completed_time b ≤ completed_time a) exams.
Proof.
  unfold get_exam_history, order_by_desc.
  exists (Py.sorted_reverse completed_time
            (List.filter (in_history subject current_user) (exam_attempts db))).
  split_and!.
  - induction (Py.sorted_reverse _ _) as [|x l IH]; [done|]. simpl. by rewrite IH.
  - rewrite sorted_reverse_Permutation.
    induction (exam_attempts db) as [|e l IH]; [done|].
    simpl. rewrite filter_cons. destruct (in_history subject current_user e) eqn:He.
    + rewrite decide_True by done. by rewrite IH.
    + rewrite decide_False by congruence. done.
  - apply (sorted_reverse_descending completed_time).
Qed.

Lemma in_history_true (subject : option string) (current_user : Z) (e : ExamAttempt.t) :
  in_history subject current_user e = true
  ↔ ExamAttempt.user_id e = current_user
    ∧ is_Some (ExamAttempt.completed_at e)
    ∧ (Py.truthy subject = true → subject = Some (ExamAttempt.subject e)).
Proof.
  unfold in_history.
  rewrite !andb_true_iff, Z.eqb_eq, bool_decide_eq_true, not_eq_None_Some.
  destruct (Py.truthy subject); [rewrite bool_decide_eq_true|]; intuition congruence.
Qed.

(** X8: the exam history of a user lists exactly the user's attempts that
    have been graded, only those of the given subject when one is given, the
    latest graded first, each with its stored numbers and weak topics and with
    an empty breakdown and no recommendations; attempts still open and
    attempts of other users never appear. *)
Theorem exam_history_lists_graded_attempts (subject : option string) (current_user : Z)
    (db : DB) :
  ∃ exams,
    get_exam_history subject current_user db = history_entry <$> exams
    ∧ (∀ e, e ∈ exams ↔
            e ∈ exam_attempts db
            ∧ ExamAttempt.user_id e = current_user
            ∧ is_Some (ExamAttempt.completed_at e)
            ∧ (Py.truthy subject = true → subject = Some (ExamAttempt.subject e)))
    ∧ length exams
      = length (filter (fun e => in_history subject current_user e = true)
                  (exam_attempts db))
    ∧ StronglySorted (fun a b => completed_time b ≤ completed_time a) exams
    ∧ Forall (fun r => ExamResultResponse.detailed_results r = []
                       ∧ ExamResultResponse.recommendations r = [])
        (get_exam_history subject current_user db).
Proof.
  destruct (get_exam_history_rows subject current_user db) as (exams & Heq & Hperm & Hsorted).
  exists exams. split_and!; try done.
  - intros e. rewrite Hperm, list_elem_of_filter, in_history_true. tauto.
  - by rewrite Hperm.
  - rewrite Heq. apply Forall_fmap, Forall_forall. by intros e _.
Qed.

(** X9: a grading is stored as it is returned and shows up in the history:
    after a successful [submit_exam] the attempt found under the submitted id
    carries the submission's answers and time, the returned [correct_count],
    score and weak topics, and [completed_at] set to the time of grading; the
    caller's history, with or without the filter on the attempt's subject,
    then has the entry with these numbers. Before the grading the attempt was
    open ([completed_at] unset). *)
Theorem graded_attempt_enters_history submission current_user now db result db' :
  submit_exam submission current_user now db = (inr result, db') →
  ∃ i exam exam',
    first (is_attempt_of (ExamSubmissionRequest.exam_id submission) current_user)
      (exam_attempts db) = Some (i, exam)
    ∧ ExamAttempt.completed_at exam = None
    ∧ first (is_attempt_of (ExamSubmissionRequest.exam_id submission) current_user)
        (exam_attempts db') = Some (i, exam')
    ∧ ExamAttempt.completed_at exam' = Some now
    ∧ ExamAttempt.user_answers exam' = ExamSubmissionRequest.answers submission
    ∧ history_entry exam'
      = ExamResultResponse.mk (ExamResultResponse.exam_id result)
          (ExamResultResponse.total_questions result)
          (ExamResultResponse.correct_count result)
          (ExamResultResponse.score_percentage result)
          (ExamResultResponse.time_taken_seconds result)
          (ExamResultResponse.weak_topics result) [] []
    ∧ history_entry exam' ∈ get_exam_history None current_user db'
    ∧ history_entry exam'
      ∈ get_exam_history (Some (ExamAttempt.subject exam)) current_user db'.
Proof.
  intros Hsubmit. unfold submit_exam in Hsubmit.
  destruct (first _ (exam_attempts db)) as [[i exam]|] eqn:Hfind; [|done].
  destruct (ExamAttempt.completed_at exam) eqn:Hopen; [done|].
  destruct (grade_loop exam _) as [e|g] eqn:Hg; [done|].
  destruct (score_of _ _) as [e|score]; [done|].
  injection Hsubmit as <- <-.
  destruct (first_lookup _ _ _ _ Hfind) as [Hi Hmine].
  set (exam' := finish_attempt exam submission (Grading.correct_count g) score
                  (weak_topic_names (Grading.weak_topics g)) now).
  exists i, exam, exam'. simpl. split_and!; try done.
  - eapply first_insert_same; [exact Hfind|exact Hmine].
  - destruct (get_exam_history_rows None current_user
                (mkDB (users db)
                   (default (user_subjects db)
                      (bump_user_subject current_user (ExamAttempt.subject exam)
                         (ExamAttempt.total_questions exam) (Grading.correct_count g)
                         (user_subjects db)))
                   (question_history db) (<[i := exam']> (exam_attempts db))
                   (past_questions db)))
      as (exams & -> & Hperm & _).
    apply list_elem_of_fmap_2. rewrite Hperm, list_elem_of_filter. simpl. split.
    + apply in_history_true. simpl. split_and!; [|by eexists|done].
      unfold is_attempt_of in Hmine. apply andb_true_iff in Hmine as [_ Hu%Z.eqb_eq]. done.
    + apply list_elem_of_lookup. exists i. apply list_lookup_insert_eq.
      by eapply lookup_lt_Some.
  - destruct (get_exam_history_rows (Some (ExamAttempt.subject exam)) current_user
                (mkDB (users db)
                   (default (user_subjects db)
                      (bump_user_subject current_user (ExamAttempt.subject exam)
                         (ExamAttempt.total_questions exam) (Grading.correct_count g)
                         (user_subjects db)))
                   (question_history db) (<[i := exam']> (exam_attempts db))
                   (past_questions db)))
      as (exams & -> & Hperm & _).
    apply list_elem_of_fmap_2. rewrite Hperm, list_elem_of_filter. simpl. split.
    + apply in_history_true. simpl. split_and!; [|by eexists|done].
      unfold is_attempt_of in Hmine. apply andb_true_iff in Hmine as [_ Hu%Z.eqb_eq]. done.
    + apply list_elem_of_lookup. exists i. apply list_lookup_insert_eq.
      by eapply lookup_lt_Some.
Qed.

Lemma graded_attempt_enters_history_witness :
  get_exam_history None 7 db_started = []
  ∧ ∃ i exam exam',
    first (is_attempt_of 1 7) (exam_attempts db_started) = Some (i, exam)
    ∧ ExamAttempt.completed_at exam = None
    ∧ first (is_attempt_of 1 7) (exam_attempts db_graded) = Some (i, exam')
    ∧ ExamAttempt.completed_at exam' = Some 2000
    ∧ ExamAttempt.user_answers exam' = [(1, "A"); (2, "B"); (3, "A")]
    ∧ history_entry exam'
      = ExamResultResponse.mk 1 3 1 33 600 ["Unknown"; "Geometry"] [] []
    ∧ history_entry exam' ∈ get_exam_history None 7 db_graded
    ∧ history_entry exam' ∈ get_exam_history (Some (ExamAttempt.subject exam)) 7 db_graded.
Proof.
  split; [reflexivity|].
  eapply (graded_attempt_enters_history submission_full 7 2000 db_started
            (ExamResultResponse.mk 1 3 1 33 600 ["Unknown"; "Geometry"] _ _)).
  vm_compute. reflexivity.
Defined.

(** ** The study streak *)

Lemma elem_of_insert_desc (d : Z) (dates : list Z) (x : Z) :
  x ∈ insert_desc d dates ↔ x = d ∨ x ∈ dates.
Proof.
  induction dates as [|y dates IH]; simpl.
  - rewrite list_elem_of_singleton, elem_of_nil. tauto.
  - destruct (Z.eqb_spec d y) as [->|Hne].
    + rewrite elem_of_cons. tauto.
    + destruct (Z.ltb_spec y d).
      * rewrite !elem_of_cons. tauto.
      * rewrite !elem_of_cons, IH. tauto.
Qed.

Lemma insert_desc_descending (d : Z) (dates : list Z) :
  StronglySorted (fun a b => b < a) dates →
  StronglySorted (fun a b => b < a) (insert_desc d dates).
Proof.
  induction 1 as [|y dates Hsorted IH Hy]; simpl.
  - repeat constructor.
  - destruct (Z.eqb_spec d y) as [->|Hne]; [by constructor|].
    destruct (Z.ltb_spec y d) as [Hlt|Hge].
    + constructor; [by constructor|].
      constructor; [done|]. eapply Forall_impl; [exact Hy|]. simpl. lia.
    + constructor; [done|].
      apply Forall_forall. intros x [->|Hx]%elem_of_insert_desc; [lia|].
      rewrite Forall_forall in Hy. by apply Hy.
Qed.

Lemma activity_dates_descending (user_id : Z) (db : DB) :
  StronglySorted (fun a b => b < a) (activity_dates user_id db).
Proof.
  unfold activity_dates.
  induction (map _ _) as [|d l IH]; simpl; [constructor|].
  by apply insert_desc_descending.
Qed.

Lemma elem_of_activity_dates (user_id : Z) (db : DB) (day : Z) :
  day ∈ activity_dates user_id db ↔ active_on user_id day db.
Proof.
  unfold activity_dates, active_on.
  induction (question_history db) as [|q rows IH]; simpl.
  - rewrite elem_of_nil. split; [done|]. intros (q & []%elem_of_nil & _).
  - destruct (Z.eqb_spec (QuestionHistory.user_id q) user_id) as [Hu|Hu]; simpl.
    + rewrite elem_of_insert_desc, IH. split.
      * intros [->|(q' & Hq' & Hrest)].
        -- exists q. rewrite elem_of_cons. tauto.
        -- exists q'. rewrite elem_of_cons. tauto.
      * intros (q' & [->|Hq']%elem_of_cons & Hu' & Hday); [by left|].
        right. by exists q'.
    + rewrite IH. split.
      * intros (q' & Hq' & Hrest). exists q'. rewrite elem_of_cons. tauto.
      * intros (q' & [->|Hq']%elem_of_cons & Hu' & Hday); [done|]. by exists q'.
Qed.

Lemma streak_day_step (today s : Z) :
  streak_day today (s - 1) - s = streak_day today s.
Proof.
  unfold streak_day.
  replace (s * (s + 1)) with ((s - 1) * (s - 1 + 1) + s * 2) by lia.
  rewrite Z.div_add by lia. lia.
Qed.

Lemma streak_loop_spec (today : Z) (dates : list Z) : ∀ s cur,
  1 ≤ s →
  cur = streak_day today (s - 1) →
  StronglySorted (fun a b => b < a) dates →
  Forall (fun d => d < cur) dates →
  s ≤ streak_loop dates s cur ≤ s + Py.len dates
  ∧ (∀ i, s ≤ i < streak_loop dates s cur →
          dates !! Z.to_nat (i - s) = Some (streak_day today i))
  ∧ dates !! Z.to_nat (streak_loop dates s cur - s)
    ≠ Some (streak_day today (streak_loop dates s cur)).
Proof.
  unfold Py.len.
  induction dates as [|d dates IH]; intros s cur Hs Hcur Hsorted Hbelow; simpl.
  - split_and!; [lia|lia|intros; lia|done].
  - apply StronglySorted_inv in Hsorted as [Hsorted Hd].
    apply Forall_cons in Hbelow as [Hdlt Hbelow].
    destruct (Z.eqb_spec d cur) as [?|_]; [lia|]. simpl.
    assert (cur - s = streak_day today s) as -> by (subst cur; apply streak_day_step).
    destruct (Z.eqb_spec d (streak_day today s)) as [->|Hne].
    + destruct (IH (s + 1) (streak_day today s)) as (Hrange & Hprefix & Hstop);
        [lia|f_equal; lia|done|done|].
      set (r := streak_loop dates (s + 1) (streak_day today s)) in *.
      split_and!; [lia|lia|..].
      * intros i Hi. destruct (decide (i = s)) as [->|Hi'].
        -- by replace (Z.to_nat (s - s)) with 0%nat by lia.
        -- replace (Z.to_nat (i - s)) with (S (Z.to_nat (i - (s + 1)))) by lia.
           simpl. apply Hprefix. lia.
      * replace (Z.to_nat (r - s)) with (S (Z.to_nat (r - (s + 1)))) by lia.
        done.
    + split_and!; [lia|lia|intros; lia|].
      replace (Z.to_nat (s - s)) with 0%nat by lia. simpl. congruence.
Qed.

Lemma calculate_study_streak_spec (user_id now : Z) (db : DB) :
  0 ≤ calculate_study_streak user_id now db ≤ Py.len (activity_dates user_id db)
  ∧ (∀ i, 0 ≤ i < calculate_study_streak user_id now db →
          activity_dates user_id db !! Z.to_nat i = Some (streak_day (date_of now) i))
  ∧ activity_dates user_id db !! Z.to_nat (calculate_study_streak user_id now db)
    ≠ Some (streak_day (date_of now) (calculate_study_streak user_id now db)).
Proof.
  unfold calculate_study_streak.
  pose proof (activity_dates_descending user_id db) as Hsorted.
  destruct (activity_dates user_id db) as [|d dates].
  - unfold Py.len. simpl. split_and!; [lia|lia|intros; lia|done].
  - apply StronglySorted_inv in Hsorted as [Hsorted Hd].
    cbn [streak_loop].
    replace (date_of now - 0) with (date_of now) by lia. rewrite orb_diag.
    destruct (Z.eqb_spec d (date_of now)) as [->|Hne].
    + destruct (streak_loop_spec (date_of now) dates 1 (date_of now))
        as (Hrange & Hprefix & Hstop);
        [lia|unfold streak_day; change ((1 - 1) * (1 - 1 + 1) / 2) with 0; lia|done|done|].
      change (0 + 1) with 1.
      set (r := streak_loop dates 1 (date_of now)) in *.
      unfold Py.len in *. simpl length.
      split_and!; [lia|lia|..].
      * intros i Hi. destruct (decide (i = 0)) as [->|Hi'].
        -- simpl. f_equal. unfold streak_day. change (0 * (0 + 1) / 2) with 0. lia.
        -- replace (Z.to_nat i) with (S (Z.to_nat (i - 1))) by lia.
           simpl. apply Hprefix. lia.
      * replace (Z.to_nat r) with (S (Z.to_nat (r - 1))) by lia. done.
    + unfold Py.len. simpl length. split_and!; [lia|lia|intros; lia|].
      simpl. unfold streak_day. change (0 * (0 + 1) / 2) with 0. intros [= ?]. lia.
Qed.

(** X10: the exact value of the study streak. With the activity dates of the
    user (each day once, latest first), the streak [k] is the length of the
    longest prefix of the dates that runs today, today - 1, today - 3,
    today - 6, ...: the date at position [i] is [today - i (i + 1) / 2] for
    every [i < k], and the date at position [k], if there is one, is not
    [today - k (k + 1) / 2]. The streak lies between 0 and the number of
    active days. *)
Theorem study_streak_characterised (user_id now : Z) (db : DB) :
  0 ≤ calculate_study_streak user_id now db ≤ Py.len (activity_dates user_id db)
  ∧ (∀ i, 0 ≤ i < calculate_study_streak user_id now db →
          activity_dates user_id db !! Z.to_nat i = Some (streak_day (date_of now) i))
  ∧ activity_dates user_id db !! Z.to_nat (calculate_study_streak user_id now db)
    ≠ Some (streak_day (date_of now) (calculate_study_streak user_id now db)).
Proof. apply calculate_study_streak_spec. Qed.

(** X11: a streak of three or more never stands for consecutive days: when
    [calculate_study_streak] returns at least 3, the user was active today,
    yesterday and three days ago, and not two days ago. *)
Theorem streak_of_three_skips_a_day (user_id now : Z) (db : DB) :
  3 ≤ calculate_study_streak user_id now db →
  active_on user_id (date_of now) db
  ∧ active_on user_id (date_of now - 1) db
  ∧ active_on user_id (date_of now - 3) db
  ∧ ¬ active_on user_id (date_of now - 2) db.
Proof.
  intros Hthree.
  destruct (calculate_study_streak_spec user_id now db) as (_ & Hprefix & _).
  pose proof (Hprefix 0 ltac:(lia)) as H0.
  pose proof (Hprefix 1 ltac:(lia)) as H1.
  pose proof (Hprefix 2 ltac:(lia)) as H2.
  change (streak_day (date_of now) 0) with (date_of now - 0) in H0.
  change (streak_day (date_of now) 1) with (date_of now - 1) in H1.
  change (streak_day (date_of now) 2) with (date_of now - 3) in H2.
  change (Z.to_nat 0) with 0%nat in H0.
  change (Z.to_nat 1) with 1%nat in H1.
  change (Z.to_nat 2) with 2%nat in H2.
  rewrite <- !elem_of_activity_dates.
  pose proof (activity_dates_descending user_id db) as Hsorted.
  destruct (activity_dates user_id db) as [|d0 [|d1 [|d2 rest]]]; simplify_eq/=.
  apply StronglySorted_inv in Hsorted as [Hsorted _].
  apply StronglySorted_inv in Hsorted as [Hsorted _].
  apply StronglySorted_inv in Hsorted as [_ Hrest].
  rewrite !elem_of_cons. split_and!; [left; lia|tauto|tauto|].
  intros [?|[?|[?|Hin]]]; [lia..|].
  rewrite Forall_forall in Hrest. specialize (Hrest _ Hin). lia.
Qed.

Lemma streak_of_three_skips_a_day_witness :
  calculate_study_streak 7 evening_of_day_10 db_skipped_day = 3
  ∧ active_on 7 (date_of evening_of_day_10) db_skipped_day
  ∧ active_on 7 (date_of evening_of_day_10 - 1) db_skipped_day
  ∧ active_on 7 (date_of evening_of_day_10 - 3) db_skipped_day
  ∧ ¬ active_on 7 (date_of evening_of_day_10 - 2) db_skipped_day.
Proof.
  split; [reflexivity|].
  apply (streak_of_three_skips_a_day 7 evening_of_day_10 db_skipped_day).
  vm_compute. discriminate.
Defined.

(** ** The numbers of the student dashboard *)

Lemma filter_length_le {A} (P Q : A → bool) (rows : list A) :
  (∀ x, P x = true → Q x = true) →
  (length (List.filter P rows) ≤ length (List.filter Q rows))%nat.
Proof.
  intros HPQ. induction rows as [|x rows IH]; simpl; [done|].
  destruct (P x) eqn:HP.
  - rewrite (HPQ x HP). simpl. lia.
  - destruct (Q x); simpl; lia.
Qed.

Lemma filter_positive {A} (P : A → bool) (rows : list A) :
  1 ≤ Py.len (List.filter P rows) ↔ ∃ x, x ∈ rows ∧ P x = true.
Proof.
  unfold Py.len. induction rows as [|x rows IH]; simpl.
  - split; [lia|]. intros (x & []%elem_of_nil & _).
  - destruct (P x) eqn:HP; simpl.
    + split; [|lia]. intros _. exists x. split; [left|done].
    + rewrite IH. split.
      * intros (y & Hy & HPy). exists y. split; [by right|done].
      * intros (y & [->|Hy]%elem_of_cons & HPy); [congruence|]. by exists y.
Qed.

Lemma same_day_within_week (t now1 now2 : Z) :
  now1 ≤ now2 ≤ now1 + 86400 →
  date_of t = date_of now1 →
  now2 - 7 * 86400 ≤ t.
Proof.
  unfold date_of. intros Hclock Hday.
  pose proof (Z.mul_div_le t 86400 ltac:(lia)).
  pose proof (Z.mod_pos_bound now1 86400 ltac:(lia)).
  pose proof (Z.div_mod now1 86400 ltac:(lia)).
  lia.
Qed.

Lemma total_exams_taken_history (current_user : Z) (db : DB) :
  total_exams_taken current_user db = Py.len (get_exam_history None current_user db).
Proof.
  unfold total_exams_taken, get_exam_history, order_by_desc, Py.len.
  rewrite length_map, sorted_reverse_Permutation. do 2 f_equal.
  induction (exam_attempts db) as [|e rows IH]; simpl; [done|].
  unfold in_history at 1. simpl. rewrite andb_true_r. by rewrite IH.
Qed.

(** X12: the counts of the student dashboard fit together. With the clock
    read for "today" and, no more than a day later, for "this week", the
    caller's questions of today are among those of the week, which are among
    all of the caller's questions; and the number of exams taken is the length
    of the caller's exam history. *)
Theorem dashboard_counts_fit (current_user today_clock week_clock : Z) (db : DB) :
  today_clock ≤ week_clock ≤ today_clock + 86400 →
  0 ≤ questions_today current_user today_clock db
  ∧ questions_today current_user today_clock db
    ≤ questions_this_week current_user week_clock db
  ∧ questions_this_week current_user week_clock db
    ≤ total_questions_solved current_user db
  ∧ total_exams_taken current_user db = Py.len (get_exam_history None current_user db).
Proof.
  intros Hclock.
  unfold questions_today, questions_this_week, total_questions_solved, Py.len.
  split_and!.
  - lia.
  - apply inj_le, filter_length_le. intros q [Hu Hday%Z.eqb_eq]%andb_true_iff.
    rewrite Hu. simpl. apply Z.leb_le. by apply (same_day_within_week _ today_clock).
  - apply inj_le, filter_length_le. by intros q [Hu _]%andb_true_iff.
  - apply total_exams_taken_history.
Qed.

Lemma dashboard_counts_fit_witness :
  0 ≤ questions_today 7 evening_of_day_10 db_three_days
  ∧ questions_today 7 evening_of_day_10 db_three_days
    ≤ questions_this_week 7 (evening_of_day_10 + 1) db_three_days
  ∧ questions_this_week 7 (evening_of_day_10 + 1) db_three_days
    ≤ total_questions_solved 7 db_three_days
  ∧ total_exams_taken 7 db_three_days = Py.len (get_exam_history None 7 db_three_days).
Proof.
  apply (dashboard_counts_fit 7 evening_of_day_10 (evening_of_day_10 + 1) db_three_days).
  vm_compute. split; discriminate.
Defined.

Lemma questions_today_positive (user_id now : Z) (db : DB) :
  1 ≤ questions_today user_id now db ↔ active_on user_id (date_of now) db.
Proof.
  unfold questions_today, active_on. rewrite filter_positive.
  split; intros (q & Hq & Hrest); exists q.
  - apply andb_true_iff in Hrest as [Hu%Z.eqb_eq Hd%Z.eqb_eq]. done.
  - destruct Hrest as [Hu%Z.eqb_eq Hd%Z.eqb_eq]. by rewrite Hu, Hd.
Qed.

Lemma streak_positive (user_id now : Z) (db : DB) :
  none_after user_id now db →
  1 ≤ calculate_study_streak user_id now db ↔ active_on user_id (date_of now) db.
Proof.
  intros Hnone.
  destruct (calculate_study_streak_spec user_id now db) as (Hrange & Hprefix & Hstop).
  assert (streak_day (date_of now) 0 = date_of now) as Hzero
    by (unfold streak_day; change (0 * (0 + 1) / 2) with 0; lia).
  rewrite <- elem_of_activity_dates. split.
  - intros Hone. specialize (Hprefix 0 ltac:(lia)). rewrite Hzero in Hprefix.
    by eapply list_elem_of_lookup_2.
  - intros Htoday.
    destruct (decide (1 ≤ calculate_study_streak user_id now db)) as [|Hlt]; [done|].
    assert (calculate_study_streak user_id now db = 0) as Hk by lia.
    rewrite Hk, Hzero in Hstop. change (Z.to_nat 0) with 0%nat in Hstop.
    pose proof (activity_dates_descending user_id db) as Hsorted.
    assert (∀ d, d ∈ activity_dates user_id db → d ≤ date_of now) as Hle.
    { intros d (q & Hq & Hu & <-)%elem_of_activity_dates.
      unfold none_after in Hnone. rewrite Forall_forall in Hnone. by apply Hnone. }
    destruct (activity_dates user_id db) as [|d0 rest].
    { by apply elem_of_nil in Htoday. }
    apply StronglySorted_inv in Hsorted as [_ Hrest].
    rewrite Forall_forall in Hrest.
    pose proof (Hle d0 ltac:(left)) as Hd0.
    apply elem_of_cons in Htoday as [<-|Hin]; [done|].
    specialize (Hrest _ Hin). lia.
Qed.

(** X13: when no question of the user is dated after today, the study streak
    is at least 1 exactly when the dashboard counts a question solved today,
    and it is 0 exactly when that count is 0. *)
Theorem streak_positive_iff_solved_today (user_id now : Z) (db : DB) :
  none_after user_id now db →
  (1 ≤ calculate_study_streak user_id now db ↔ 1 ≤ questions_today user_id now db)
  ∧ (calculate_study_streak user_id now db = 0 ↔ questions_today user_id now db = 0).
Proof.
  intros Hnone.
  pose proof (streak_positive user_id now db Hnone) as Hstreak.
  pose proof (questions_today_positive user_id now db) as Htoday.
  destruct (calculate_study_streak_spec user_id now db) as ([Hk _] & _).
  assert (0 ≤ questions_today user_id now db) by (unfold questions_today, Py.len; lia).
  split; [tauto|]. split; intros ?.
  - destruct (decide (1 ≤ questions_today user_id now db)) as [Hq|]; [|lia].
    apply Htoday, Hstreak in Hq. lia.
  - destruct (decide (1 ≤ calculate_study_streak user_id now db)) as [Hq|]; [|lia].
    apply Hstreak, Htoday in Hq. lia.
Qed.

Lemma streak_positive_iff_solved_today_witness :
  (1 ≤ calculate_study_streak 7 evening_of_day_10 db_three_days
   ↔ 1 ≤ questions_today 7 evening_of_day_10 db_three_days)
  ∧ (calculate_study_streak 7 evening_of_day_10 db_three_days = 0
     ↔ questions_today 7 evening_of_day_10 db_three_days = 0).
Proof.
  apply (streak_positive_iff_solved_today 7 evening_of_day_10 db_three_days).
  unfold none_after, db_three_days. cbn [question_history].
  repeat (constructor; [intros _; vm_compute; discriminate|]). constructor.
Defined.

(** ** Solving a question *)

Lemma filter_app_length {A} (P : A → bool) (rows : list A) (x : A) :
  Py.len (List.filter P (rows ++ [x]))
  = Py.len (List.filter P rows) + (if P x then 1 else 0).
Proof.
  unfold Py.len. rewrite List.filter_app, length_app. simpl.
  destruct (P x); simpl; lia.
Qed.

Lemma save_solution_row question_text solution_data current_user now db response db' :
  save_solution question_text solution_data current_user now db = (inr response, db') →
  question_history db'
  = question_history db
    ++ [QuestionHistory.mk (QuestionSolveResponse.question_id response) current_user
          (QuestionSolveResponse.question_text response)
          (SolutionData.subject solution_data) (SolutionData.topic solution_data) now]
  ∧ QuestionSolveResponse.question_id response
    = next_id (map QuestionHistory.id (question_history db))
  ∧ users db' = users db
  ∧ exam_attempts db' = exam_attempts db
  ∧ past_questions db' = past_questions db.
Proof. unfold save_solution. intros [= <- <-]. done. Qed.

Lemma solving_row request image ai current_user now db response db' :
  solve_question request ai current_user now db = (inr response, db')
  ∨ solve_question_with_image image ai current_user now db = (inr response, db') →
  ∃ solution_data,
    ai = inr solution_data
    ∧ question_history db'
      = question_history db
        ++ [QuestionHistory.mk (QuestionSolveResponse.question_id response) current_user
              (QuestionSolveResponse.question_text response)
              (SolutionData.subject solution_data) (SolutionData.topic solution_data) now]
    ∧ QuestionSolveResponse.question_id response
      = next_id (map QuestionHistory.id (question_history db))
    ∧ users db' = users db
    ∧ exam_attempts db' = exam_attempts db
    ∧ past_questions db' = past_questions db.
Proof.
  unfold solve_question, solve_question_with_image.
  intros [Hsolve|Hsolve]; destruct ai as [msg|solution_data];
    try (by repeat case_match);
    exists solution_data; (split; [done|]);
    repeat case_match; try done; by eapply save_solution_row.
Qed.

(** X14: a solved question is recorded once and counts at once. When either
    solving handler succeeds, the question history gains exactly one row, at
    the end, with a new id larger than every id in use, which is the
    [question_id] of the response, with the caller as owner, the text of the
    response, the subject and topic of the AI answer, and the time of the
    request; users, exam attempts and the question bank stay as they are. The
    caller's total and today's count on the dashboard go up by one, the
    totals of every other user stay, and if none of the caller's questions is
    dated after today the caller's study streak is at least 1. *)
Theorem solved_question_is_recorded request image ai current_user now db response db' :
  solve_question request ai current_user now db = (inr response, db')
  ∨ solve_question_with_image image ai current_user now db = (inr response, db') →
  ∃ solution_data,
    ai = inr solution_data
    ∧ question_history db'
      = question_history db
        ++ [QuestionHistory.mk (QuestionSolveResponse.question_id response) current_user
              (QuestionSolveResponse.question_text response)
              (SolutionData.subject solution_data) (SolutionData.topic solution_data) now]
    ∧ Forall (fun q => QuestionHistory.id q < QuestionSolveResponse.question_id response)
        (question_history db)
    ∧ users db' = users db
    ∧ exam_attempts db' = exam_attempts db
    ∧ past_questions db' = past_questions db
    ∧ total_questions_solved current_user db' = total_questions_solved current_user db + 1
    ∧ questions_today current_user now db' = questions_today current_user now db + 1
    ∧ (∀ other, other ≠ current_user →
         total_questions_solved other db' = total_questions_solved other db)
    ∧ (none_after current_user now db → 1 ≤ calculate_study_streak current_user now db').
Proof.
  intros Hsolve.
  destruct (solving_row _ _ _ _ _ _ _ _ Hsolve)
    as (solution_data & Hai & Hrows & Hid & Hu & He & Hp).
  exists solution_data. split_and!; try done.
  - apply Forall_forall. intros q Hq. rewrite Hid. apply next_id_fresh.
    apply list_elem_of_fmap. by exists q.
  - unfold total_questions_solved. rewrite Hrows, filter_app_length. simpl.
    by rewrite Z.eqb_refl.
  - unfold questions_today. rewrite Hrows, filter_app_length. simpl.
    by rewrite !Z.eqb_refl.
  - intros other Hother. unfold total_questions_solved.
    rewrite Hrows, filter_app_length. simpl.
    destruct (Z.eqb_spec current_user other); [congruence|lia].
  - intros Hnone. apply streak_positive.
    + unfold none_after. rewrite Hrows. apply Forall_app. split; [done|].
      constructor; [|constructor]. simpl. lia.
    + exists (QuestionHistory.mk (QuestionSolveResponse.question_id response) current_user
                (QuestionSolveResponse.question_text response)
                (SolutionData.subject solution_data) (SolutionData.topic solution_data) now).
      rewrite Hrows. split; [|done]. apply elem_of_app. right. left.
Qed.

Lemma solved_question_is_recorded_witness :
  ∃ solution_data,
    @inr string SolutionData.t answer_2_plus_2 = inr solution_data
    ∧ question_history
        (solve_question question_2_plus_2 (inr answer_2_plus_2) 7 evening_of_day_10
           db_three_days).2
      = question_history db_three_days
        ++ [QuestionHistory.mk 4 7 "What is 2 + 2?"
              (SolutionData.subject solution_data) (SolutionData.topic solution_data)
              evening_of_day_10]
    ∧ Forall (fun q => QuestionHistory.id q < 4) (question_history db_three_days)
    ∧ users (solve_question question_2_plus_2 (inr answer_2_plus_2) 7 evening_of_day_10
               db_three_days).2 = users db_three_days
    ∧ exam_attempts (solve_question question_2_plus_2 (inr answer_2_plus_2) 7
                       evening_of_day_10 db_three_days).2 = exam_attempts db_three_days
    ∧ past_questions (solve_question question_2_plus_2 (inr answer_2_plus_2) 7
                        evening_of_day_10 db_three_days).2 = past_questions db_three_days
    ∧ total_questions_solved 7
        (solve_question question_2_plus_2 (inr answer_2_plus_2) 7 evening_of_day_10
           db_three_days).2
      = total_questions_solved 7 db_three_days + 1
    ∧ questions_today 7 evening_of_day_10
        (solve_question question_2_plus_2 (inr answer_2_plus_2) 7 evening_of_day_10
           db_three_days).2
      = questions_today 7 evening_of_day_10 db_three_days + 1
    ∧ (∀ other, other ≠ 7 →
         total_questions_solved other
           (solve_question question_2_plus_2 (inr answer_2_plus_2) 7 evening_of_day_10
              db_three_days).2
         = total_questions_solved other db_three_days)
    ∧ (none_after 7 evening_of_day_10 db_three_days →
       1 ≤ calculate_study_streak 7 evening_of_day_10
             (solve_question question_2_plus_2 (inr answer_2_plus_2) 7 evening_of_day_10
                db_three_days).2).
Proof.
  apply (solved_question_is_recorded question_2_plus_2 photo (inr answer_2_plus_2) 7
           evening_of_day_10 db_three_days
           (QuestionSolveResponse.mk 4 "What is 2 + 2?" "Mathematics" "Arithmetic")
           (solve_question question_2_plus_2 (inr answer_2_plus_2) 7 evening_of_day_10
              db_three_days).2).
  left. vm_compute. reflexivity.
Defined.

(** ** Accounts *)

Lemma first_None {A} (P : A → bool) (rows : list A) :
  first P rows = None ↔ ∀ x, x ∈ rows → P x = false.
Proof.
  unfold first. rewrite list_find_None, Forall_forall.
  split; intros H x Hx; specialize (H x Hx); by destruct (P x).
Qed.

Lemma next_id_app (ids : list Z) (x : Z) :
  Forall (fun y => y < x) ids → 0 < x → next_id (ids ++ [x]) = 1 + x.
Proof.
  unfold next_id. intros Hids Hx. f_equal.
  induction Hids as [|y ids Hy Hids IH]; simpl; [lia|]. rewrite IH. lia.
Qed.

Lemma next_id_positive (ids : list Z) : 0 < next_id ids.
Proof. unfold next_id. induction ids as [|y ids IH]; simpl; lia. Qed.

Lemma next_id_above (ids : list Z) : Forall (fun y => y < next_id ids) ids.
Proof. apply Forall_forall. intros y. apply next_id_fresh. Qed.

(** [add_subjects] appends one row per name, numbered from the next free id. *)
Lemma add_subjects_rows (user_id : Z) (names : list string) : ∀ rows,
  add_subjects user_id names rows
  = rows ++ enrolled_rows (next_id (map UserSubject.id rows)) user_id names.
Proof.
  unfold add_subjects, enrolled_rows.
  induction names as [|name names IH]; intros rows; simpl.
  - by rewrite app_nil_r.
  - rewrite IH, <- app_assoc. f_equal. simpl. rewrite Z.add_0_r. f_equal.
    rewrite map_app. simpl.
    rewrite next_id_app by (apply next_id_above || apply next_id_positive).
    apply imap_ext. intros i name' _. simpl. f_equal. lia.
Qed.

Lemma users_wf_register user_data db :
  users_wf db → users_wf (register_user user_data db).2.
Proof.
  intros Hwf. unfold register_user.
  destruct (first _ (users db)) as [?|] eqn:Hemail; [done|].
  rewrite first_None in Hemail.
  destruct (Py.truthy (UserRegister.phone user_data)) eqn:Hphone.
  - case_bool_decide as Htaken; [done|].
    assert (first (fun u => bool_decide (User.phone u = UserRegister.phone user_data))
              (users db) = None) as Hfree.
    { by apply eq_None_not_Some. }
    rewrite first_None in Hfree. simpl.
    intros i j u v Hi Hj Hshare.
    apply lookup_app_Some in Hi as [Hi|[Hil Hi]];
      apply lookup_app_Some in Hj as [Hj|[Hjl Hj]].
    + by apply (Hwf i j u v).
    + apply list_lookup_singleton_Some in Hj as [Hj0 <-]. simpl in Hshare.
      pose proof (list_elem_of_lookup_2 _ _ _ Hi) as Hu.
      destruct Hshare as [Hid|[Hmail|[_ Hph]]].
      * pose proof (next_id_fresh (map User.id (users db)) (User.id u)) as Hfresh.
        rewrite <- Hid in Hfresh. 
        assert (User.id u < User.id u); [|lia].
        apply Hfresh, list_elem_of_fmap. by exists u.
      * specialize (Hemail u Hu). apply String.eqb_neq in Hemail. done.
      * specialize (Hfree u Hu). by apply bool_decide_eq_false in Hfree.
    + apply list_lookup_singleton_Some in Hi as [Hi0 <-]. simpl in Hshare.
      pose proof (list_elem_of_lookup_2 _ _ _ Hj) as Hv.
      destruct Hshare as [Hid|[Hmail|[_ Hph]]].
      * pose proof (next_id_fresh (map User.id (users db)) (User.id v)) as Hfresh.
        rewrite Hid in Hfresh.
        assert (User.id v < User.id v); [|lia].
        apply Hfresh, list_elem_of_fmap. by exists v.
      * specialize (Hemail v Hv). apply String.eqb_neq in Hemail. done.
      * specialize (Hfree v Hv). by apply bool_decide_eq_false in Hfree.
    + apply list_lookup_singleton_Some in Hi as [Hi0 _].
      apply list_lookup_singleton_Some in Hj as [Hj0 _]. lia.
  - simpl. intros i j u v Hi Hj Hshare.
    apply lookup_app_Some in Hi as [Hi|[Hil Hi]];
      apply lookup_app_Some in Hj as [Hj|[Hjl Hj]].
    + by apply (Hwf i j u v).
    + apply list_lookup_singleton_Some in Hj as [Hj0 <-]. simpl in Hshare.
      pose proof (list_elem_of_lookup_2 _ _ _ Hi) as Hu.
      destruct Hshare as [Hid|[Hmail|[Htr Hph]]].
      * pose proof (next_id_fresh (map User.id (users db)) (User.id u)) as Hfresh.
        rewrite <- Hid in Hfresh.
        assert (User.id u < User.id u); [|lia].
        apply Hfresh, list_elem_of_fmap. by exists u.
      * specialize (Hemail u Hu). apply String.eqb_neq in Hemail. done.
      * congruence.
    + apply list_lookup_singleton_Some in Hi as [Hi0 <-]. simpl in Hshare.
      pose proof (list_elem_of_lookup_2 _ _ _ Hj) as Hv.
      destruct Hshare as [Hid|[Hmail|[Htr Hph]]].
      * pose proof (next_id_fresh (map User.id (users db)) (User.id v)) as Hfresh.
        rewrite Hid in Hfresh.
        assert (User.id v < User.id v); [|lia].
        apply Hfresh, list_elem_of_fmap. by exists v.
      * specialize (Hemail v Hv). apply String.eqb_neq in Hemail. done.
      * congruence.
    + apply list_lookup_singleton_Some in Hi as [Hi0 _].
      apply list_lookup_singleton_Some in Hj as [Hj0 _]. lia.
Qed.

Lemma users_wf_update_my_profile update_data current_user db :
  users_wf db → users_wf (update_my_profile update_data current_user db).2.
Proof.
  intros Hwf. unfold update_my_profile.
  destruct (first _ (users db)) as [[k me]|] eqn:Hme; [|done].
  destruct (first_lookup _ _ _ _ Hme) as [Hk Hid%Z.eqb_eq].
  destruct (Py.truthy (UserUpdate.phone update_data)) eqn:Hphone.
  - case_bool_decide as Htaken; [done|].
    assert (first (fun v => bool_decide (User.phone v = UserUpdate.phone update_data)
                            && negb (User.id v =? current_user))
              (users db) = None) as Hfree.
    { by apply eq_None_not_Some. }
    rewrite first_None in Hfree. unfold users_wf. simpl.
    intros i j u v Hi Hj Hshare.
    destruct (decide (i = j)) as [|Hij]; [done|exfalso].
    destruct (decide (k = i)) as [->|Hki].
    + rewrite list_lookup_insert_eq in Hi by (by eapply lookup_lt_Some).
      rewrite list_lookup_insert_ne in Hj by done.
      injection Hi as <-. simpl in Hshare.
      destruct Hshare as [Hsame|[Hsame|[_ Hph]]].
      * apply Hij, (Hwf i j me v); tauto.
      * apply Hij, (Hwf i j me v); tauto.
      * pose proof (Hfree v (list_elem_of_lookup_2 _ _ _ Hj)) as Hv.
        apply andb_false_iff in Hv as [Hv|Hv].
        -- by apply bool_decide_eq_false in Hv.
        -- apply negb_false_iff, Z.eqb_eq in Hv.
           apply Hij, (Hwf i j me v); [done|done|left; congruence].
    + rewrite list_lookup_insert_ne in Hi by done.
      destruct (decide (k = j)) as [->|Hkj].
      * rewrite list_lookup_insert_eq in Hj by (by eapply lookup_lt_Some).
        injection Hj as <-. simpl in Hshare.
        destruct Hshare as [Hsame|[Hsame|[_ Hph]]].
        -- apply Hij, (Hwf i j u me); tauto.
        -- apply Hij, (Hwf i j u me); tauto.
        -- pose proof (Hfree u (list_elem_of_lookup_2 _ _ _ Hi)) as Hu.
           apply andb_false_iff in Hu as [Hu|Hu].
           ++ by apply bool_decide_eq_false in Hu.
           ++ apply negb_false_iff, Z.eqb_eq in Hu.
              apply Hij, (Hwf i j u me); [done|done|left; congruence].
      * rewrite list_lookup_insert_ne in Hj by done.
        by apply Hij, (Hwf i j u v).
  - unfold users_wf. simpl. intros i j u v Hi Hj Hshare.
    destruct (decide (i = j)) as [|Hij]; [done|exfalso].
    destruct (decide (k = i)) as [->|Hki].
    + rewrite list_lookup_insert_eq in Hi by (by eapply lookup_lt_Some).
      rewrite list_lookup_insert_ne in Hj by done.
      injection Hi as <-. simpl in Hshare.
      apply Hij, (Hwf i j me v); tauto.
    + rewrite list_lookup_insert_ne in Hi by done.
      destruct (decide (k = j)) as [->|Hkj].
      * rewrite list_lookup_insert_eq in Hj by (by eapply lookup_lt_Some).
        injection Hj as <-. simpl in Hshare.
        apply Hij, (Hwf i j u me); tauto.
      * rewrite list_lookup_insert_ne in Hj by done.
        by apply Hij, (Hwf i j u v).
Qed.

Lemma save_solution_users question_text solution_data current_user now db :
  users (save_solution question_text solution_data current_user now db).2 = users db.
Proof. done. Qed.

Lemma users_run_other op db :
  match op with
  | OpRegister _ | OpUpdateProfile _ _ => True
  | _ => users (run op db) = users db
  end.
Proof.
  destruct op as [| |request ai u now|image ai u now|body u now draws|submission u now];
    try done; simpl.
  - unfold solve_question. by repeat case_match.
  - unfold solve_question_with_image. by repeat case_match.
  - unfold post_create. destruct (validate_MockExamRequest body) as [e|request]; [done|].
    simpl. unfold create_mock_exam. by repeat case_match.
  - unfold submit_exam. by repeat case_match.
Qed.

(** X15: accounts stay distinct. If no two rows of [users] share an id, an
    email or a non-empty phone number, this is still so after any request:
    registration refuses a taken email or phone, a profile update refuses a
    phone of another account and never touches id or email, and no other
    handler writes to [users]. *)
Theorem accounts_stay_distinct (op : Operation) (db : DB) :
  users_wf db → users_wf (run op db).
Proof.
  intros Hwf.
  pose proof (users_run_other op db) as Hother.
  destruct op; simpl run in *;
    [by apply users_wf_register|by apply users_wf_update_my_profile|..];
    unfold users_wf; by rewrite Hother.
Qed.

Lemma accounts_stay_distinct_witness :
  users_wf (run (OpRegister student_with_phone) (run (OpRegister student) empty_db)).
Proof.
  apply (accounts_stay_distinct (OpRegister student_with_phone)
           (run (OpRegister student) empty_db)).
  intros [|i] [|j] u v Hi Hj _; vm_compute in Hi, Hj; (reflexivity || discriminate).
Defined.

(** ** Subject rows of an account *)

Lemma counters_of_app rows1 rows2 u s :
  counters_of (rows1 ++ rows2) u s
  = match counters_of rows1 u s with
    | Some c => Some c
    | None => counters_of rows2 u s
    end.
Proof.
  unfold counters_of, first. induction rows1 as [|r rows1 IH]; simpl.
  - by destruct (list_find _ rows2) as [[? ?]|].
  - case_decide; [done|].
    destruct (list_find _ (rows1 ++ rows2)) as [[? ?]|] eqn:E1;
      destruct (list_find _ rows1) as [[? ?]|] eqn:E2;
      destruct (list_find _ rows2) as [[? ?]|] eqn:E3; simpl in *; congruence.
Qed.

Lemma counters_of_none rows u s :
  (∀ us, us ∈ rows → UserSubject.user_id us ≠ u) → counters_of rows u s = None.
Proof.
  intros Hrows. unfold counters_of.
  destruct (first _ rows) as [[i us]|] eqn:E; [|done].
  apply first_lookup in E as [Hi Hus]. apply is_subject_of_true in Hus as [Hu _].
  destruct (Hrows us (list_elem_of_lookup_2 _ _ _ Hi) Hu).
Qed.

Lemma counters_of_others rows u v s :
  v ≠ u → counters_of (rows_of_others u rows) v s = counters_of rows v s.
Proof.
  intros Hv. unfold counters_of, first, rows_of_others.
  induction rows as [|r rows IH]; simpl; [done|].
  destruct (Z.eqb_spec (UserSubject.user_id r) u) as [Hr|Hr]; simpl.
  - rewrite decide_False.
    + destruct (list_find _ rows) as [[? ?]|]; destruct (list_find _ (List.filter _ rows))
        as [[? ?]|]; simpl in *; congruence.
    + rewrite is_subject_of_true. intros [? _]. congruence.
  - case_decide; [done|].
    destruct (list_find _ rows) as [[? ?]|]; destruct (list_find _ (List.filter _ rows))
      as [[? ?]|]; simpl in *; congruence.
Qed.

Lemma enrolled_rows_entries id0 u names :
  subject_entry <$> enrolled_rows id0 u names = fresh_entry u <$> names.
Proof.
  unfold enrolled_rows. revert id0.
  induction names as [|name names IH]; intros id0; [done|].
  rewrite imap_cons, !fmap_cons. f_equal.
  erewrite imap_ext; [apply (IH (id0 + 1))|].
  intros i x _. simpl. f_equal. lia.
Qed.

Lemma enrolled_rows_user id0 u names us :
  us ∈ enrolled_rows id0 u names → UserSubject.user_id us = u.
Proof.
  intros Hus.
  assert (subject_entry us ∈ subject_entry <$> enrolled_rows id0 u names) as Hin
    by (by apply list_elem_of_fmap_2).
  rewrite enrolled_rows_entries in Hin.
  apply list_elem_of_fmap in Hin as (name & Heq & _).
  unfold subject_entry, fresh_entry in Heq. congruence.
Qed.

Lemma counters_of_cons r rows u s :
  counters_of (r :: rows) u s
  = if is_subject_of u s r
    then Some (UserSubject.total_questions_attempted r, UserSubject.correct_answers r)
    else counters_of rows u s.
Proof.
  unfold counters_of, first. simpl.
  destruct (is_subject_of u s r) eqn:Hr.
  - by rewrite decide_True.
  - rewrite decide_False by congruence.
    by destruct (list_find _ rows) as [[? ?]|].
Qed.

Lemma counters_of_enrolled id0 u names s :
  counters_of (enrolled_rows id0 u names) u s
  = if decide (s ∈ names) then Some (0, 0) else None.
Proof.
  unfold enrolled_rows. revert id0.
  induction names as [|name names IH]; intros id0.
  - rewrite decide_False; [done|]. apply not_elem_of_nil.
  - rewrite imap_cons, counters_of_cons.
    unfold is_subject_of. cbn [UserSubject.user_id UserSubject.subject_name
      UserSubject.total_questions_attempted UserSubject.correct_answers].
    rewrite Z.eqb_refl. cbn [andb].
    destruct (String.eqb_spec name s) as [->|Hne].
    + rewrite decide_True by left. done.
    + erewrite imap_ext; [rewrite (IH (id0 + 1))|].
      * destruct (decide (s ∈ names)) as [Hin|Hin].
        -- rewrite decide_True by (by right). done.
        -- rewrite decide_False; [done|].
           intros [?|?]%elem_of_cons; congruence.
      * intros i x _. simpl. f_equal. lia.
Qed.

Lemma List_filter_all {A} (P : A → bool) (l : list A) :
  (∀ x, x ∈ l → P x = true) → List.filter P l = l.
Proof.
  induction l as [|x l IH]; intros Hall; simpl; [done|].
  rewrite (Hall x) by left. f_equal. apply IH. intros y Hy. apply Hall. by right.
Qed.

Lemma List_filter_none {A} (P : A → bool) (l : list A) :
  (∀ x, x ∈ l → P x = false) → List.filter P l = [].
Proof.
  induction l as [|x l IH]; intros Hall; simpl; [done|].
  rewrite (Hall x) by left. apply IH. intros y Hy. apply Hall. by right.
Qed.

Lemma filter_enrolled_self id0 u names :
  rows_of_user u (enrolled_rows id0 u names) = enrolled_rows id0 u names.
Proof.
  unfold rows_of_user. apply List_filter_all. intros us Hus.
  apply Z.eqb_eq. by eapply enrolled_rows_user.
Qed.

Lemma filter_enrolled_others id0 u names :
  rows_of_others u (enrolled_rows id0 u names) = [].
Proof.
  unfold rows_of_others. apply List_filter_none. intros us Hus.
  apply negb_false_iff, Z.eqb_eq. by eapply enrolled_rows_user.
Qed.

Lemma List_filter_none_elem {A} (P : A → bool) (l : list A) :
  List.filter P l = [] → ∀ x, x ∈ l → P x = false.
Proof.
  intros Hnone x Hx. destruct (P x) eqn:HP; [|done].
  assert (x ∈ List.filter P l) as Hin by (apply list_elem_of_In, List.filter_In;
    split; [by apply list_elem_of_In|done]).
  rewrite Hnone in Hin. by apply elem_of_nil in Hin.
Qed.

Lemma rows_of_others_add_subjects u names rows :
  rows_of_others u (add_subjects u names (rows_of_others u rows)) = rows_of_others u rows
  ∧ rows_of_user u (add_subjects u names (rows_of_others u rows))
    = enrolled_rows (next_id (map UserSubject.id (rows_of_others u rows))) u names.
Proof.
  rewrite add_subjects_rows. unfold rows_of_others at 1, rows_of_user at 1.
  rewrite !List.filter_app.
  fold (rows_of_others u (enrolled_rows (next_id (map UserSubject.id (rows_of_others u rows)))
                            u names)).
  fold (rows_of_user u (enrolled_rows (next_id (map UserSubject.id (rows_of_others u rows)))
                          u names)).
  rewrite filter_enrolled_others, filter_enrolled_self, app_nil_r. split.
  - apply List_filter_all. intros us Hus.
    unfold rows_of_others in Hus. apply list_elem_of_In, List.filter_In in Hus. tauto.
  - rewrite List_filter_none; [done|]. intros us Hus.
    unfold rows_of_others in Hus. apply list_elem_of_In, List.filter_In in Hus.
    destruct Hus as [_ Hus]. by apply negb_true_iff in Hus.
Qed.

(** X16: what a profile update with a subject list does to the subject rows.
    When [update_my_profile] succeeds for a request that supplies a list of
    subjects, the rows of every other user are kept as they are and in their
    order, and the caller's rows are exactly one row per supplied name, in the
    order given (a name given twice gets two rows), each with both counters at
    0: the caller's counters are (0, 0) for a supplied subject and absent for
    every other subject, whatever they were before. Question history, exam
    attempts and the question bank are not touched. *)
Theorem profile_update_replaces_subject_rows update_data current_user db names db' :
  update_my_profile update_data current_user db = (inr tt, db') →
  UserUpdate.subjects update_data = Some names →
  rows_of_others current_user (user_subjects db')
  = rows_of_others current_user (user_subjects db)
  ∧ subject_entry <$> rows_of_user current_user (user_subjects db')
    = fresh_entry current_user <$> names
  ∧ (∀ s, counters db' current_user s
          = if decide (s ∈ names) then Some (0, 0) else None)
  ∧ (∀ other s, other ≠ current_user → counters db' other s = counters db other s)
  ∧ question_history db' = question_history db
  ∧ exam_attempts db' = exam_attempts db
  ∧ past_questions db' = past_questions db.
Proof.
  unfold update_my_profile. intros Hupdate Hnames.
  destruct (first _ (users db)) as [[k me]|]; [|done].
  destruct (if Py.truthy (UserUpdate.phone update_data) then _ else false); [done|].
  injection Hupdate as <-. rewrite Hnames. unfold counters. simpl.
  fold (rows_of_others current_user (user_subjects db)).
  destruct (rows_of_others_add_subjects current_user names (user_subjects db))
    as [Hothers Hmine].
  split_and!; try done.
  - by rewrite Hmine, enrolled_rows_entries.
  - intros s. rewrite add_subjects_rows, counters_of_app.
    rewrite counters_of_none.
    + apply counters_of_enrolled.
    + intros us Hus. unfold rows_of_others in Hus.
      apply list_elem_of_In, List.filter_In in Hus as [_ Hus].
      apply negb_true_iff in Hus. by apply Z.eqb_neq in Hus.
  - intros other s Hother. rewrite add_subjects_rows, counters_of_app.
    rewrite counters_of_others by done.
    destruct (counters_of (user_subjects db) other s); [done|].
    apply counters_of_none. intros us Hus.
    apply enrolled_rows_user in Hus. congruence.
Qed.

Lemma profile_update_replaces_subject_rows_witness :
  rows_of_others 1 (user_subjects (run (OpUpdateProfile profile_update 1) db_two_students))
  = rows_of_others 1 (user_subjects db_two_students)
  ∧ subject_entry
      <$> rows_of_user 1
            (user_subjects (run (OpUpdateProfile profile_update 1) db_two_students))
    = fresh_entry 1 <$> ["Mathematics"; "Physics"]
  ∧ (∀ s, counters (run (OpUpdateProfile profile_update 1) db_two_students) 1 s
          = if decide (s ∈ ["Mathematics"; "Physics"]) then Some (0, 0) else None)
  ∧ (∀ other s, other ≠ 1 →
       counters (run (OpUpdateProfile profile_update 1) db_two_students) other s
       = counters db_two_students other s)
  ∧ question_history (run (OpUpdateProfile profile_update 1) db_two_students)
    = question_history db_two_students
  ∧ exam_attempts (run (OpUpdateProfile profile_update 1) db_two_students)
    = exam_attempts db_two_students
  ∧ past_questions (run (OpUpdateProfile profile_update 1) db_two_students)
    = past_questions db_two_students.
Proof.
  apply (profile_update_replaces_subject_rows profile_update 1 db_two_students
           ["Mathematics"; "Physics"]).
  - vm_compute. reflexivity.
  - reflexivity.
Defined.

(** X17: what a registration creates. When [register_user] succeeds, the
    returned id is larger than every id in use, [users] gains one row at the
    end with that id and the submitted email, phone, name, role and class, and
    [user_subjects] gains, after the rows it had, one row per submitted
    subject in the order given, owned by the new user, with both counters at
    0. If every subject row belonged to a user before, the new user's
    counters are (0, 0) exactly for the submitted subjects, the counters of
    every other user are as before, and every subject row still belongs to a
    user. *)
Theorem registration_enrolls_subjects user_data db new_id db' :
  register_user user_data db = (inr new_id, db') →
  subjects_owned db →
  Forall (fun u => User.id u < new_id) (users db)
  ∧ users db'
    = users db
      ++ [User.mk new_id (UserRegister.email user_data) (UserRegister.phone user_data)
            (UserRegister.full_name user_data) (UserRegister.role user_data)
            (UserRegister.student_class user_data)]
  ∧ (∃ rows, user_subjects db' = user_subjects db ++ rows
             ∧ subject_entry <$> rows
               = fresh_entry new_id <$> UserRegister.subjects user_data)
  ∧ (∀ s, counters db' new_id s
          = if decide (s ∈ UserRegister.subjects user_data) then Some (0, 0) else None)
  ∧ (∀ other s, other ≠ new_id → counters db' other s = counters db other s)
  ∧ subjects_owned db'.
Proof.
  unfold register_user. intros Hregister Howned.
  destruct (first _ (users db)) as [?|]; [done|].
  destruct (if Py.truthy (UserRegister.phone user_data) then _ else false); [done|].
  injection Hregister as <- <-. unfold counters. simpl.
  set (new_id := next_id (map User.id (users db))).
  assert (∀ us, us ∈ user_subjects db → UserSubject.user_id us ≠ new_id) as Hfresh.
  { intros us Hus Heq. unfold subjects_owned in Howned. rewrite Forall_forall in Howned.
    pose proof (next_id_fresh (map User.id (users db)) (UserSubject.user_id us)
                  (Howned us Hus)) as Hlt.
    fold new_id in Hlt. lia. }
  split_and!.
  - apply Forall_forall. intros u Hu. apply next_id_fresh, list_elem_of_fmap. by exists u.
  - done.
  - eexists. split; [apply add_subjects_rows|apply enrolled_rows_entries].
  - intros s. rewrite add_subjects_rows, counters_of_app, counters_of_none by done.
    apply counters_of_enrolled.
  - intros other s Hother. rewrite add_subjects_rows, counters_of_app.
    destruct (counters_of (user_subjects db) other s); [done|].
    apply counters_of_none. intros us Hus. apply enrolled_rows_user in Hus. congruence.
  - unfold subjects_owned. simpl. rewrite add_subjects_rows, fmap_app.
    apply Forall_app. split.
    + eapply Forall_impl; [exact Howned|]. intros us Hus. apply elem_of_app. by left.
    + apply Forall_forall. intros us Hus. apply enrolled_rows_user in Hus.
      rewrite Hus. apply elem_of_app. right. left.
Qed.

Lemma registration_enrolls_subjects_witness :
  Forall (fun u => User.id u < 2) (users db_practised)
  ∧ users db_two_students
    = users db_practised
      ++ [User.mk 2 "bayo@example.com" (Some "0801") "Bayo" "student" None]
  ∧ (∃ rows, user_subjects db_two_students = user_subjects db_practised ++ rows
             ∧ subject_entry <$> rows = fresh_entry 2 <$> ["Physics"; "Chemistry"])
  ∧ (∀ s, counters db_two_students 2 s
          = if decide (s ∈ ["Physics"; "Chemistry"]) then Some (0, 0) else None)
  ∧ (∀ other s, other ≠ 2 → counters db_two_students other s = counters db_practised other s)
  ∧ subjects_owned db_two_students.
Proof.
  apply (registration_enrolls_subjects student_with_phone db_practised 2 db_two_students).
  - vm_compute. reflexivity.
  - unfold subjects_owned. vm_compute. repeat constructor.
Defined.

(** ** Study plans *)

Section format_schedule.
Variable format : DailyPlan.t → Result DailySchedule.t.

Lemma for_each_app {S A} (body : S → A → Result S) (l1 l2 : list A) (st : S) :
  for_each body (l1 ++ l2) st = let* st' := for_each body l1 st in for_each body l2 st'.
Proof.
  revert st. induction l1 as [|x l1 IH]; intros st; simpl; [done|].
  destruct (body st x) as [e|st']; simpl; [done|]. apply IH.
Qed.

Lemma format_schedule_loop (weeks : list WeekPlan.t) : ∀ acc,
  for_each
    (fun weekly_schedule week_data =>
       for_each (collect_day format) (WeekPlan.daily_schedule week_data) weekly_schedule)
    weeks acc
  = for_each (collect_day format) (days_of weeks) acc.
Proof.
  unfold days_of.
  induction weeks as [|week weeks IH]; intros acc; simpl; [done|].
  rewrite for_each_app.
  destruct (for_each (collect_day format) (WeekPlan.daily_schedule week) acc)
    as [e|acc']; simpl; [done|].
  apply IH.
Qed.

Lemma format_schedule_days (weeks : list WeekPlan.t) :
  format_schedule format weeks = for_each (collect_day format) (days_of weeks) [].
Proof. apply format_schedule_loop. Qed.

(** The loop returns the formatted days when every day can be formatted. *)
Lemma for_each_collect_ok (days : list DailyPlan.t) : ∀ acc entries,
  Forall2 (fun daily entry => format daily = inr entry) days entries →
  for_each (collect_day format) days acc = inr (acc ++ entries).
Proof.
  induction days as [|daily days IH]; intros acc entries Hall.
  - apply Forall2_nil_inv_l in Hall as ->. by rewrite app_nil_r.
  - apply Forall2_cons_inv_l in Hall as (entry & entries' & Hentry & Hall & ->).
    simpl. unfold collect_day at 1. rewrite Hentry. simpl.
    rewrite (IH _ _ Hall), <- app_assoc. done.
Qed.

Lemma for_each_collect_inv (days : list DailyPlan.t) : ∀ acc,
  match for_each (collect_day format) days acc with
  | inr result =>
      ∃ entries, result = acc ++ entries
                 ∧ Forall2 (fun daily entry => format daily = inr entry) days entries
  | inl e => ∃ daily, daily ∈ days ∧ format daily = inl e
  end.
Proof.
  induction days as [|daily days IH]; intros acc; simpl.
  - exists []. by rewrite app_nil_r.
  - unfold collect_day at 1.
    destruct (format daily) as [e|entry] eqn:Hentry; simpl.
    + exists daily. split; [left|done].
    + specialize (IH (acc ++ [entry])).
      destruct (for_each (collect_day format) days (acc ++ [entry])) as [e|result].
      * destruct IH as (d & Hd & He). exists d. split; [by right|done].
      * destruct IH as (entries & -> & Hall). exists (entry :: entries).
        split; [by rewrite <- app_assoc|by constructor].
Qed.
End format_schedule.

Lemma format_generated_day_fails (daily : DailyPlan.t) (e : Error) :
  format_generated_day daily = inl e
  ↔ e = IndexError ∧ DailyPlan.activities daily = Some [].
Proof.
  unfold format_generated_day.
  destruct (DailyPlan.activities daily) as [[|a rest]|]; simpl.
  - split; [by intros [= <-]|by intros [-> _]].
  - split; [done|by intros [_ ?]].
  - split; [done|by intros [_ ?]].
Qed.

Lemma format_stored_day_ok (daily : DailyPlan.t) :
  ∃ entry, format_stored_day daily = inr entry.
Proof.
  unfold format_stored_day.
  destruct (DailyPlan.activities daily) as [[|a rest]|]; simpl; by eexists.
Qed.

Lemma format_stored_day_generated (daily : DailyPlan.t) (entry : DailySchedule.t) :
  format_generated_day daily = inr entry →
  format_stored_day daily = inr (with_default_duration entry).
Proof.
  unfold format_generated_day, format_stored_day.
  destruct (DailyPlan.activities daily) as [[|a rest]|]; simpl; try done;
    by intros [= <-].
Qed.

Lemma format_stored_schedule_ok (weeks : list WeekPlan.t) :
  ∃ entries, format_schedule format_stored_day weeks = inr entries.
Proof.
  rewrite format_schedule_days.
  pose proof (for_each_collect_inv format_stored_day (days_of weeks) []) as Hinv.
  destruct (for_each _ _ _) as [e|entries]; [|by eexists].
  destruct Hinv as (daily & _ & Hfail).
  destruct (format_stored_day_ok daily) as [entry Hentry]. congruence.
Qed.

Lemma deactivate_fields (u : Z) (p : StudyPlan.t) :
  StudyPlan.id (deactivate u p) = StudyPlan.id p
  ∧ StudyPlan.user_id (deactivate u p) = StudyPlan.user_id p
  ∧ StudyPlan.completion_percentage (deactivate u p) = StudyPlan.completion_percentage p
  ∧ is_active_plan_of u (deactivate u p) = false
  ∧ (StudyPlan.user_id p ≠ u → deactivate u p = p).
Proof.
  unfold deactivate, is_active_plan_of.
  destruct (Z.eqb_spec (StudyPlan.user_id p) u) as [Hu|Hu]; simpl.
  - destruct (StudyPlan.is_active p) eqn:Ha; simpl.
    + rewrite andb_false_r. done.
    + rewrite Ha, andb_false_r. done.
  - destruct (Z.eqb_spec (StudyPlan.user_id p) u); done.
Qed.

Lemma active_plans_of_deactivated (u : Z) (plans : list StudyPlan.t) :
  active_plans_of u (map (deactivate u) plans) = [].
Proof.
  unfold active_plans_of. apply List_filter_none.
  intros p (q & -> & _)%list_elem_of_fmap. apply deactivate_fields.
Qed.

Lemma plans_of_others_deactivated (u : Z) (plans : list StudyPlan.t) :
  plans_of_others u (map (deactivate u) plans) = plans_of_others u plans.
Proof.
  unfold plans_of_others. induction plans as [|p plans IH]; simpl; [done|].
  destruct (deactivate_fields u p) as (_ & Hu & _ & _ & Hsame). rewrite Hu.
  destruct (Z.eqb_spec (StudyPlan.user_id p) u) as [|Hne]; simpl; [done|].
  by rewrite IH, Hsame.
Qed.

Lemma first_app_r {A} (P : A → bool) (rows : list A) (x : A) :
  (∀ y, y ∈ rows → P y = false) → P x = true →
  first P (rows ++ [x]) = Some (length rows, x).
Proof.
  intros Hnone Hx. unfold first. apply list_find_Some. split_and!.
  - by rewrite lookup_app_r, Nat.sub_diag.
  - done.
  - intros j y Hj Hlt. rewrite lookup_app_l in Hj by done.
    rewrite (Hnone y) by (by eapply list_elem_of_lookup_2). done.
Qed.

(** X18: a generated plan is the caller's one active plan. When the AI
    service returns a plan, [generate_study_plan] leaves, whatever it then
    returns, a table in which the caller has exactly one active plan, the new
    one: it has an id larger than every id in use, the name
    "<target exam> Preparation Plan", the schedule of the AI and completion
    0; the plans the caller had are kept and are all inactive, the plans of
    other users are as they were, percentages within 0..100 stay within
    0..100, and [get_active_study_plan] returns the new plan. When the AI
    service fails, the answer is the 500 "AI service error" and the table is
    unchanged. *)
Theorem generated_plan_is_the_active_one request ai current_user now plans outcome plans' :
  generate_study_plan request ai current_user now plans = (outcome, plans') →
  match ai (weeks_until_exam request now) with
  | inl msg =>
      outcome = inl (HTTPException 500 ("AI service error: " +:+ msg)) ∧ plans' = plans
  | inr plan_data =>
      ∃ new_plan,
        active_plans_of current_user plans' = [new_plan]
        ∧ Forall (fun p => StudyPlan.id p < StudyPlan.id new_plan) plans
        ∧ StudyPlan.plan_name new_plan
          = StudyPlanRequest.target_exam request +:+ " Preparation Plan"
        ∧ StudyPlan.weekly_schedule new_plan = PlanData.weekly_breakdown plan_data
        ∧ StudyPlan.completion_percentage new_plan = 0
        ∧ StudyPlan.id <$> plans' = (StudyPlan.id <$> plans) ++ [StudyPlan.id new_plan]
        ∧ plans_of_others current_user plans' = plans_of_others current_user plans
        ∧ (plans_wf plans → plans_wf plans')
        ∧ ∃ active,
            get_active_study_plan current_user plans' = inr active
            ∧ StudyPlanResponse.id active = StudyPlan.id new_plan
            ∧ StudyPlanResponse.is_active active = true
            ∧ StudyPlanResponse.completion_percentage active = 0
  end.
Proof.
  unfold generate_study_plan.
  destruct (ai (weeks_until_exam request now)) as [msg|plan_data].
  { by intros [= <- <-]. }
  intros [= _ <-].
  set (new_plan := StudyPlan.mk _ _ _ _ _ _ _ _ _ _ _).
  assert (is_active_plan_of current_user new_plan = true) as Hnew.
  { unfold is_active_plan_of. simpl. by rewrite Z.eqb_refl. }
  exists new_plan. split_and!; try done.
  - unfold active_plans_of. rewrite List.filter_app.
    fold (active_plans_of current_user (map (deactivate current_user) plans)).
    rewrite active_plans_of_deactivated. simpl. by rewrite Hnew.
  - apply Forall_forall. intros p Hp. apply next_id_fresh, list_elem_of_fmap. by exists p.
  - rewrite fmap_app. f_equal. rewrite <- list_fmap_compose. apply list_fmap_ext.
    intros i p _. apply deactivate_fields.
  - unfold plans_of_others. rewrite List.filter_app.
    fold (plans_of_others current_user (map (deactivate current_user) plans)).
    rewrite plans_of_others_deactivated. simpl. rewrite Z.eqb_refl. simpl.
    by rewrite app_nil_r.
  - unfold plans_wf. intros Hwf. apply Forall_app. split.
    + apply Forall_fmap. eapply Forall_impl; [exact Hwf|]. intros p Hp. simpl.
      destruct (deactivate_fields current_user p) as (_ & _ & -> & _). done.
    + constructor; [simpl; lia|constructor].
  - unfold get_active_study_plan. rewrite first_app_r;
      [|apply List_filter_none_elem, active_plans_of_deactivated|done].
    destruct (format_stored_schedule_ok (StudyPlan.weekly_schedule new_plan))
      as [entries ->].
    simpl. by eexists.
Qed.

(** The AI plan has a day with an empty list of activities: the handler
    raises, and the plan is the active one all the same. *)
Lemma generated_plan_is_the_active_one_witness :
  (generate_study_plan jamb_request (fun _ => inr plan_with_gap) 7 1000 plans_before).1
  = inl IndexError
  ∧ ∃ new_plan,
      active_plans_of 7
        (generate_study_plan jamb_request (fun _ => inr plan_with_gap) 7 1000
           plans_before).2 = [new_plan]
      ∧ Forall (fun p => StudyPlan.id p < StudyPlan.id new_plan) plans_before
      ∧ StudyPlan.plan_name new_plan = "JAMB" +:+ " Preparation Plan"
      ∧ StudyPlan.weekly_schedule new_plan = PlanData.weekly_breakdown plan_with_gap
      ∧ StudyPlan.completion_percentage new_plan = 0
      ∧ StudyPlan.id
          <$> (generate_study_plan jamb_request (fun _ => inr plan_with_gap) 7 1000
                 plans_before).2
        = (StudyPlan.id <$> plans_before) ++ [StudyPlan.id new_plan]
      ∧ plans_of_others 7
          (generate_study_plan jamb_request (fun _ => inr plan_with_gap) 7 1000
             plans_before).2
        = plans_of_others 7 plans_before
      ∧ (plans_wf plans_before →
         plans_wf (generate_study_plan jamb_request (fun _ => inr plan_with_gap) 7 1000
                     plans_before).2)
      ∧ ∃ active,
          get_active_study_plan 7
            (generate_study_plan jamb_request (fun _ => inr plan_with_gap) 7 1000
               plans_before).2 = inr active
          ∧ StudyPlanResponse.id active = StudyPlan.id new_plan
          ∧ StudyPlanResponse.is_active active = true
          ∧ StudyPlanResponse.completion_percentage active = 0.
Proof.
  split; [reflexivity|].
  apply (generated_plan_is_the_active_one jamb_request (fun _ => inr plan_with_gap) 7 1000
           plans_before (inl IndexError)).
  vm_compute. reflexivity.
Defined.

Lemma format_generated_schedule (weeks : list WeekPlan.t) :
  match format_schedule format_generated_day weeks with
  | inl e =>
      e = IndexError
      ∧ ∃ daily, daily ∈ days_of weeks ∧ DailyPlan.activities daily = Some []
  | inr entries =>
      Forall (fun daily => DailyPlan.activities daily ≠ Some []) (days_of weeks)
      ∧ Forall2 (fun daily entry => format_generated_day daily = inr entry)
          (days_of weeks) entries
  end.
Proof.
  rewrite format_schedule_days.
  pose proof (for_each_collect_inv format_generated_day (days_of weeks) []) as Hinv.
  destruct (for_each _ _ _) as [e|entries].
  - destruct Hinv as (daily & Hin & [-> Hempty]%format_generated_day_fails).
    split; [done|]. by exists daily.
  - destruct Hinv as (entries' & -> & Hall). simpl. split; [|done].
    apply Forall_forall. intros daily Hin Hempty.
    apply list_elem_of_lookup in Hin as [i Hi].
    destruct (Forall2_lookup_l _ _ _ _ _ Hall Hi) as (entry & _ & Hentry).
    assert (format_generated_day daily = inl IndexError) as Hfail
      by (by apply format_generated_day_fails).
    congruence.
Qed.

(** X19: the answer of [generate_study_plan]. When the AI service returns a
    plan, the handler raises [IndexError] exactly when some day of that plan
    has an empty list of activities, and this after the plan has been stored;
    otherwise it returns the new plan with one schedule entry per day of the
    AI plan, in order, whose activity is the day's first activity, or "study"
    where the day names none. [get_active_study_plan] then returns the same
    plan with the same entries, a missing duration being shown as 60. *)
Theorem generate_study_plan_answer request ai current_user now plans plan_data outcome
    plans' :
  ai (weeks_until_exam request now) = inr plan_data →
  generate_study_plan request ai current_user now plans = (outcome, plans') →
  length plans' = S (length plans)
  ∧ match outcome with
    | inl e =>
        e = IndexError
        ∧ ∃ daily, daily ∈ days_of (PlanData.weekly_breakdown plan_data)
                   ∧ DailyPlan.activities daily = Some []
    | inr response =>
        Forall (fun daily => DailyPlan.activities daily ≠ Some [])
          (days_of (PlanData.weekly_breakdown plan_data))
        ∧ Forall2
            (fun daily entry =>
               DailySchedule.day entry = DailyPlan.day daily
               ∧ DailySchedule.subject entry = DailyPlan.subject daily
               ∧ DailySchedule.topic entry = DailyPlan.topic daily
               ∧ DailySchedule.duration_minutes entry = DailyPlan.duration_minutes daily
               ∧ DailySchedule.activity_type entry
                 = match DailyPlan.activities daily with
                   | Some (a :: _) => a
                   | _ => "study"
                   end)
            (days_of (PlanData.weekly_breakdown plan_data))
            (StudyPlanResponse.weekly_schedule response)
        ∧ StudyPlanResponse.is_active response = true
        ∧ StudyPlanResponse.completion_percentage response = 0
        ∧ get_active_study_plan current_user plans'
          = inr (StudyPlanResponse.mk (StudyPlanResponse.id response)
                   (StudyPlanResponse.plan_name response)
                   (StudyPlanResponse.target_exam response)
                   (StudyPlanResponse.exam_date response)
                   (StudyPlanResponse.hours_per_day response)
                   (StudyPlanResponse.days_per_week response)
                   (with_default_duration <$> StudyPlanResponse.weekly_schedule response)
                   0 true (StudyPlanResponse.created_at response))
    end.
Proof.
  unfold generate_study_plan. intros -> [= <- <-].
  split. { rewrite length_app, length_map. simpl. lia. }
  pose proof (format_generated_schedule (PlanData.weekly_breakdown plan_data)) as Hformat.
  destruct (format_schedule format_generated_day (PlanData.weekly_breakdown plan_data))
    as [e|entries] eqn:Hentries; simpl; [done|].
  destruct Hformat as [Hnonempty Hall].
  split_and!; try done.
  - eapply Forall2_impl; [exact Hall|]. intros daily entry. simpl.
    unfold format_generated_day.
    destruct (DailyPlan.activities daily) as [[|a rest]|]; simpl; try done;
      by intros [= <-].
  - unfold get_active_study_plan.
    rewrite first_app_r;
      [|apply List_filter_none_elem, active_plans_of_deactivated
       |unfold is_active_plan_of; simpl; by rewrite Z.eqb_refl].
    simpl. rewrite format_schedule_days.
    rewrite (for_each_collect_ok format_stored_day _ [] (with_default_duration <$> entries)).
    + done.
    + apply Forall2_fmap_r. eapply Forall2_impl; [exact Hall|].
      intros daily entry. apply format_stored_day_generated.
Qed.

Lemma generate_study_plan_answer_witness :
  length (generate_study_plan jamb_request (fun _ => inr plan_without_gap) 7 1000
            plans_before).2 = S (length plans_before)
  ∧ match (generate_study_plan jamb_request (fun _ => inr plan_without_gap) 7 1000
             plans_before).1 with
    | inl e =>
        e = IndexError
        ∧ ∃ daily, daily ∈ days_of (PlanData.weekly_breakdown plan_without_gap)
                   ∧ DailyPlan.activities daily = Some []
    | inr response =>
        Forall (fun daily => DailyPlan.activities daily ≠ Some [])
          (days_of (PlanData.weekly_breakdown plan_without_gap))
        ∧ Forall2
            (fun daily entry =>
               DailySchedule.day entry = DailyPlan.day daily
               ∧ DailySchedule.subject entry = DailyPlan.subject daily
               ∧ DailySchedule.topic entry = DailyPlan.topic daily
               ∧ DailySchedule.duration_minutes entry = DailyPlan.duration_minutes daily
               ∧ DailySchedule.activity_type entry
                 = match DailyPlan.activities daily with
                   | Some (a :: _) => a
                   | _ => "study"
                   end)
            (days_of (PlanData.weekly_breakdown plan_without_gap))
            (StudyPlanResponse.weekly_schedule response)
        ∧ StudyPlanResponse.is_active response = true
        ∧ StudyPlanResponse.completion_percentage response = 0
        ∧ get_active_study_plan 7
            (generate_study_plan jamb_request (fun _ => inr plan_without_gap) 7 1000
               plans_before).2
          = inr (StudyPlanResponse.mk (StudyPlanResponse.id response)
                   (StudyPlanResponse.plan_name response)
                   (StudyPlanResponse.target_exam response)
                   (StudyPlanResponse.exam_date response)
                   (StudyPlanResponse.hours_per_day response)
                   (StudyPlanResponse.days_per_week response)
                   (with_default_duration <$> StudyPlanResponse.weekly_schedule response)
                   0 true (StudyPlanResponse.created_at response))
    end.
Proof.
  apply (generate_study_plan_answer jamb_request (fun _ => inr plan_without_gap) 7 1000
           plans_before plan_without_gap).
  - reflexivity.
  - vm_compute. reflexivity.
Defined.

(** X20: progress of a plan. [update_plan_progress] stores the submitted
    percentage cut to the range 0..100 (so a value in the range is stored as
    it is, a negative one as 0, one above 100 as 100) in the caller's plan of
    that id, where the next lookup finds it, and returns the stored value; no
    other plan changes, no plan is added, removed, activated or deactivated,
    and percentages that were within 0..100 stay so. A caller who has no plan
    of that id gets the 404 "Study plan not found" and nothing changes. *)
Theorem plan_progress_is_clamped plan_id completion_percentage current_user plans
    outcome plans' :
  update_plan_progress plan_id completion_percentage current_user plans
  = (outcome, plans') →
  (plans_wf plans → plans_wf plans')
  ∧ StudyPlan.id <$> plans' = StudyPlan.id <$> plans
  ∧ StudyPlan.is_active <$> plans' = StudyPlan.is_active <$> plans
  ∧ (∀ j p, plans !! j = Some p →
            StudyPlan.id p ≠ plan_id ∨ StudyPlan.user_id p ≠ current_user →
            plans' !! j = Some p)
  ∧ match outcome with
    | inr stored =>
        0 ≤ stored ≤ 100
        ∧ (0 ≤ completion_percentage ≤ 100 → stored = completion_percentage)
        ∧ (completion_percentage < 0 → stored = 0)
        ∧ (100 < completion_percentage → stored = 100)
        ∧ ∃ i plan,
            first (is_plan_of plan_id current_user) plans' = Some (i, plan)
            ∧ StudyPlan.completion_percentage plan = stored
    | inl e =>
        e = HTTPException 404 "Study plan not found"
        ∧ plans' = plans
        ∧ Forall (fun p => StudyPlan.id p = plan_id → StudyPlan.user_id p ≠ current_user)
            plans
    end.
Proof.
  unfold update_plan_progress.
  destruct (first _ plans) as [[i plan]|] eqn:Hfind.
  - intros [= <- <-].
    destruct (first_lookup _ _ _ _ Hfind) as [Hi Hmine].
    pose proof Hmine as Hmine'.
    unfold is_plan_of in Hmine'.
    apply andb_true_iff in Hmine' as [Hid%Z.eqb_eq Hu%Z.eqb_eq].
    split_and!.
    + unfold plans_wf. intros Hwf. apply Forall_insert; [done|]. simpl. lia.
    + rewrite list_fmap_insert. simpl. by rewrite list_insert_id by (by rewrite list_lookup_fmap, Hi).
    + rewrite list_fmap_insert. simpl. by rewrite list_insert_id by (by rewrite list_lookup_fmap, Hi).
    + intros j p Hj Hother.
      destruct (decide (i = j)) as [<-|Hne]; [|by rewrite list_lookup_insert_ne].
      rewrite Hi in Hj. injection Hj as <-. tauto.
    + cbn [set_completion StudyPlan.completion_percentage].
      split_and!; [lia|lia|lia|lia|lia|].
      exists i, (set_completion (Z.min 100 (Z.max 0 completion_percentage)) plan).
      split; [|reflexivity].
      eapply first_insert_same; [exact Hfind|exact Hmine].
  - intros [= <- <-]. split_and!; try done.
    unfold raise. split_and!; try done.
    apply Forall_forall. intros p Hp Hid Hu.
    pose proof (proj1 (first_None _ _) Hfind p Hp) as Hp'.
    unfold is_plan_of in Hp'. by rewrite Hid, Hu, !Z.eqb_refl in Hp'.
Qed.

(** User 7 reports 140 percent on plan 1. *)
Lemma plan_progress_is_clamped_witness :
  (plans_wf plans_before → plans_wf (update_plan_progress 1 140 7 plans_before).2)
  ∧ StudyPlan.id <$> (update_plan_progress 1 140 7 plans_before).2
    = StudyPlan.id <$> plans_before
  ∧ StudyPlan.is_active <$> (update_plan_progress 1 140 7 plans_before).2
    = StudyPlan.is_active <$> plans_before
  ∧ (∀ j p, plans_before !! j = Some p →
            StudyPlan.id p ≠ 1 ∨ StudyPlan.user_id p ≠ 7 →
            (update_plan_progress 1 140 7 plans_before).2 !! j = Some p)
  ∧ (0 ≤ 100 ≤ 100
     ∧ (0 ≤ 140 ≤ 100 → 100 = 140)
     ∧ (140 < 0 → 100 = 0)
     ∧ (100 < 140 → 100 = 100)
     ∧ ∃ i plan,
         first (is_plan_of 1 7) (update_plan_progress 1 140 7 plans_before).2
         = Some (i, plan)
         ∧ StudyPlan.completion_percentage plan = 100).
Proof.
  apply (plan_progress_is_clamped 1 140 7 plans_before (inr 100)).
  vm_compute. reflexivity.
Defined.

(** X21: the number of weeks given to the AI service is never less than 1;
    it is 12 when the request has no exam date, 1 when the exam is less than
    two weeks away or already past, and otherwise the number of whole weeks
    from [now] to the exam date. *)
Theorem weeks_until_exam_bounds (request : StudyPlanRequest.t) (now : Z) :
  1 ≤ weeks_until_exam request now
  ∧ match StudyPlanRequest.exam_date request with
    | None => weeks_until_exam request now = 12
    | Some exam_date =>
        (exam_date - now < 14 * 86400 → weeks_until_exam request now = 1)
        ∧ (14 * 86400 ≤ exam_date - now →
           7 * 86400 * weeks_until_exam request now ≤ exam_date - now
           ∧ exam_date - now < 7 * 86400 * (weeks_until_exam request now + 1))
    end.
Proof.
  unfold weeks_until_exam.
  destruct (StudyPlanRequest.exam_date request) as [exam_date|]; [|lia].
  rewrite Z.div_div by lia. change (86400 * 7) with 604800.
  pose proof (Z.div_mod (exam_date - now) 604800 ltac:(lia)) as Hdiv.
  pose proof (Z.mod_pos_bound (exam_date - now) 604800 ltac:(lia)) as Hmod.
  split_and!; lia.
Qed.

(** ** Parents and children *)

Lemma link_child_cases child_email current_user users :
  let result := Family.link_child_to_parent child_email current_user users in
  (result.2 = users
   ∧ match result.1 with
     | inr r =>
         ∃ i child, users !! i = Some child
                    ∧ Family.User.email child = child_email
                    ∧ Family.User.role child = STUDENT
                    ∧ Family.User.parent_id child = Some current_user
                    ∧ Family.LinkChildResponse.child_id r = Family.User.id child
     | inl _ => True
     end)
  ∨ (∃ i child r,
       users !! i = Some child
       ∧ Family.User.email child = child_email
       ∧ Family.User.role child = STUDENT
       ∧ Family.User.parent_id child = None
       ∧ result = (inr r, <[i := Family.set_parent current_user child]> users)
       ∧ Family.LinkChildResponse.child_id r = Family.User.id child).
Proof.
  unfold Family.link_child_to_parent.
  destruct (first _ users) as [[i child]|] eqn:Hfind; simpl; [|by left].
  destruct (first_lookup _ _ _ _ Hfind) as [Hi Hemail%String.eqb_eq].
  case_bool_decide as Hrole; simpl; [|by left].
  destruct (Family.User.parent_id child) as [parent|] eqn:Hparent.
  - destruct (Z.eqb_spec parent current_user) as [->|Hne]; simpl; [|by left].
    left. split; [done|]. by exists i, child.
  - right. by eexists i, child, _.
Qed.

Lemma link_child_effect child_email current_user users outcome users' :
  Family.link_child_to_parent child_email current_user users = (outcome, users') →
  Family.User.id <$> users' = Family.User.id <$> users
  ∧ Family.User.email <$> users' = Family.User.email <$> users
  ∧ Family.User.role <$> users' = Family.User.role <$> users
  ∧ (∀ j u, users !! j = Some u → is_Some (Family.User.parent_id u) →
            users' !! j = Some u)
  ∧ (∀ j u, users !! j = Some u → users' !! j ≠ Some u →
            Family.User.email u = child_email
            ∧ Family.User.role u = STUDENT
            ∧ users' !! j = Some (Family.set_parent current_user u))
  ∧ (∀ r, outcome = inr r →
          ∃ child, child ∈ Family.children_of current_user users'
                   ∧ Family.User.id child = Family.LinkChildResponse.child_id r
                   ∧ Family.User.email child = child_email
                   ∧ Family.User.role child = STUDENT).
Proof.
  intros Hlink.
  destruct (link_child_cases child_email current_user users) as [[Hsame Hout]|Hnew];
    rewrite Hlink in *; simpl in *.
  - subst users'. split_and!; try done.
    intros r ->. destruct Hout as (i & child & Hi & Hemail & Hrole & Hparent & Hid).
    exists child. split_and!; try done.
    unfold Family.children_of. apply list_elem_of_In, List.filter_In.
    split; [by eapply list_elem_of_In, list_elem_of_lookup_2|].
    by apply bool_decide_eq_true.
  - destruct Hnew as (i & child & r & Hi & Hemail & Hrole & Hparent & [= -> ->] & Hid).
    split_and!.
    + rewrite list_fmap_insert. simpl.
      by rewrite list_insert_id by (by rewrite list_lookup_fmap, Hi).
    + rewrite list_fmap_insert. simpl.
      by rewrite list_insert_id by (by rewrite list_lookup_fmap, Hi).
    + rewrite list_fmap_insert. simpl.
      by rewrite list_insert_id by (by rewrite list_lookup_fmap, Hi).
    + intros j u Hj [parent Hp].
      destruct (decide (i = j)) as [<-|Hne]; [|by rewrite list_lookup_insert_ne].
      congruence.
    + intros j u Hj Hchanged.
      destruct (decide (i = j)) as [<-|Hne].
      * rewrite Hi in Hj. injection Hj as <-. split_and!; try done.
        apply list_lookup_insert_eq. by eapply lookup_lt_Some.
      * by rewrite list_lookup_insert_ne in Hchanged.
    + intros r' [= <-]. exists (Family.set_parent current_user child).
      split_and!; try done.
      unfold Family.children_of. apply list_elem_of_In, List.filter_In. split.
      * eapply list_elem_of_In, list_elem_of_lookup_2, list_lookup_insert_eq.
        by eapply lookup_lt_Some.
      * by apply bool_decide_eq_true.
Qed.

(** X22: a link between child and parent is permanent. Whatever its
    outcome, [link_child_to_parent] changes no id, email or role and no
    row that already has a parent: a child once linked stays linked to the
    same parent, whoever asks. The only row that can change is the student
    account with the requested email, and only from no parent to the caller.
    When the request succeeds the account with the returned [child_id] is a
    student with that email, linked to the caller, and listed among the
    caller's children. *)
Theorem parent_link_is_permanent child_email current_user users outcome users' :
  Family.link_child_to_parent child_email current_user users = (outcome, users') →
  Family.User.id <$> users' = Family.User.id <$> users
  ∧ Family.User.email <$> users' = Family.User.email <$> users
  ∧ Family.User.role <$> users' = Family.User.role <$> users
  ∧ (∀ j u, users !! j = Some u → is_Some (Family.User.parent_id u) →
            users' !! j = Some u)
  ∧ (∀ j u, users !! j = Some u → users' !! j ≠ Some u →
            Family.User.email u = child_email
            ∧ Family.User.role u = STUDENT
            ∧ users' !! j = Some (Family.set_parent current_user u))
  ∧ (∀ r, outcome = inr r →
          ∃ child, child ∈ Family.children_of current_user users'
                   ∧ Family.User.id child = Family.LinkChildResponse.child_id r
                   ∧ Family.User.email child = child_email
                   ∧ Family.User.role child = STUDENT).
Proof. apply link_child_effect. Qed.

Lemma parent_link_is_permanent_witness :
  Family.User.id <$> (Family.link_child_to_parent "ada@example.com" 2 Family.family).2
  = Family.User.id <$> Family.family
  ∧ Family.User.email <$> (Family.link_child_to_parent "ada@example.com" 2 Family.family).2
    = Family.User.email <$> Family.family
  ∧ Family.User.role <$> (Family.link_child_to_parent "ada@example.com" 2 Family.family).2
    = Family.User.role <$> Family.family
  ∧ (∀ j u, Family.family !! j = Some u → is_Some (Family.User.parent_id u) →
            (Family.link_child_to_parent "ada@example.com" 2 Family.family).2 !! j = Some u)
  ∧ (∀ j u, Family.family !! j = Some u →
            (Family.link_child_to_parent "ada@example.com" 2 Family.family).2 !! j ≠ Some u →
            Family.User.email u = "ada@example.com"
            ∧ Family.User.role u = STUDENT
            ∧ (Family.link_child_to_parent "ada@example.com" 2 Family.family).2 !! j
              = Some (Family.set_parent 2 u))
  ∧ (∀ r, inr (Family.LinkChildResponse.mk "Child linked successfully" 1 "Ada")
          = @inr Error _ r →
          ∃ child,
            child ∈ Family.children_of 2
                      (Family.link_child_to_parent "ada@example.com" 2 Family.family).2
            ∧ Family.User.id child = Family.LinkChildResponse.child_id r
            ∧ Family.User.email child = "ada@example.com"
            ∧ Family.User.role child = STUDENT).
Proof.
  apply (parent_link_is_permanent "ada@example.com" 2 Family.family).
  vm_compute. reflexivity.
Defined.

Lemma NoDup_fmap_lookup {A B} (f : A → B) (l : list A) i j x y :
  NoDup (f <$> l) → l !! i = Some x → l !! j = Some y → f x = f y → i = j.
Proof.
  intros Hnodup Hi Hj Hf.
  apply (NoDup_lookup _ i j (f x) Hnodup); rewrite list_lookup_fmap.
  - by rewrite Hi.
  - by rewrite Hj, Hf.
Qed.

(** X23: the report on a child is for the linked parent only. After a
    successful [link_child_to_parent] on accounts with pairwise distinct ids,
    [get_child_detailed_report] for the returned [child_id] answers the
    caller, with the child's number of solved questions and the length of
    the child's exam history, and answers every other account with the 404
    "Child not found or not linked to your account". In general a report is
    returned only for an account whose [parent_id] is the caller. *)
Theorem child_report_is_for_the_parent child_email current_user users r users' db :
  NoDup (Family.User.id <$> users) →
  Family.link_child_to_parent child_email current_user users = (inr r, users') →
  (∃ summary,
     Family.get_child_detailed_report (Family.LinkChildResponse.child_id r) current_user
       users' db = inr summary
     ∧ Family.ChildSummary.total_questions summary
       = total_questions_solved (Family.LinkChildResponse.child_id r) db
     ∧ Family.ChildSummary.total_exams summary
       = Py.len (get_exam_history None (Family.LinkChildResponse.child_id r) db))
  ∧ (∀ other, other ≠ current_user →
       Family.get_child_detailed_report (Family.LinkChildResponse.child_id r) other
         users' db
       = inl (HTTPException 404 "Child not found or not linked to your account"))
  ∧ (∀ child_id caller summary,
       Family.get_child_detailed_report child_id caller users' db = inr summary →
       ∃ child, child ∈ users'
                ∧ Family.User.id child = child_id
                ∧ Family.User.parent_id child = Some caller).
Proof.
  intros Hnodup Hlink.
  destruct (link_child_effect _ _ _ _ _ Hlink) as (Hids & _ & _ & _ & _ & Hchild).
  destruct (Hchild r eq_refl) as (child & Hin & Hid & _ & _).
  unfold Family.children_of in Hin.
  apply list_elem_of_In, List.filter_In in Hin as [Hin%list_elem_of_In Hparent].
  apply bool_decide_eq_true in Hparent.
  apply list_elem_of_lookup in Hin as [k Hk].
  rewrite <- Hids in Hnodup.
  assert (∀ caller i x,
            first (Family.is_child_of (Family.LinkChildResponse.child_id r) caller) users'
            = Some (i, x) → x = child ∧ caller = current_user) as Honly.
  { intros caller i x [Hi Hx]%first_lookup.
    unfold Family.is_child_of in Hx.
    apply andb_true_iff in Hx as [Hxid%Z.eqb_eq Hxp%bool_decide_eq_true].
    assert (i = k) as -> by (eapply (NoDup_fmap_lookup Family.User.id); [done..|congruence]).
    assert (x = child) as -> by congruence. split; [done|congruence]. }
  split_and!.
  - unfold Family.get_child_detailed_report.
    destruct (first _ users') as [[i x]|] eqn:Hfind.
    + destruct (Honly _ _ _ Hfind) as [-> _]. eexists. split; [done|]. simpl.
      rewrite Hid. split; [done|].
      apply total_exams_taken_history.
    + pose proof (proj1 (first_None _ _) Hfind child (list_elem_of_lookup_2 _ _ _ Hk)) as Hno.
      unfold Family.is_child_of in Hno.
      rewrite Hid, Z.eqb_refl, bool_decide_eq_true_2 in Hno by done. done.
  - intros other Hother. unfold Family.get_child_detailed_report.
    destruct (first _ users') as [[i x]|] eqn:Hfind; [|done].
    destruct (Honly _ _ _ Hfind) as [_ ?]. done.
  - intros child_id caller summary. unfold Family.get_child_detailed_report.
    destruct (first _ users') as [[i x]|] eqn:Hfind; [|done].
    intros _. apply first_lookup in Hfind as [Hi Hx].
    unfold Family.is_child_of in Hx.
    apply andb_true_iff in Hx as [Hxid%Z.eqb_eq Hxp%bool_decide_eq_true].
    exists x. split; [by eapply list_elem_of_lookup_2|done].
Qed.

Lemma child_report_is_for_the_parent_witness :
  (∃ summary,
     Family.get_child_detailed_report 1 2
       (Family.link_child_to_parent "ada@example.com" 2 Family.family).2 db_practised
     = inr summary
     ∧ Family.ChildSummary.total_questions summary = total_questions_solved 1 db_practised
     ∧ Family.ChildSummary.total_exams summary
       = Py.len (get_exam_history None 1 db_practised))
  ∧ (∀ other, other ≠ 2 →
       Family.get_child_detailed_report 1 other
         (Family.link_child_to_parent "ada@example.com" 2 Family.family).2 db_practised
       = inl (HTTPException 404 "Child not found or not linked to your account"))
  ∧ (∀ child_id caller summary,
       Family.get_child_detailed_report child_id caller
         (Family.link_child_to_parent "ada@example.com" 2 Family.family).2 db_practised
       = inr summary →
       ∃ child,
         child ∈ (Family.link_child_to_parent "ada@example.com" 2 Family.family).2
         ∧ Family.User.id child = child_id
         ∧ Family.User.parent_id child = Some caller).
Proof.
  apply (child_report_is_for_the_parent "ada@example.com" 2 Family.family
           (Family.LinkChildResponse.mk "Child linked successfully" 1 "Ada")).
  - apply (bool_decide_unpack (NoDup (Family.User.id <$> Family.family))).
    vm_compute. exact I.
  - vm_compute. reflexivity.
Defined.

(** ** The question bank *)

Lemma same_question_true exam_type subject year n pq :
  same_question exam_type subject year n pq = true
  ↔ paper_of pq = (exam_type, subject, year) ∧ PastQuestion.question_number pq = n.
Proof.
  unfold same_question, paper_of.
  rewrite !andb_true_iff, !String.eqb_eq, Z.eqb_eq. split.
  - intros [[[-> ->] ->] ->]. done.
  - intros [[= -> -> ->] ->]. done.
Qed.

(** [process_pdf] numbers the pages from 1 and names the source after the
    paper. *)
Lemma process_pdf_processed available images exam_type subject year questions_data :
  process_pdf available images exam_type subject year = inr questions_data →
  ∃ pages, images = inr pages
           ∧ Forall (processed exam_type subject year (length pages)) questions_data.
Proof.
  unfold process_pdf. destruct available; simpl; [|done].
  destruct images as [msg|pages]; [done|]. intros [= <-].
  exists pages. split; [done|].
  apply Forall_concat, Forall_forall.
  intros l (i & page & -> & Hi)%elem_of_lookup_imap.
  destruct page as [questions|]; simpl; [|constructor].
  apply Forall_fmap, Forall_forall. intros q _. split; simpl; [done|].
  apply lookup_lt_Some in Hi. lia.
Qed.

(** One turn of the saving loop on an answered question: it fails exactly
    when one of the three indexed keys is missing, and otherwise updates the
    row found or appends a new one. *)
Lemma save_question_step autoflush committed exam_type subject year rows saved q_data :
  has_answer q_data = true →
  match save_question autoflush committed exam_type subject year (rows, saved) q_data with
  | inl e => ¬ complete q_data ∧ ∃ key, e = processing_error ("'" +:+ key +:+ "'")
  | inr st =>
      complete q_data
      ∧ ∃ n question_text options,
          QuestionData.question_number q_data = Some n
          ∧ ((∃ i existing,
                first (same_question exam_type subject year n)
                  (if autoflush then rows else take committed rows) = Some (i, existing)
                ∧ st = (<[i := update_existing existing q_data question_text options]> rows,
                        saved ++ [i]))
             ∨ (first (same_question exam_type subject year n)
                  (if autoflush then rows else take committed rows) = None
                ∧ st = (rows ++ [new_past_question (next_id (map PastQuestion.id rows))
                                   exam_type subject year q_data n question_text options],
                        saved ++ [length rows])))
  end.
Proof.
  unfold has_answer, save_question, complete. intros ->. simpl.
  destruct (QuestionData.question_number q_data) as [n|]; simpl.
  2:{ split; [by intros [[? ?] _]|by eexists]. }
  destruct (first _ _) as [[i existing]|] eqn:Hfind;
    (destruct (QuestionData.question_text q_data) as [question_text|]; simpl;
     [|split; [by intros (_ & [? ?] & _)|by eexists]]);
    (destruct (QuestionData.options q_data) as [options|]; simpl;
     [|split; [by intros (_ & _ & [? ?])|by eexists]]);
    (split; [by split_and!; eexists|]);
    exists n, question_text, options; (split; [done|]).
  - left. by exists i, existing.
  - by right.
Qed.

Lemma save_question_skip autoflush committed exam_type subject year st q_data :
  has_answer q_data = false →
  save_question autoflush committed exam_type subject year st q_data = inr st.
Proof. unfold has_answer, save_question. by intros ->. Qed.

Lemma first_visible {A} (P : A → bool) (autoflush : bool) (committed : nat)
    (rows : list A) i x :
  first P (if autoflush then rows else take committed rows) = Some (i, x) →
  rows !! i = Some x ∧ P x = true ∧ (autoflush = false → (i < committed)%nat).
Proof.
  intros [Hi Hx]%first_lookup. destruct autoflush.
  - done.
  - apply lookup_take_Some in Hi as [Hi Hlt]. done.
Qed.

Lemma uploaded_update exam_type subject year pages existing q_data question_text options :
  paper_of existing = (exam_type, subject, year) →
  has_answer q_data = true →
  processed exam_type subject year pages q_data →
  uploaded exam_type subject year pages
    (update_existing existing q_data question_text options).
Proof.
  intros Hpaper Hanswer [Hsource Hpage]. unfold uploaded.
  split_and!; [done|done|simpl; by rewrite Hsource|by eexists].
Qed.

Lemma uploaded_new id exam_type subject year pages q_data n question_text options :
  has_answer q_data = true →
  processed exam_type subject year pages q_data →
  uploaded exam_type subject year pages
    (new_past_question id exam_type subject year q_data n question_text options).
Proof.
  intros Hanswer [Hsource Hpage]. unfold uploaded.
  split_and!; [done|done|simpl; by rewrite Hsource|by eexists].
Qed.

Lemma saving_step rows0 autoflush committed exam_type subject year pages st q_data st' :
  saving rows0 exam_type subject year pages st →
  processed exam_type subject year pages q_data →
  has_answer q_data = true →
  save_question autoflush committed exam_type subject year st q_data = inr st' →
  saving rows0 exam_type subject year pages st' ∧ length st'.2 = S (length st.2).
Proof.
  destruct st as [rows saved]. intros (Hlen & Hold & Hnew & Hsaved) Hq Hanswer Hstep.
  pose proof (save_question_step autoflush committed exam_type subject year rows saved
                q_data Hanswer) as Hcases.
  rewrite Hstep in Hcases.
  destruct Hcases as (_ & n & question_text & options & Hn & [Hupdate|Hcreate]).
  - destruct Hupdate as (i & existing & Hfind & ->).
    apply first_visible in Hfind as (Hi & [Hpaper Hnumber]%same_question_true & _).
    pose proof (uploaded_update _ _ _ _ existing q_data question_text options
                  Hpaper Hanswer Hq) as Hup.
    unfold saving. simpl in *. split; [|rewrite length_app; simpl; lia]. split_and!.
    + by rewrite length_insert.
    + intros j p Hj. destruct (Hold j p Hj) as (p' & Hj' & Hid & Hpp & Hnum & Hsame).
      destruct (decide (i = j)) as [<-|Hne].
      * eexists. split; [apply list_lookup_insert_eq; by eapply lookup_lt_Some|].
        assert (p' = existing) as -> by congruence.
        split_and!; try done. intros Hother. congruence.
      * exists p'. by rewrite list_lookup_insert_ne.
    + intros j p' Hj Hge. destruct (decide (i = j)) as [<-|Hne].
      * rewrite list_lookup_insert_eq in Hj by (by eapply lookup_lt_Some). congruence.
      * rewrite list_lookup_insert_ne in Hj by done. by apply (Hnew j).
    + apply Forall_app. split.
      * eapply Forall_impl; [exact Hsaved|]. intros j (p' & Hj & Hp').
        destruct (decide (i = j)) as [<-|Hne].
        -- eexists. split; [apply list_lookup_insert_eq; by eapply lookup_lt_Some|done].
        -- exists p'. by rewrite list_lookup_insert_ne.
      * constructor; [|constructor].
        eexists. split; [apply list_lookup_insert_eq; by eapply lookup_lt_Some|done].
  - destruct Hcreate as [_ ->].
    pose proof (uploaded_new (next_id (map PastQuestion.id rows)) _ _ _ _ q_data n
                  question_text options Hanswer Hq) as Hup.
    unfold saving. simpl in *. split; [|rewrite length_app; simpl; lia]. split_and!.
    + rewrite length_app. lia.
    + intros j p Hj. destruct (Hold j p Hj) as (p' & Hj' & Hrest).
      exists p'. split; [|done]. by apply lookup_app_l_Some.
    + intros j p' Hj Hge. apply lookup_app_Some in Hj as [Hj|[_ Hj]].
      * by apply (Hnew j).
      * apply list_lookup_singleton_Some in Hj as [_ <-]. done.
    + apply Forall_app. split.
      * eapply Forall_impl; [exact Hsaved|]. intros j (p' & Hj & Hp').
        exists p'. split; [by apply lookup_app_l_Some|done].
      * constructor; [|constructor].
        eexists. split; [|exact Hup]. by rewrite lookup_app_r, Nat.sub_diag.
Qed.

(** The saving loop over answered questions: it fails exactly when one of
    them lacks an indexed key, and otherwise keeps [saving] and saves one
    position per question. *)
Lemma saving_loop rows0 autoflush committed exam_type subject year pages :
  ∀ valid_questions st,
    saving rows0 exam_type subject year pages st →
    Forall (processed exam_type subject year pages) valid_questions →
    Forall (fun q => has_answer q = true) valid_questions →
    match for_each (save_question autoflush committed exam_type subject year)
            valid_questions st with
    | inl e =>
        ¬ Forall complete valid_questions
        ∧ ∃ key, e = processing_error ("'" +:+ key +:+ "'")
    | inr st' =>
        Forall complete valid_questions
        ∧ saving rows0 exam_type subject year pages st'
        ∧ length st'.2 = (length st.2 + length valid_questions)%nat
    end.
Proof.
  induction valid_questions as [|q qs IH]; intros st Hst Hqs Hanswers; simpl.
  { split_and!; [constructor|done|lia]. }
  apply Forall_cons in Hqs as [Hq Hqs]. apply Forall_cons in Hanswers as [Hanswer Hanswers].
  pose proof (save_question_step autoflush committed exam_type subject year st.1 st.2 q
                Hanswer) as Hcases.
  rewrite <- surjective_pairing in Hcases.
  destruct (save_question _ _ _ _ _ st q) as [e|st1] eqn:Hstep; simpl.
  - destruct Hcases as [Hincomplete Hkey]. split; [|done].
    by intros [? _]%Forall_cons.
  - destruct Hcases as [Hcomplete _].
    destruct (saving_step _ _ _ _ _ _ _ _ _ _ Hst Hq Hanswer Hstep) as [Hst1 Hlen1].
    specialize (IH st1 Hst1 Hqs Hanswers).
    destruct (for_each _ qs st1) as [e|st'].
    + destruct IH as [Hincomplete Hkey]. split; [|done].
      by intros [_ ?]%Forall_cons.
    + destruct IH as (Hall & Hst' & Hlen). split_and!; [by constructor|done|lia].
Qed.

Lemma saving_start rows0 exam_type subject year pages :
  saving rows0 exam_type subject year pages (rows0, []).
Proof.
  split_and!; simpl.
  - done.
  - intros i p Hi. by exists p.
  - intros i p' Hi Hge. apply lookup_lt_Some in Hi. lia.
  - constructor.
Qed.

Lemma saved_rows (rows : list PastQuestion.t) (Q : PastQuestion.t → Prop) (saved : list nat) :
  Forall (fun i => ∃ p', rows !! i = Some p' ∧ Q p') saved →
  length (omap (fun i => rows !! i) saved) = length saved
  ∧ Forall (fun pq => pq ∈ rows ∧ Q pq) (omap (fun i => rows !! i) saved).
Proof.
  induction 1 as [|i saved (p' & Hi & Hp') _ [IHlen IHall]]; [done|].
  cbn [omap list_omap]. rewrite Hi. cbn [length]. split; [by rewrite IHlen|].
  constructor; [|done]. split; [by eapply list_elem_of_lookup_2|done].
Qed.

(** X24: how an upload ends. [upload_past_questions] succeeds exactly when
    the file name ends in ".pdf", the PDF is converted, at least one
    extracted question has a non-empty answer, and every such question has
    its number, text and options; it then returns one row per answered
    question. Otherwise the store is left as it was, and the status is 400
    only for a file name that does not end in ".pdf" and for a PDF that
    cannot be converted (with the converter's message as detail): a paper
    from which no question, or no answered question, is extracted is
    answered with status 500, like a question that lacks an indexed key,
    because the 400s raised for them are caught by the handler's own
    [except Exception]. *)
Theorem upload_outcomes (HTTPException_str : Z → string → string)
    (autoflush available : bool) (filename : string)
    (images : string + list (option (list ExtractedQuestion.t)))
    (exam_type subject year : string) (db : DB) :
  match upload_past_questions HTTPException_str autoflush available filename images
          exam_type subject year db with
  | (inr saved_questions, _) =>
      endswith filename ".pdf" = true
      ∧ ∃ questions_data,
          process_pdf available images exam_type subject year = inr questions_data
          ∧ List.filter has_answer questions_data ≠ []
          ∧ Forall complete (List.filter has_answer questions_data)
          ∧ length saved_questions = length (List.filter has_answer questions_data)
  | (inl e, db') =>
      db' = db
      ∧ ∃ status_code detail,
          e = HTTPException status_code detail
          ∧ ((status_code = 400
              ∧ (endswith filename ".pdf" = false
                 ∨ process_pdf available images exam_type subject year = inl detail))
             ∨ (status_code = 500
                ∧ endswith filename ".pdf" = true
                ∧ ∃ questions_data,
                    process_pdf available images exam_type subject year
                    = inr questions_data
                    ∧ (List.filter has_answer questions_data = []
                       ∨ ¬ Forall complete (List.filter has_answer questions_data))))
  end.
Proof.
  unfold upload_past_questions.
  destruct (endswith filename ".pdf") eqn:Hname; cbn [negb].
  2:{ split; [done|]. eexists _, _. split; [done|]. left. by split; [|left]. }
  destruct (process_pdf available images exam_type subject year)
    as [msg|questions_data] eqn:Hprocess.
  { split; [done|]. eexists _, _. split; [done|]. left. by split; [|right]. }
  destruct (process_pdf_processed _ _ _ _ _ _ Hprocess) as (pages & -> & Hprocessed).
  destruct questions_data as [|q0 questions_data].
  { split; [done|]. eexists _, _. split; [done|]. right. split_and!; try done.
    exists []. by split; [|left]. }
  destruct (List.filter has_answer (q0 :: questions_data)) as [|q valid] eqn:Hvalid.
  { split; [done|]. eexists _, _. split; [done|]. right. split_and!; try done.
    exists (q0 :: questions_data). split; [done|]. left. done. }
  assert (Forall (processed exam_type subject year (length pages)) (q :: valid)
          ∧ Forall (fun q => has_answer q = true) (q :: valid)) as [Hp Ha].
  { rewrite <- Hvalid. split; apply Forall_forall; intros x Hx;
      apply list_elem_of_In, List.filter_In in Hx as [Hx%list_elem_of_In Hax]; [|done].
    rewrite Forall_forall in Hprocessed. by apply Hprocessed. }
  pose proof (saving_loop (past_questions db) autoflush (length (past_questions db))
                exam_type subject year (length pages) (q :: valid) (past_questions db, [])
                (saving_start _ _ _ _ _) Hp Ha) as Hloop.
  destruct (for_each _ (q :: valid) _) as [e|st].
  - destruct Hloop as [Hincomplete [key ->]]. split; [done|].
    eexists _, _. split; [done|]. right. split_and!; try done.
    exists (q0 :: questions_data). split; [done|]. right. by rewrite Hvalid.
  - destruct Hloop as (Hcomplete & (_ & _ & _ & Hsaved) & Hlen). split; [done|].
    exists (q0 :: questions_data). rewrite Hvalid. split_and!; try done.
    destruct (saved_rows _ _ _ Hsaved) as [-> _]. by rewrite Hlen.
Qed.

Lemma upload_success (HTTPException_str : Z → string → string)
    (autoflush available : bool) (filename : string)
    (images : string + list (option (list ExtractedQuestion.t)))
    (exam_type subject year : string) (db : DB) saved_questions db' :
  upload_past_questions HTTPException_str autoflush available filename images
    exam_type subject year db = (inr saved_questions, db') →
  ∃ pages,
    images = inr pages
    ∧ saved_questions ≠ []
    ∧ Forall (fun pq => pq ∈ past_questions db'
                        ∧ uploaded exam_type subject year (length pages) pq)
        saved_questions
    ∧ (∀ i p, past_questions db !! i = Some p →
         ∃ p', past_questions db' !! i = Some p'
               ∧ PastQuestion.id p' = PastQuestion.id p
               ∧ paper_of p' = paper_of p
               ∧ PastQuestion.question_number p' = PastQuestion.question_number p
               ∧ (paper_of p ≠ (exam_type, subject, year) → p' = p))
    ∧ (∀ i p', past_questions db' !! i = Some p' →
         (length (past_questions db) ≤ i)%nat →
         uploaded exam_type subject year (length pages) p')
    ∧ users db' = users db
    ∧ user_subjects db' = user_subjects db
    ∧ question_history db' = question_history db
    ∧ exam_attempts db' = exam_attempts db.
Proof.
  unfold upload_past_questions.
  destruct (endswith filename ".pdf"); cbn [negb]; [|done].
  destruct (process_pdf available images exam_type subject year)
    as [msg|questions_data] eqn:Hprocess; [done|].
  destruct (process_pdf_processed _ _ _ _ _ _ Hprocess) as (pages & -> & Hprocessed).
  destruct questions_data as [|q0 questions_data]; [done|].
  destruct (List.filter has_answer (q0 :: questions_data)) as [|q valid] eqn:Hvalid; [done|].
  assert (Forall (processed exam_type subject year (length pages)) (q :: valid)
          ∧ Forall (fun q => has_answer q = true) (q :: valid)) as [Hp Ha].
  { rewrite <- Hvalid. split; apply Forall_forall; intros x Hx;
      apply list_elem_of_In, List.filter_In in Hx as [Hx%list_elem_of_In Hax]; [|done].
    rewrite Forall_forall in Hprocessed. by apply Hprocessed. }
  pose proof (saving_loop (past_questions db) autoflush (length (past_questions db))
                exam_type subject year (length pages) (q :: valid) (past_questions db, [])
                (saving_start _ _ _ _ _) Hp Ha) as Hloop.
  destruct (for_each _ (q :: valid) _) as [e|st]; [done|].
  intros [= <- <-]. simpl.
  destruct Hloop as (_ & (_ & Hold & Hnew & Hsaved) & Hlen).
  destruct (saved_rows _ _ _ Hsaved) as [Hlength Hall].
  exists pages. split_and!; try done.
  intros Hnil. rewrite Hnil, Hlen in Hlength. simpl in Hlength. lia.
Qed.


(** X25: what a successful upload writes. Every returned row is in the bank
    and belongs to the paper of the form, has a non-empty answer, the page
    number of its page (from 1) and, as [source_pdf], the name made up from
    the paper, whatever the name of the uploaded file. Every row the bank had
    keeps its place, id, paper and question number, the rows of other papers
    are unchanged, and the rows added after them are rows of this upload.
    Users, subject rows, question history and exam attempts are not touched. *)
Theorem upload_writes_the_paper (HTTPException_str : Z → string → string)
    (autoflush available : bool) (filename : string)
    (images : string + list (option (list ExtractedQuestion.t)))
    (exam_type subject year : string) (db : DB) saved_questions db' :
  upload_past_questions HTTPException_str autoflush available filename images
    exam_type subject year db = (inr saved_questions, db') →
  ∃ pages,
    images = inr pages
    ∧ saved_questions ≠ []
    ∧ Forall (fun pq => pq ∈ past_questions db'
                        ∧ uploaded exam_type subject year (length pages) pq)
        saved_questions
    ∧ (∀ i p, past_questions db !! i = Some p →
         ∃ p', past_questions db' !! i = Some p'
               ∧ PastQuestion.id p' = PastQuestion.id p
               ∧ paper_of p' = paper_of p
               ∧ PastQuestion.question_number p' = PastQuestion.question_number p
               ∧ (paper_of p ≠ (exam_type, subject, year) → p' = p))
    ∧ (∀ i p', past_questions db' !! i = Some p' →
         (length (past_questions db) ≤ i)%nat →
         uploaded exam_type subject year (length pages) p')
    ∧ users db' = users db
    ∧ user_subjects db' = user_subjects db
    ∧ question_history db' = question_history db
    ∧ exam_attempts db' = exam_attempts db.
Proof. apply upload_success. Qed.

Lemma upload_writes_the_paper_witness :
  ∃ pages,
    scanned_paper = inr pages
    ∧ uploaded_rows ≠ []
    ∧ Forall (fun pq => pq ∈ past_questions db_uploaded
                        ∧ uploaded "JAMB" "Mathematics" "2021" (length pages) pq)
        uploaded_rows
    ∧ (∀ i p, past_questions db_small_bank !! i = Some p →
         ∃ p', past_questions db_uploaded !! i = Some p'
               ∧ PastQuestion.id p' = PastQuestion.id p
               ∧ paper_of p' = paper_of p
               ∧ PastQuestion.question_number p' = PastQuestion.question_number p
               ∧ (paper_of p ≠ ("JAMB", "Mathematics", "2021") → p' = p))
    ∧ (∀ i p', past_questions db_uploaded !! i = Some p' →
         (length (past_questions db_small_bank) ≤ i)%nat →
         uploaded "JAMB" "Mathematics" "2021" (length pages) p')
    ∧ users db_uploaded = users db_small_bank
    ∧ user_subjects db_uploaded = user_subjects db_small_bank
    ∧ question_history db_uploaded = question_history db_small_bank
    ∧ exam_attempts db_uploaded = exam_attempts db_small_bank.
Proof.
  apply (upload_writes_the_paper status_and_detail true true "maths.pdf" scanned_paper
           "JAMB" "Mathematics" "2021" db_small_bank uploaded_rows db_uploaded).
  vm_compute. reflexivity.
Defined.

Lemma uploaded_matches_request request exam_type subject year pages pq :
  uploaded exam_type subject year pages pq →
  MockExamRequest.exam_type request = exam_type →
  MockExamRequest.subject request = subject →
  MockExamRequest.year request = Some year
  ∨ Py.truthy (MockExamRequest.year request) = false
  ∨ MockExamRequest.year request = Some "Random Mix" →
  matches_request request pq = true.
Proof.
  intros ([= Het Hsj Hyr] & Hanswer & _) <- <- Hyear. unfold matches_request.
  rewrite Het, Hsj, !String.eqb_refl. simpl.
  rewrite bool_decide_eq_true_2.
  2:{ intros Hnone. by rewrite Hnone in Hanswer. }
  simpl. destruct Hyear as [Hy|[Hy|Hy]].
  - rewrite Hy, Hyr. case_match; [|done]. by apply bool_decide_eq_true.
  - by rewrite Hy.
  - rewrite Hy. simpl. done.
Qed.

(** X26: an uploaded paper can be examined. After a successful upload for a
    paper, [create_mock_exam] for the same exam type and subject, with the
    paper's year, without a year or with "Random Mix", and with a count
    between 10 and 100, does not answer "No questions available": it creates
    an exam from the bank, of at least one and at most the requested number
    of questions, in the time the request asks for. *)
Theorem uploaded_paper_can_be_examined (HTTPException_str : Z → string → string)
    (autoflush available : bool) (filename : string)
    (images : string + list (option (list ExtractedQuestion.t)))
    (exam_type subject year : string) (db : DB) saved_questions db'
    request current_user now draws :
  upload_past_questions HTTPException_str autoflush available filename images
    exam_type subject year db = (inr saved_questions, db') →
  validated request →
  MockExamRequest.exam_type request = exam_type →
  MockExamRequest.subject request = subject →
  MockExamRequest.year request = Some year
  ∨ Py.truthy (MockExamRequest.year request) = false
  ∨ MockExamRequest.year request = Some "Random Mix" →
  ∃ response db'',
    create_mock_exam request current_user now draws db' = (inr response, db'')
    ∧ 1 ≤ MockExamResponse.total_questions response
        ≤ MockExamRequest.number_of_questions request
    ∧ MockExamResponse.total_questions response
      = Py.len (MockExamResponse.questions response)
    ∧ MockExamResponse.time_limit_minutes response
      = MockExamRequest.time_limit_minutes request
    ∧ ∃ selected,
        selected ⊆+ questions_pool_db request db'
        ∧ MockExamResponse.questions response = imap hide_past_question selected.
Proof.
  intros Hupload [Hn Ht] Het Hsj Hyear.
  destruct (upload_success _ _ _ _ _ _ _ _ _ _ _ Hupload)
    as (pages & _ & Hsaved & Hall & _).
  destruct saved_questions as [|pq saved_questions]; [done|].
  apply Forall_cons in Hall as [[Hin Hup] _].
  pose proof (uploaded_matches_request request _ _ _ _ _ Hup Het Hsj Hyear) as Hmatch.
  assert (pq ∈ questions_pool_db request db') as Hpool.
  { unfold questions_pool_db. apply list_elem_of_In, List.filter_In.
    split; [by apply list_elem_of_In|done]. }
  unfold create_mock_exam.
  destruct (questions_pool_db request db') as [|p pool] eqn:Hpool_eq.
  { by apply elem_of_nil in Hpool. }
  unfold num_questions, bank_time_limit. rewrite !int_or_nonzero by lia.
  destruct (random_sample_length draws (p :: pool)
              (Z.min (MockExamRequest.number_of_questions request) (Py.len (p :: pool))))
    as (selected & -> & Hlen & Hsub).
  { unfold Py.len. simpl length. lia. }
  eexists _, _. split; [done|]. simpl.
  unfold Py.len in *. rewrite length_imap. simpl length in Hlen.
  split_and!; [lia|lia|done|done|by exists selected].
Qed.

Lemma uploaded_paper_can_be_examined_witness :
  ∃ response db'',
    create_mock_exam (MockExamRequest.mk "JAMB" "Mathematics" (Some "2021") 40 60)
      7 1000 [1]%nat db_uploaded = (inr response, db'')
    ∧ 1 ≤ MockExamResponse.total_questions response ≤ 40
    ∧ MockExamResponse.total_questions response
      = Py.len (MockExamResponse.questions response)
    ∧ MockExamResponse.time_limit_minutes response = 60
    ∧ ∃ selected,
        selected ⊆+ questions_pool_db
                      (MockExamRequest.mk "JAMB" "Mathematics" (Some "2021") 40 60)
                      db_uploaded
        ∧ MockExamResponse.questions response = imap hide_past_question selected.
Proof.
  apply (uploaded_paper_can_be_examined status_and_detail true true "maths.pdf"
           scanned_paper "JAMB" "Mathematics" "2021" db_small_bank uploaded_rows
           db_uploaded).
  - vm_compute. reflexivity.
  - unfold validated. simpl. lia.
  - reflexivity.
  - reflexivity.
  - left. reflexivity.
Defined.

Lemma bank_keys_distinct_update rows i existing q_data question_text options :
  bank_keys_distinct rows →
  rows !! i = Some existing →
  bank_keys_distinct (<[i := update_existing existing q_data question_text options]> rows).
Proof.
  intros Hkeys Hi j k p q Hj Hk Hpaper Hnumber.
  assert (∀ j p, <[i := update_existing existing q_data question_text options]> rows !! j
                 = Some p →
                 ∃ p0, rows !! j = Some p0 ∧ paper_of p0 = paper_of p
                       ∧ PastQuestion.question_number p0 = PastQuestion.question_number p)
    as Hsame.
  { intros j' p' Hj'. destruct (decide (i = j')) as [<-|Hne].
    - rewrite list_lookup_insert_eq in Hj' by (by eapply lookup_lt_Some).
      injection Hj' as <-. by exists existing.
    - rewrite list_lookup_insert_ne in Hj' by done. by exists p'. }
  destruct (Hsame j p Hj) as (p0 & Hj0 & Hp0 & Hn0).
  destruct (Hsame k q Hk) as (q0 & Hk0 & Hq0 & Hm0).
  apply (Hkeys j k p0 q0); congruence.
Qed.

Lemma bank_keys_distinct_new rows pq :
  bank_keys_distinct rows →
  (∀ i p, rows !! i = Some p →
          ¬ (paper_of p = paper_of pq
             ∧ PastQuestion.question_number p = PastQuestion.question_number pq)) →
  bank_keys_distinct (rows ++ [pq]).
Proof.
  intros Hkeys Hfresh j k p q Hj Hk Hpaper Hnumber.
  apply lookup_app_Some in Hj as [Hj|[Hjl Hj]];
    apply lookup_app_Some in Hk as [Hk|[Hkl Hk]].
  - by apply (Hkeys j k p q).
  - apply list_lookup_singleton_Some in Hk as [_ <-]. destruct (Hfresh j p Hj). done.
  - apply list_lookup_singleton_Some in Hj as [_ <-]. destruct (Hfresh k q Hk). done.
  - apply list_lookup_singleton_Some in Hj as [Hj _].
    apply list_lookup_singleton_Some in Hk as [Hk _]. lia.
Qed.

Lemma keys_loop autoflush committed exam_type subject year :
  ∀ valid_questions st st',
    Forall (fun q => has_answer q = true) valid_questions →
    autoflush = true ∨ NoDup (QuestionData.question_number <$> valid_questions) →
    bank_keys_distinct st.1 →
    (committed ≤ length st.1)%nat →
    (autoflush = false →
     ∀ i p, st.1 !! i = Some p → (committed ≤ i)%nat →
            paper_of p = (exam_type, subject, year)
            ∧ Some (PastQuestion.question_number p)
              ∉ QuestionData.question_number <$> valid_questions) →
    for_each (save_question autoflush committed exam_type subject year)
      valid_questions st = inr st' →
    bank_keys_distinct st'.1.
Proof.
  induction valid_questions as [|q qs IH];
    intros st st' Hanswers Hnumbers Hkeys Hlen Hlater Hloop; simpl in Hloop.
  { by injection Hloop as <-. }
  apply Forall_cons in Hanswers as [Hanswer Hanswers].
  pose proof (save_question_step autoflush committed exam_type subject year st.1 st.2 q
                Hanswer) as Hcases.
  rewrite <- surjective_pairing in Hcases.
  destruct (save_question _ _ _ _ _ st q) as [e|st1] eqn:Hstep; [done|].
  simpl in Hloop.
  destruct Hcases as (_ & n & question_text & options & Hn & Hcases).
  assert (autoflush = true ∨ NoDup (QuestionData.question_number <$> qs)) as Hnumbers'.
  { destruct Hnumbers as [?|Hnodup]; [by left|right].
    rewrite fmap_cons in Hnodup. by apply NoDup_cons in Hnodup as [_ ?]. }
  apply (IH st1 st' Hanswers Hnumbers'); [..|done].
  - destruct Hcases as [(i & existing & Hfind & ->)|[Hfind ->]]; simpl.
    + apply first_visible in Hfind as (Hi & _ & _). by apply bank_keys_distinct_update.
    + apply bank_keys_distinct_new; [done|].
      intros i p Hi [Hpaper Hnumber]. simpl in Hpaper, Hnumber.
      destruct autoflush.
      * pose proof (proj1 (first_None _ _) Hfind p (list_elem_of_lookup_2 _ _ _ Hi)) as Hno.
        assert (same_question exam_type subject year n p = true); [|congruence].
        by apply same_question_true.
      * destruct (decide (i < committed)%nat) as [Hlt|Hge].
        -- assert (take committed st.1 !! i = Some p) as Hi'
             by (by rewrite lookup_take_lt).
           pose proof (proj1 (first_None _ _) Hfind p (list_elem_of_lookup_2 _ _ _ Hi'))
             as Hno.
           assert (same_question exam_type subject year n p = true); [|congruence].
           by apply same_question_true.
        -- destruct (Hlater eq_refl i p Hi ltac:(lia)) as [_ Hnot].
           apply Hnot. rewrite fmap_cons, Hn, Hnumber. left.
  - destruct Hcases as [(i & existing & Hfind & ->)|[Hfind ->]]; simpl.
    + by rewrite length_insert.
    + rewrite length_app. lia.
  - intros Hflush i p Hi Hge.
    destruct Hcases as [(k & existing & Hfind & ->)|[Hfind ->]]; simpl in Hi.
    + apply first_visible in Hfind as (Hk & _ & Hlt). specialize (Hlt Hflush).
      rewrite list_lookup_insert_ne in Hi by lia.
      destruct (Hlater Hflush i p Hi Hge) as [Hpaper Hnot]. split; [done|].
      intros Hin. apply Hnot. rewrite fmap_cons. by right.
    + apply lookup_app_Some in Hi as [Hi|[_ Hi]].
      * destruct (Hlater Hflush i p Hi Hge) as [Hpaper Hnot]. split; [done|].
        intros Hin. apply Hnot. rewrite fmap_cons. by right.
      * apply list_lookup_singleton_Some in Hi as [_ <-]. split; [done|]. simpl.
        destruct Hnumbers as [?|Hnodup]; [congruence|].
        rewrite fmap_cons, Hn in Hnodup. by apply NoDup_cons in Hnodup as [? _].
Qed.

(** X27: no question is stored twice. If no two rows of the bank are the
    same question (number) of the same paper (exam type, subject, year), this
    is still so after an upload, whatever its outcome, provided the session
    autoflushes or the answered questions extracted from the PDF have
    pairwise different numbers: a question that is in the bank already is
    updated in place, not added again. *)
Theorem bank_keys_stay_distinct (HTTPException_str : Z → string → string)
    (autoflush available : bool) (filename : string)
    (images : string + list (option (list ExtractedQuestion.t)))
    (exam_type subject year : string) (db : DB) :
  bank_keys_distinct (past_questions db) →
  autoflush = true
  ∨ (∀ questions_data,
       process_pdf available images exam_type subject year = inr questions_data →
       NoDup (saved_numbers questions_data)) →
  bank_keys_distinct
    (past_questions
       (upload_past_questions HTTPException_str autoflush available filename images
          exam_type subject year db).2).
Proof.
  intros Hkeys Hnumbers. unfold upload_past_questions.
  destruct (endswith filename ".pdf"); cbn [negb]; [|done].
  destruct (process_pdf available images exam_type subject year)
    as [msg|questions_data] eqn:Hprocess; [done|].
  destruct questions_data as [|q0 questions_data]; [done|].
  assert (autoflush = true
          ∨ NoDup (QuestionData.question_number
                     <$> List.filter has_answer (q0 :: questions_data))) as Hnumbers'.
  { destruct Hnumbers as [?|Hnodup]; [by left|right]. by apply Hnodup. }
  assert (Forall (fun q => has_answer q = true)
            (List.filter has_answer (q0 :: questions_data))) as Hanswers.
  { apply Forall_forall. intros x Hx.
    by apply list_elem_of_In, List.filter_In in Hx as [_ ?]. }
  destruct (List.filter has_answer (q0 :: questions_data)) as [|q valid]; [done|].
  destruct (for_each _ (q :: valid) _) as [e|st] eqn:Hloop; [done|].
  simpl.
  apply (keys_loop autoflush (length (past_questions db)) exam_type subject year
           (q :: valid) (past_questions db, []) st Hanswers Hnumbers'); simpl; try done.
  intros _ i p Hi Hge. apply lookup_lt_Some in Hi. lia.
Qed.

Lemma bank_keys_stay_distinct_witness :
  bank_keys_distinct (past_questions db_uploaded).
Proof.
  apply (bank_keys_stay_distinct status_and_detail true true "maths.pdf" scanned_paper
           "JAMB" "Mathematics" "2021" db_small_bank).
  - intros [|[|[|i]]] [|[|[|j]]] p q Hi Hj Hpaper Hnumber;
      vm_compute in Hi, Hj; simplify_eq; try reflexivity; discriminate.
  - left. reflexivity.
Defined.

(** ** The available papers *)

Lemma sum_indicator {K} `{EqDecision K} (k0 : K) (ks : list K) :
  NoDup ks → k0 ∈ ks →
  sum_list ((fun k => if bool_decide (k0 = k) then 1 else 0) <$> ks) = 1.
Proof.
  unfold sum_list. induction 1 as [|k ks Hk Hnodup IH]; intros Hin.
  { by apply elem_of_nil in Hin. }
  rewrite fmap_cons. simpl. apply elem_of_cons in Hin as [<-|Hin].
  - rewrite bool_decide_eq_true_2 by done.
    assert (foldr Z.add 0 ((fun k => if bool_decide (k0 = k) then 1 else 0) <$> ks) = 0)
      as ->; [|done].
    clear IH Hnodup. induction ks as [|k ks IH]; [done|].
    rewrite fmap_cons. simpl. rewrite bool_decide_eq_false_2.
    + rewrite IH; [done|]. intros ?. apply Hk. by right.
    + intros <-. apply Hk. left.
  - rewrite bool_decide_eq_false_2 by (intros <-; done). rewrite IH by done. done.
Qed.

Lemma sum_list_add {K} (f g : K → Z) (ks : list K) :
  sum_list ((fun k => f k + g k) <$> ks) = sum_list (f <$> ks) + sum_list (g <$> ks).
Proof.
  unfold sum_list. induction ks as [|k ks IH]; [done|].
  rewrite !fmap_cons. simpl. rewrite IH. lia.
Qed.

Lemma count_partition {A K} `{EqDecision K} (f : A → K) (ks : list K) (l : list A) :
  NoDup ks → (∀ x, x ∈ l → f x ∈ ks) →
  sum_list ((fun k => Py.len (List.filter (fun x => bool_decide (f x = k)) l)) <$> ks)
  = Py.len l.
Proof.
  intros Hnodup. induction l as [|x l IH]; intros Hall.
  - unfold sum_list, Py.len. simpl. clear. induction ks as [|k ks IH]; [done|].
    rewrite fmap_cons. simpl. by rewrite IH.
  - erewrite list_fmap_ext.
    + rewrite (sum_list_add
                 (fun k => if bool_decide (f x = k) then 1 else 0)
                 (fun k => Py.len (List.filter (fun x => bool_decide (f x = k)) l))).
      rewrite IH by (intros y Hy; apply Hall; by right).
      rewrite sum_indicator; [|done|apply Hall; left].
      unfold Py.len. simpl length. lia.
    + intros i k _. simpl. unfold Py.len.
      destruct (bool_decide (f x = k)); simpl length; lia.
Qed.

Lemma is_available_paper exam_type subject year pq pq' :
  paper_of pq = paper_of pq' →
  is_available exam_type subject year pq = is_available exam_type subject year pq'.
Proof. unfold is_available, paper_of. by intros [= -> -> ->]. Qed.

Lemma filter_filter_paper exam_type subject year (r : string * string * string)
    (rows : list PastQuestion.t) pq0 :
  paper_of pq0 = r → is_available exam_type subject year pq0 = true →
  List.filter (fun pq => bool_decide (paper_of pq = r))
    (List.filter (is_available exam_type subject year) rows)
  = List.filter (fun pq => bool_decide (paper_of pq = r)) rows.
Proof.
  intros Hr Havailable. induction rows as [|pq rows IH]; simpl; [done|].
  destruct (is_available exam_type subject year pq) eqn:Hpq; simpl.
  - by rewrite IH.
  - rewrite IH. case_bool_decide as Hpaper; [|done].
    rewrite (is_available_paper _ _ _ pq pq0) in Hpq by congruence. congruence.
Qed.

(** X28: the list of available papers. [get_available_past_questions] lists
    each paper (exam type, subject, year) of the bank that passes the given
    filters exactly once; the count of a paper is the number of its questions
    in the bank, hence at least 1, and the counts add up to the number of
    bank entries that pass the filters. *)
Theorem available_papers_are_counted (exam_type subject year : option string) (db : DB) :
  NoDup (paper_of_entry <$> get_available_past_questions exam_type subject year db)
  ∧ (∀ r, r ∈ paper_of_entry <$> get_available_past_questions exam_type subject year db
          ↔ ∃ pq, pq ∈ past_questions db
                  ∧ is_available exam_type subject year pq = true
                  ∧ paper_of pq = r)
  ∧ Forall (fun a => AvailablePastQuestionsResponse.question_count a
                     = count_of_paper (paper_of_entry a) db
                     ∧ 1 ≤ AvailablePastQuestionsResponse.question_count a)
      (get_available_past_questions exam_type subject year db)
  ∧ sum_list (AvailablePastQuestionsResponse.question_count
                <$> get_available_past_questions exam_type subject year db)
    = Py.len (List.filter (is_available exam_type subject year) (past_questions db)).
Proof.
  unfold get_available_past_questions.
  set (query := List.filter (is_available exam_type subject year) (past_questions db)).
  assert (∀ r, r ∈ remove_dups (map paper_of query)
               ↔ ∃ pq, pq ∈ past_questions db
                       ∧ is_available exam_type subject year pq = true
                       ∧ paper_of pq = r) as Hpapers.
  { intros r. rewrite elem_of_remove_dups, list_elem_of_fmap. unfold query. split.
    - intros (pq & -> & Hpq). exists pq.
      apply list_elem_of_In, List.filter_In in Hpq as [Hpq%list_elem_of_In ?]. done.
    - intros (pq & Hpq & Havailable & <-). exists pq. split; [done|].
      apply list_elem_of_In, List.filter_In. split; [by apply list_elem_of_In|done]. }
  assert (paper_of_entry
            <$> map (fun r => AvailablePastQuestionsResponse.mk r.1.1 r.1.2 r.2
                                (count_of_paper r db))
                  (remove_dups (map paper_of query))
          = remove_dups (map paper_of query)) as Hentries.
  { rewrite <- list_fmap_compose. etrans; [|apply list_fmap_id].
    apply list_fmap_ext. by intros i [[? ?] ?] _. }
  split_and!.
  - rewrite Hentries. apply NoDup_remove_dups.
  - intros r. by rewrite Hentries.
  - apply Forall_fmap, Forall_forall. intros r Hr. simpl.
    destruct r as [[et sj] yr]. split; [done|].
    apply Hpapers in Hr as (pq & Hpq & _ & Hpaper).
    unfold count_of_paper. apply filter_positive. exists pq. split; [done|].
    by apply bool_decide_eq_true.
  - rewrite <- list_fmap_compose.
    rewrite <- (count_partition paper_of (remove_dups (map paper_of query)) query).
    + f_equal. apply list_fmap_ext. intros i r Hi. simpl.
      unfold count_of_paper. f_equal.
      apply list_elem_of_lookup_2, Hpapers in Hi as (pq & _ & Havailable & Hpaper).
      symmetry. by eapply filter_filter_paper.
    + apply NoDup_remove_dups.
    + intros pq Hpq. apply elem_of_remove_dups, list_elem_of_fmap. by exists pq.
Qed.

(** ** Lessons *)

Lemma is_lesson_of_true u subject topic difficulty lesson :
  is_lesson_of u subject topic difficulty lesson = true
  ↔ SavedLesson.user_id lesson = u
    ∧ SavedLesson.subject lesson = subject
    ∧ SavedLesson.topic lesson = topic
    ∧ SavedLesson.difficulty_level lesson = difficulty.
Proof.
  unfold is_lesson_of. rewrite !andb_true_iff, Z.eqb_eq, !String.eqb_eq. tauto.
Qed.

Lemma lessons_distinct_touch lessons i lesson now :
  lessons_distinct lessons → lessons !! i = Some lesson →
  lessons_distinct (<[i := touch now lesson]> lessons).
Proof.
  intros Hdistinct Hi j k a b Hj Hk Hu Hs Ht Hd.
  assert (∀ j a, <[i := touch now lesson]> lessons !! j = Some a →
                 ∃ a0, lessons !! j = Some a0
                       ∧ SavedLesson.user_id a0 = SavedLesson.user_id a
                       ∧ SavedLesson.subject a0 = SavedLesson.subject a
                       ∧ SavedLesson.topic a0 = SavedLesson.topic a
                       ∧ SavedLesson.difficulty_level a0 = SavedLesson.difficulty_level a)
    as Hsame.
  { intros j' a' Hj'. destruct (decide (i = j')) as [<-|Hne].
    - rewrite list_lookup_insert_eq in Hj' by (by eapply lookup_lt_Some).
      injection Hj' as <-. by exists lesson.
    - rewrite list_lookup_insert_ne in Hj' by done. by exists a'. }
  destruct (Hsame j a Hj) as (a0 & Hj0 & ? & ? & ? & ?).
  destruct (Hsame k b Hk) as (b0 & Hk0 & ? & ? & ? & ?).
  apply (Hdistinct j k a0 b0); congruence.
Qed.

(** X29: a lesson is taught once. When [teach_topic] succeeds, the same
    request by the same user is from then on answered from the table: with
    the same content, video link and [lesson_id], whatever the AI service and
    the video search would answer (also when they fail), and with no change
    to the table but the time of last access of that lesson. If no user had
    two lessons for the same subject, topic and difficulty before, none has
    after. *)
Theorem lesson_is_taught_once request ai api current_user now lessons response lessons' :
  teach_topic request ai api current_user now lessons = (inr response, lessons') →
  (lessons_distinct lessons → lessons_distinct lessons')
  ∧ ∃ i lesson,
      lessons' !! i = Some lesson
      ∧ SavedLesson.id lesson = TopicTeachResponse.lesson_id response
      ∧ SavedLesson.user_id lesson = current_user
      ∧ ∀ ai' api' now',
          teach_topic request ai' api' current_user now' lessons'
          = (inr response, <[i := touch now' lesson]> lessons').
Proof.
  unfold teach_topic.
  case_bool_decide as Hsubject; simpl; [|done].
  destruct (first _ lessons) as [[i existing]|] eqn:Hfind.
  - intros [= <- <-].
    destruct (first_lookup _ _ _ _ Hfind) as [Hi Hmine].
    split; [intros Hd; by apply lessons_distinct_touch|].
    exists i, (touch now existing). split_and!.
    + apply list_lookup_insert_eq. by eapply lookup_lt_Some.
    + done.
    + by apply is_lesson_of_true in Hmine as [? _].
    + intros ai' api' now'.
      rewrite (first_insert_same _ _ _ _ (touch now existing) Hfind Hmine).
      by rewrite list_insert_insert_eq.
  - destruct ai as [msg|teaching_data]; [done|]. intros [= <- <-].
    set (saved_lesson := SavedLesson.mk _ _ _ _ _ _ _ _ _).
    assert (is_lesson_of current_user (TopicTeachRequest.subject request)
              (TopicTeachRequest.topic request)
              (Py.str_or (TopicTeachRequest.difficulty_level request) "medium")
              saved_lesson = true) as Hnew.
    { apply is_lesson_of_true. done. }
    split.
    + intros Hdistinct j k a b Hj Hk Hu Hs Ht Hd.
      assert (∀ j a, lessons !! j = Some a →
                     ¬ (SavedLesson.user_id a = SavedLesson.user_id saved_lesson
                        ∧ SavedLesson.subject a = SavedLesson.subject saved_lesson
                        ∧ SavedLesson.topic a = SavedLesson.topic saved_lesson
                        ∧ SavedLesson.difficulty_level a
                          = SavedLesson.difficulty_level saved_lesson)) as Hfresh.
      { intros j' a' Hj' Hsame.
        pose proof (proj1 (first_None _ _) Hfind a' (list_elem_of_lookup_2 _ _ _ Hj'))
          as Hno.
        assert (is_lesson_of current_user (TopicTeachRequest.subject request)
                  (TopicTeachRequest.topic request)
                  (Py.str_or (TopicTeachRequest.difficulty_level request) "medium")
                  a' = true); [|congruence].
        by apply is_lesson_of_true. }
      apply lookup_app_Some in Hj as [Hj|[Hjl Hj]];
        apply lookup_app_Some in Hk as [Hk|[Hkl Hk]].
      * by apply (Hdistinct j k a b).
      * apply list_lookup_singleton_Some in Hk as [_ <-]. by destruct (Hfresh j a Hj).
      * apply list_lookup_singleton_Some in Hj as [_ <-]. by destruct (Hfresh k b Hk).
      * apply list_lookup_singleton_Some in Hj as [Hj _].
        apply list_lookup_singleton_Some in Hk as [Hk _]. lia.
    + exists (length lessons), saved_lesson. split_and!.
      * by rewrite lookup_app_r, Nat.sub_diag.
      * done.
      * done.
      * intros ai' api' now'.
        rewrite (first_app_r _ lessons saved_lesson (proj1 (first_None _ _) Hfind) Hnew).
        done.
Qed.

Lemma lesson_is_taught_once_witness :
  (lessons_distinct [] → lessons_distinct lessons_after)
  ∧ ∃ i lesson,
      lessons_after !! i = Some lesson
      ∧ SavedLesson.id lesson = TopicTeachResponse.lesson_id quadratics_response
      ∧ SavedLesson.user_id lesson = 7
      ∧ ∀ ai' api' now',
          teach_topic quadratics ai' api' 7 now' lessons_after
          = (inr quadratics_response, <[i := touch now' lesson]> lessons_after).
Proof.
  apply (lesson_is_taught_once quadratics (inr quadratics_lesson) tutorial_only 7 1000 []
           quadratics_response lessons_after).
  vm_compute. reflexivity.
Defined.

(** X30: the video of a lesson. [search_educational_video] returns the first
    item of the search for "<topic> <subject>"; only when that search returns
    no item it returns the first item of the search for
    "<topic> <subject> tutorial"; a failed request is final and gives no
    video. The link of a video found is the watch address of its id. The
    search never makes [teach_topic] fail: with an available subject and an
    answer of the AI service the lesson is stored, with the link of the video
    found or with none. *)
Theorem video_search_falls_back_on_empty (api : string → option (list YouTubeItem.t))
    request teaching_data current_user now lessons :
  TopicTeachRequest.subject request ∈ AVAILABLE_SUBJECTS →
  first (is_lesson_of current_user (TopicTeachRequest.subject request)
           (TopicTeachRequest.topic request)
           (Py.str_or (TopicTeachRequest.difficulty_level request) "medium"))
    lessons = None →
  match search_educational_video api (TopicTeachRequest.subject request)
          (TopicTeachRequest.topic request) with
  | Some info =>
      VideoInfo.video_url info
      = "https://www.youtube.com/watch?v=" +:+ VideoInfo.video_id info
      ∧ VideoInfo.youtube_video_id info = VideoInfo.video_id info
      ∧ VideoInfo.youtube_video_url info = VideoInfo.video_url info
      ∧ ((∃ video rest,
            api (TopicTeachRequest.topic request +:+ " "
                 +:+ TopicTeachRequest.subject request) = Some (video :: rest)
            ∧ info = video_info video)
         ∨ (api (TopicTeachRequest.topic request +:+ " "
                 +:+ TopicTeachRequest.subject request) = Some []
            ∧ ∃ video rest,
                api (TopicTeachRequest.topic request +:+ " "
                     +:+ TopicTeachRequest.subject request +:+ " tutorial")
                = Some (video :: rest)
                ∧ info = video_info video))
  | None =>
      api (TopicTeachRequest.topic request +:+ " "
           +:+ TopicTeachRequest.subject request) = None
      ∨ (api (TopicTeachRequest.topic request +:+ " "
              +:+ TopicTeachRequest.subject request) = Some []
         ∧ (api (TopicTeachRequest.topic request +:+ " "
                 +:+ TopicTeachRequest.subject request +:+ " tutorial") = None
            ∨ api (TopicTeachRequest.topic request +:+ " "
                   +:+ TopicTeachRequest.subject request +:+ " tutorial") = Some []))
  end
  ∧ ∃ response lessons',
      teach_topic request (inr teaching_data) api current_user now lessons
      = (inr response, lessons')
      ∧ TopicTeachResponse.video_link response
        = VideoInfo.video_url
            <$> search_educational_video api (TopicTeachRequest.subject request)
                  (TopicTeachRequest.topic request)
      ∧ TopicTeachResponse.youtube_video_id response
        = VideoInfo.video_id
            <$> search_educational_video api (TopicTeachRequest.subject request)
                  (TopicTeachRequest.topic request)
      ∧ length lessons' = S (length lessons).
Proof.
  intros Hsubject Hnew. split.
  - unfold search_educational_video, _fallback_search.
    destruct (api (TopicTeachRequest.topic request +:+ " "
                   +:+ TopicTeachRequest.subject request)) as [[|video rest]|] eqn:Hfirst.
    + destruct (api (TopicTeachRequest.topic request +:+ " "
                     +:+ TopicTeachRequest.subject request +:+ " tutorial"))
        as [[|video rest]|] eqn:Hsecond.
      * right. by split; [|right].
      * split_and!; try done. right. split; [done|]. by exists video, rest.
      * right. by split; [|left].
    + split_and!; try done. left. by exists video, rest.
    + by left.
  - unfold teach_topic. rewrite bool_decide_eq_true_2 by done. simpl.
    rewrite Hnew. eexists _, _. split; [done|]. simpl. split_and!.
    + unfold usable_url.
      destruct (search_educational_video _ _ _) as [info|] eqn:Hsearch; [|done].
      simpl.
      assert (VideoInfo.video_url info
              = "https://www.youtube.com/watch?v=" +:+ VideoInfo.video_id info) as ->.
      { unfold search_educational_video, _fallback_search in Hsearch.
        repeat case_match; simplify_eq; done. }
      done.
    + done.
    + rewrite length_app. simpl. lia.
Qed.

(** The first search is empty, the fallback finds the video. *)
Lemma video_search_falls_back_on_empty_witness :
  (VideoInfo.video_url (video_info (YouTubeItem.mk "abcdefghijk" "Quadratics" "Maths Channel"))
   = "https://www.youtube.com/watch?v=" +:+ "abcdefghijk"
   ∧ "abcdefghijk" = "abcdefghijk"
   ∧ "https://www.youtube.com/watch?v=abcdefghijk"
     = "https://www.youtube.com/watch?v=abcdefghijk"
   ∧ ((∃ video rest,
         tutorial_only ("Quadratic Equations" +:+ " " +:+ "Mathematics")
         = Some (video :: rest)
         ∧ video_info (YouTubeItem.mk "abcdefghijk" "Quadratics" "Maths Channel")
           = video_info video)
      ∨ (tutorial_only ("Quadratic Equations" +:+ " " +:+ "Mathematics") = Some []
         ∧ ∃ video rest,
             tutorial_only ("Quadratic Equations" +:+ " " +:+ "Mathematics" +:+ " tutorial")
             = Some (video :: rest)
             ∧ video_info (YouTubeItem.mk "abcdefghijk" "Quadratics" "Maths Channel")
               = video_info video)))
  ∧ ∃ response lessons',
      teach_topic quadratics (inr quadratics_lesson) tutorial_only 7 1000 []
      = (inr response, lessons')
      ∧ TopicTeachResponse.video_link response
        = VideoInfo.video_url
            <$> search_educational_video tutorial_only "Mathematics" "Quadratic Equations"
      ∧ TopicTeachResponse.youtube_video_id response
        = VideoInfo.video_id
            <$> search_educational_video tutorial_only "Mathematics" "Quadratic Equations"
      ∧ length lessons' = S (length (@nil SavedLesson.t)).
Proof.
  apply (video_search_falls_back_on_empty tutorial_only quadratics quadratics_lesson
           7 1000 []).
  - apply (bool_decide_unpack (TopicTeachRequest.subject quadratics ∈ AVAILABLE_SUBJECTS)).
    vm_compute. exact I.
  - reflexivity.
Defined.
